(** * The analytics agent of brandbastion-challenge, embedded in Rocq

    The development follows [backend/agents/analytics_agent.py],
    [backend/agents/analytics_utils.py], [backend/embeddings/generator.py]
    and the comment parser of [data-pipeline/parsers/pdf_parser.py].

    Conventions of the embedding.

    - Text.  A Python [str] is a Rocq [string]; a character is read as the
      Unicode code point of the same number, so the model covers text in
      U+0000..U+00FF.  [lower], [strip] and [split] follow CPython's tables
      on that range.  The only character of the sources outside the range
      is the bullet U+2022 of [generate_response]; it is written as the
      three bytes of its UTF-8 encoding and is never inspected by any stage.
    - Numbers.  Python [float]s that take part in arithmetic (polarity,
      percentages, z-scores) are binary64 values, the primitive [float] type.
      Similarity scores are only compared and printed: they are rationals
      [Q] (every finite binary64 value is one), which excludes NaN scores.
    - Dictionaries.  The [metadata] of a retrieved document is a
      [gmap string MetaValue]; result dictionaries with a fixed set of keys
      are records, keys that may be absent are [option] fields.
    - Effects.  Stages run in the monad [M]: a state (the index directories
      on disk and the log of calls made to the outside) with exceptions.
      The language model, the vector store, TextBlob, [re] and [repr] are
      the fields of [Services], the [self] of every method.  The text
      splitter and the embedding model of the generator are the fields of
      [Embedder].  Writing an index to disk succeeds. *)

From Stdlib Require Import ZArith QArith Qabs Floats String Ascii List Bool Lia.
From Stdlib Require Import Permutation Sorted.
From stdpp Require Import base option list gmap strings pretty.

Set Warnings "-inexact-float".
Local Open Scope nat_scope.

(** ** Python strings *)

Module PyStr.

Definition code (c : ascii) : N := N_of_ascii c.

(** [str.isupper] on U+0000..U+00FF: A-Z and U+00C0..U+00DE except the
    multiplication sign U+00D7. *)
Definition is_upper (c : ascii) : bool :=
  let n := code c in
  ((65 <=? n) && (n <=? 90) || (192 <=? n) && (n <=? 222) && negb (n =? 215))%N.

Definition lower_char (c : ascii) : ascii :=
  if is_upper c then ascii_of_N (code c + 32) else c.

(** [s.lower()] *)
Fixpoint lower (s : string) : string :=
  match s with
  | EmptyString => EmptyString
  | String c s' => String (lower_char c) (lower s')
  end.

Definition is_ascii_lower (c : ascii) : bool :=
  let n := code c in ((97 <=? n) && (n <=? 122))%N.

Definition upper_char (c : ascii) : ascii :=
  if is_ascii_lower c then ascii_of_N (code c - 32) else c.

(** [s.capitalize()]; the agent applies it to sentiment labels only, which
    are ASCII, so upper-casing is the ASCII one. *)
Definition capitalize (s : string) : string :=
  match s with
  | EmptyString => EmptyString
  | String c s' => String (upper_char c) (lower s')
  end.

(** [str.isspace] on U+0000..U+00FF. *)
Definition is_space (c : ascii) : bool :=
  let n := code c in
  ((9 <=? n) && (n <=? 13) || (28 <=? n) && (n <=? 32) || (n =? 133) || (n =? 160))%N.

Fixpoint lstrip_by (p : ascii -> bool) (s : string) : string :=
  match s with
  | EmptyString => EmptyString
  | String c s' => if p c then lstrip_by p s' else s
  end.

Definition rstrip_by (p : ascii -> bool) (s : string) : string :=
  String.rev (lstrip_by p (String.rev s)).

(** [s.strip()] *)
Definition strip (s : string) : string :=
  rstrip_by is_space (lstrip_by is_space s).

(** [s.lstrip(chars)] *)
Definition lstrip_chars (chars : list ascii) (s : string) : string :=
  lstrip_by (fun c => existsb (Ascii.eqb c) chars) s.

(** [s[:n]] *)
Fixpoint take (n : nat) (s : string) : string :=
  match n, s with
  | S n', String c s' => String c (take n' s')
  | _, _ => EmptyString
  end.

(** [s[n:]] *)
Fixpoint drop (n : nat) (s : string) : string :=
  match n, s with
  | S n', String _ s' => drop n' s'
  | _, _ => s
  end.

(** [s[a:b]] for [0 <= a], [0 <= b] *)
Definition slice (a b : nat) (s : string) : string :=
  take (b - a) (drop a s).

(** [s.startswith(p)] *)
Fixpoint startswith (p s : string) : bool :=
  match p, s with
  | EmptyString, _ => true
  | String a p', String b s' => Ascii.eqb a b && startswith p' s'
  | String _ _, EmptyString => false
  end.

(** [sub in s] *)
Fixpoint contains (sub s : string) : bool :=
  startswith sub s ||
  match s with
  | EmptyString => false
  | String _ s' => contains sub s'
  end.

(** [s.find(sub)]: the first index, [None] for Python's -1. *)
Fixpoint find (sub s : string) : option nat :=
  if startswith sub s then Some 0
  else match s with
       | EmptyString => None
       | String _ s' => option_map S (find sub s')
       end.

(** [sep.join(parts)] *)
Fixpoint join (sep : string) (parts : list string) : string :=
  match parts with
  | [] => EmptyString
  | [p] => p
  | p :: ps => p +:+ sep +:+ join sep ps
  end.

(** [s.replace(a, b)] for single characters. *)
Fixpoint replace_char (a b : ascii) (s : string) : string :=
  match s with
  | EmptyString => EmptyString
  | String c s' => String (if Ascii.eqb c a then b else c) (replace_char a b s')
  end.

(** [s.split(sep)] for a single character: never the empty list. *)
Fixpoint split_char (sep : ascii) (s : string) : list string :=
  match s with
  | EmptyString => [EmptyString]
  | String c s' =>
      if Ascii.eqb c sep then EmptyString :: split_char sep s'
      else match split_char sep s' with
           | [] => [String c EmptyString]
           | w :: ws => String c w :: ws
           end
  end.

Fixpoint split_ws_go (cur : string) (s : string) : list string :=
  match s with
  | EmptyString => match cur with EmptyString => [] | _ => [String.rev cur] end
  | String c s' =>
      if is_space c
      then match cur with
           | EmptyString => split_ws_go EmptyString s'
           | _ => String.rev cur :: split_ws_go EmptyString s'
           end
      else split_ws_go (String c cur) s'
  end.

(** [s.split()]: the maximal runs of non-blank characters. *)
Definition split_ws (s : string) : list string := split_ws_go EmptyString s.

(** [a == b] *)
Definition eqb (a b : string) : bool := Stdlib.Strings.String.eqb a b.

(** The line feed. *)
Definition nl : string := String (ascii_of_N 10) EmptyString.

(** [str(n)] for a non-negative [int]. *)
Definition of_nat (n : nat) : string := pretty n.

(** [str(z)] for an [int]. *)
Definition of_Z (z : Z) : string := pretty z.

(** [s.count(c)] for a single character. *)
Fixpoint count_char (c : ascii) (s : string) : nat :=
  match s with
  | EmptyString => 0
  | String c' s' => (if Ascii.eqb c' c then 1 else 0) + count_char c s'
  end.

End PyStr.

(** ** Python number formatting and NumPy reductions *)

Module PyNum.

(** Round a non-negative rational to the nearest integer, ties to even: the
    rounding of the [f] presentation type, which works on the exact value. *)
Definition round_half_even (q : Q) : Z :=
  let n := Qnum q in
  let d := Zpos (Qden q) in
  let fl := (n / d)%Z in
  let r := (n mod d)%Z in
  match (2 * r ?= d)%Z with
  | Lt => fl
  | Gt => (fl + 1)%Z
  | Eq => if Z.even fl then fl else (fl + 1)%Z
  end.

Fixpoint zeros (n : nat) : string :=
  match n with
  | 0 => EmptyString
  | S n' => String "0"%char (zeros n')
  end.

Definition zero_pad (width : nat) (s : string) : string :=
  zeros (width - String.length s) +:+ s.

(** The digits of [sign * |q|] with [digits] decimals. *)
Definition format_abs (negative : bool) (digits : nat) (q : Q) : string :=
  let scale := (10 ^ Z.of_nat digits)%Z in
  let n := round_half_even (Qabs q * (scale # 1))%Q in
  (if negative then "-" else "") +:+ PyStr.of_Z (n / scale)
  +:+ (match digits with
       | 0 => ""
       | _ => "." +:+ zero_pad digits (PyStr.of_Z (n mod scale))
       end).

(** [f"{q:.<digits>f}"] for a score. *)
Definition format_Q (digits : nat) (q : Q) : string :=
  format_abs (Qnum q <? 0)%Z digits q.

(** [f"{x:.<digits>f}"] for a binary64 value, through its exact value. *)
Definition format_float (digits : nat) (x : float) : string :=
  match Prim2SF x with
  | S754_nan => "nan"
  | S754_infinity s => if s then "-inf" else "inf"
  | S754_zero s => format_abs s digits 0
  | S754_finite s m e =>
      let q := match e with
               | Z0 => Qmake (Zpos m) 1
               | Zpos p => Qmake (Zpos m * 2 ^ Zpos p) 1
               | Zneg p => Qmake (Zpos m) (2 ^ p)
               end in
      format_abs s digits q
  end.

(** [float(n)] for a length or a count (below 2^53, where it is exact). *)
Definition of_nat (n : nat) : float :=
  PrimFloat.of_uint63 (Uint63.of_Z (Z.of_nat n)).

(** The pairwise summation of NumPy's [add] reduction over a contiguous
    array of binary64 values ([DOUBLE_pairwise_sum]).  Fewer than eight
    values are added from left to right.  Up to 128 values go through eight
    accumulators: the first eight values, to which the later blocks of eight
    are added place by place; the accumulators are then added as a tree and
    the values left over one by one. *)
Definition sum_left (a : list float) : float :=
  fold_left PrimFloat.add a (-0)%float.

Fixpoint add_blocks (blocks : nat) (r a : list float) : list float * list float :=
  match blocks with
  | 0 => (r, a)
  | S blocks' => add_blocks blocks' (zip_with PrimFloat.add r (take 8 a)) (drop 8 a)
  end.

Definition sum_unrolled (a : list float) : float :=
  match add_blocks (length a / 8 - 1) (take 8 a) (drop 8 a) with
  | ([r0; r1; r2; r3; r4; r5; r6; r7], rest) =>
      fold_left PrimFloat.add rest
        (((r0 + r1) + (r2 + r3)) + ((r4 + r5) + (r6 + r7)))%float
  | _ => sum_left a
  end.

(** Above 128 values the array is cut in two, the first part a multiple of
    eight, and the sums of the parts are added.  [depth] bounds the number
    of cuts; the length of the array is enough. *)
Fixpoint pairwise_sum (depth : nat) (a : list float) : float :=
  let n := length a in
  if n <? 8 then sum_left a
  else if n <=? 128 then sum_unrolled a
  else
    match depth with
    | 0 => sum_unrolled a
    | S depth' =>
        let n2 := n / 2 - (n / 2) mod 8 in
        (pairwise_sum depth' (take n2 a) + pairwise_sum depth' (drop n2 a))%float
    end.

(** [np.add.reduce]: the reduction starts from 0, to which the pairwise sum
    of the whole array is added. *)
Definition np_sum (xs : list float) : float :=
  (0 + pairwise_sum (length xs) xs)%float.

(** [np.mean] *)
Definition np_mean (xs : list float) : float :=
  (np_sum xs / of_nat (length xs))%float.

(** [np.std]: the population standard deviation,
    [sqrt(mean(abs(x - x.mean())**2))]. *)
Definition np_std (xs : list float) : float :=
  let m := np_mean xs in
  PrimFloat.sqrt
    (np_mean (map (fun x => let d := PrimFloat.abs (x - m) in d * d)%float xs)).

(** [min(xs)] and [max(xs)] with Python's [<] scan; [xs] non-empty. *)
Definition py_min (xs : list float) : float :=
  match xs with
  | [] => 0%float
  | x :: rest => fold_left (fun acc y => if (y <? acc)%float then y else acc) rest x
  end.

Definition py_max (xs : list float) : float :=
  match xs with
  | [] => 0%float
  | x :: rest => fold_left (fun acc y => if (acc <? y)%float then y else acc) rest x
  end.

End PyNum.

(** ** Generic Python containers *)

Module Py.

(** [l.sort(key=..., reverse=True)] and [sorted(..., reverse=True)]: a
    stable sort into descending order.  [lt a b] is Python's [key(a) < key(b)].
    An element is inserted in front of the first element that is not
    strictly greater, so equal keys keep their original order. *)
Fixpoint insert_desc {A} (lt : A -> A -> bool) (x : A) (l : list A) : list A :=
  match l with
  | [] => [x]
  | y :: l' => if lt x y then y :: insert_desc lt x l' else x :: l
  end.

Fixpoint sort_desc {A} (lt : A -> A -> bool) (l : list A) : list A :=
  match l with
  | [] => []
  | x :: l' => insert_desc lt x (sort_desc lt l')
  end.

(** [collections.Counter]: counts in order of first occurrence. *)
Fixpoint counter_add (k : string) (c : list (string * nat)) : list (string * nat) :=
  match c with
  | [] => [(k, 1)]
  | (k', n) :: c' =>
      if PyStr.eqb k k' then (k', S n) :: c' else (k', n) :: counter_add k c'
  end.

Definition Counter (xs : list string) : list (string * nat) :=
  fold_left (fun c k => counter_add k c) xs [].

(** [c.get(k, 0)] *)
Fixpoint counter_get (k : string) (c : list (string * nat)) : nat :=
  match c with
  | [] => 0
  | (k', n) :: c' => if PyStr.eqb k k' then n else counter_get k c'
  end.

(** [c.most_common(n)] *)
Definition most_common (n : nat) (c : list (string * nat)) : list (string * nat) :=
  take n (sort_desc (fun a b => snd a <? snd b) c).

(** [x in xs] for a collection of strings. *)
Definition mem (x : string) (xs : list string) : bool := existsb (PyStr.eqb x) xs.

End Py.

(** ** Data model *)

(** A metadata value: the loaders store page numbers and indices as [int],
    identifiers and origins as [str]. *)
Inductive MetaValue :=
| MStr (s : string)
| MInt (z : Z).

(** [str(v)], as an f-string renders a metadata value. *)
Definition py_str (v : MetaValue) : string :=
  match v with
  | MStr s => s
  | MInt z => PyStr.of_Z z
  end.

(** One result dictionary of [search_similar], with the two keys that
    [extract_context] adds. *)
Record EvidenceItem := mkEvidence {
  content : string;
  metadata : gmap string MetaValue;
  similarity_score : Q;
  rank : option nat;
  source_type : option string
}.

Definition set_rank (r : nat) (e : EvidenceItem) : EvidenceItem :=
  mkEvidence (content e) (metadata e) (similarity_score e) (Some r) (source_type e).

Definition set_source_type (t : string) (e : EvidenceItem) : EvidenceItem :=
  mkEvidence (content e) (metadata e) (similarity_score e) (rank e) (Some t).

(** [e['metadata'].get(key, default)], rendered. *)
Definition metadata_get (key default : string) (e : EvidenceItem) : string :=
  match metadata e !! key with
  | Some v => py_str v
  | None => default
  end.

(** [s.get('source_type') == t] *)
Definition has_source_type (t : string) (e : EvidenceItem) : bool :=
  match source_type e with
  | Some t' => PyStr.eqb t' t
  | None => false
  end.

(** [AgentState] *)
Record AgentState := mkState {
  query : string;
  charts : option (list string);
  comments : option (list string);
  is_analytical : bool;
  context : string;
  context_sources : list EvidenceItem;
  response : string;
  insights : list string;
  requires_clarification : bool;
  suggested_questions : list string
}.

Definition set_is_analytical (b : bool) (st : AgentState) : AgentState :=
  mkState (query st) (charts st) (comments st) b (context st) (context_sources st)
    (response st) (insights st) (requires_clarification st) (suggested_questions st).

Definition set_context (c : string) (st : AgentState) : AgentState :=
  mkState (query st) (charts st) (comments st) (is_analytical st) c (context_sources st)
    (response st) (insights st) (requires_clarification st) (suggested_questions st).

Definition set_context_sources (cs : list EvidenceItem) (st : AgentState) : AgentState :=
  mkState (query st) (charts st) (comments st) (is_analytical st) (context st) cs
    (response st) (insights st) (requires_clarification st) (suggested_questions st).

Definition set_response (r : string) (st : AgentState) : AgentState :=
  mkState (query st) (charts st) (comments st) (is_analytical st) (context st)
    (context_sources st) r (insights st) (requires_clarification st) (suggested_questions st).

Definition set_insights (i : list string) (st : AgentState) : AgentState :=
  mkState (query st) (charts st) (comments st) (is_analytical st) (context st)
    (context_sources st) (response st) i (requires_clarification st) (suggested_questions st).

Definition set_requires_clarification (b : bool) (st : AgentState) : AgentState :=
  mkState (query st) (charts st) (comments st) (is_analytical st) (context st)
    (context_sources st) (response st) (insights st) b (suggested_questions st).

Definition set_suggested_questions (q : list string) (st : AgentState) : AgentState :=
  mkState (query st) (charts st) (comments st) (is_analytical st) (context st)
    (context_sources st) (response st) (insights st) (requires_clarification st) q.

(** ** The outside world *)

Inductive Message :=
| SystemMessage (text : string)
| HumanMessage (text : string).

(** A stored document and a loaded FAISS store: the store answers
    [similarity_search_with_score(query, k)], or raises ([None]) when the
    embedding of the query cannot be computed. *)
Record Document := mkDocument {
  page_content : string;
  doc_metadata : gmap string MetaValue
}.

Definition VectorStore : Type := string -> nat -> option (list (Document * Q)).

(** What an index directory holds.  A name without an entry in the file
    system has no directory. *)
Inductive IndexDir :=
| Incomplete                  (* [index.faiss] or [index.pkl] is missing *)
| Unreadable                  (* both files exist, [FAISS.load_local] raises *)
| Loadable (vs : VectorStore).

Inductive Event :=
| EvNode (name : string)                      (* the graph runs a node *)
| EvLlmInvoke (msgs : list Message)
| EvLlmStream (msgs : list Message)
| EvIndexExists (name : string)
| EvLoadIndex (name : string)
| EvSearch (name query : string) (k : nat).

Record World := mkWorld {
  fs : gmap string IndexDir;
  calls : list Event
}.

Inductive Exn :=
| FileNotFoundError (msg : string)
| ServiceError                (* any exception of an external service *)
| GraphRecursionError.

Inductive Outcome (A : Type) :=
| Returned (a : A)
| Raised (e : Exn).
Arguments Returned {A} a.
Arguments Raised {A} e.

(** The collaborators held by the agent and its analytics tools. *)
Record Services := mkServices {
  (* [self.llm.invoke(messages).content]; [None] when the call raises *)
  llm_invoke : list Message -> option string;
  (* the contents of the chunks of [streaming_llm.astream(messages)] *)
  llm_astream : list Message -> option (list string);
  (* [TextBlob(text).sentiment] *)
  textblob_polarity : string -> float;
  textblob_subjectivity : string -> float;
  (* [[float(p) for p in re.findall(patterns['percentage'], text)]] *)
  re_findall_percentage : string -> list float;
  (* [re.findall(r'\b\w+\b', text)] *)
  re_findall_words : string -> list string;
  (* [str(x)] of a float inside an f-string *)
  float_repr : float -> string
}.

(** ** The effect monad *)

Definition M (A : Type) : Type := World -> World * Outcome A.

Definition ret {A} (a : A) : M A := fun w => (w, Returned a).

Definition bind {A B} (m : M A) (k : A -> M B) : M B :=
  fun w => match m w with
           | (w', Returned a) => k a w'
           | (w', Raised e) => (w', Raised e)
           end.

Definition raise {A} (e : Exn) : M A := fun w => (w, Raised e).

Definition log (e : Event) : M unit :=
  fun w => (mkWorld (fs w) (calls w ++ [e]), Returned tt).

(** [try: body except FileNotFoundError: handler] *)
Definition try_except_FileNotFoundError {A} (body handler : M A) : M A :=
  fun w => match body w with
           | (w', Raised (FileNotFoundError _)) => handler w'
           | r => r
           end.

(** [try: body except Exception: handler] *)
Definition try_except_Exception {A} (body handler : M A) : M A :=
  fun w => match body w with
           | (w', Raised _) => handler w'
           | r => r
           end.

(** The result of a call to an outside service, [None] when it raises. *)
Definition call {A} (result : option A) : M A :=
  match result with
  | Some a => ret a
  | None => raise ServiceError
  end.

(** [for x in xs: acc = body(acc, x)] *)
Fixpoint for_each {A S} (xs : list A) (body : S -> A -> M S) (acc : S) : M S :=
  match xs with
  | [] => ret acc
  | x :: xs' => bind (body acc x) (for_each xs' body)
  end.

Declare Scope py_scope.
Delimit Scope py_scope with py.
Notation "x <- m ;; k" := (bind m (fun x => k))
  (at level 100, m at next level, right associativity) : py_scope.
Notation "m ;;; k" := (bind m (fun _ => k))
  (at level 100, right associativity) : py_scope.

(** ** analytics_utils.py *)

Module MetricsExtractor.

Record Trend := mkTrend {
  direction : string;
  indicator : string;
  trend_context : string
}.

(** The entries of the metrics dictionary that the agent and the insight
    generator read. *)
Record Metrics := mkMetrics {
  percentages : list float;
  trends : list Trend
}.

Record Statistics := mkStatistics {
  stat_mean : float;
  stat_std : float;
  stat_min : float;
  stat_max : float;
  stat_range : float
}.

(** [_get_context(text, term, window=50)] *)
Definition _get_context (text term : string) : string :=
  let window := 50 in
  match PyStr.find (PyStr.lower term) (PyStr.lower text) with
  | None => ""
  | Some index =>
      let start := index - window in
      let stop := Nat.min (String.length text) (index + String.length term + window) in
      PyStr.strip (PyStr.slice start stop text)
  end.

Definition trend_words : list (string * list string) :=
  [ ("positive", ["increase"; "growth"; "rise"; "improve"; "gain"; "up"]);
    ("negative", ["decrease"; "decline"; "fall"; "drop"; "loss"; "down"]) ].

Definition _extract_trends (text : string) : list Trend :=
  flat_map (fun '(direction, words) =>
    flat_map (fun word =>
      if PyStr.contains word (PyStr.lower text)
      then [mkTrend direction word (_get_context text word)]
      else []) words) trend_words.

Definition extract_metrics (self : Services) (text : string) : Metrics :=
  mkMetrics (re_findall_percentage self text) (_extract_trends text).

Definition calculate_statistics (numbers : list float) : option Statistics :=
  match numbers with
  | [] => None
  | _ => Some (mkStatistics (PyNum.np_mean numbers) (PyNum.np_std numbers)
                 (PyNum.py_min numbers) (PyNum.py_max numbers)
                 (PyNum.py_max numbers - PyNum.py_min numbers)%float)
  end.

End MetricsExtractor.

Module SentimentAnalyzer.

Definition positive_words : list string :=
  [ "excellent"; "amazing"; "love"; "great"; "wonderful"; "fantastic";
    "awesome"; "perfect"; "best"; "outstanding"; "brilliant"; "superb" ].

Definition negative_words : list string :=
  [ "terrible"; "awful"; "hate"; "bad"; "horrible"; "worst"; "poor";
    "disappointing"; "useless"; "waste"; "annoying"; "frustrating" ].

Record Sentiment := mkSentiment {
  polarity : float;
  subjectivity : float;
  sentiment : string;
  positive_word_count : nat;
  negative_word_count : nat;
  confidence : float
}.

Record Batch := mkBatch {
  individual_results : list Sentiment;
  average_polarity : float;
  sentiment_distribution : list (string * nat);
  overall_sentiment : string;
  positive_ratio : float
}.

Definition count_if {A} (p : A -> bool) (l : list A) : nat :=
  length (List.filter p l).

Definition analyze_sentiment (self : Services) (text : string) : Sentiment :=
  let polarity := textblob_polarity self text in
  let subjectivity := textblob_subjectivity self text in
  let words := PyStr.split_ws (PyStr.lower text) in
  let positive_count := count_if (fun word => Py.mem word positive_words) words in
  let negative_count := count_if (fun word => Py.mem word negative_words) words in
  let sentiment_label :=
    if (0.1 <? polarity)%float then "positive"
    else if (polarity <? -0.1)%float then "negative"
    else "neutral" in
  let sentiment_label :=
    if (2 <=? positive_count) || (0.5 <? polarity)%float then "very_positive"
    else if (2 <=? negative_count) || (polarity <? -0.5)%float then "very_negative"
    else sentiment_label in
  mkSentiment polarity subjectivity sentiment_label positive_count negative_count
    (PrimFloat.abs polarity * (1 - subjectivity / 2))%float.

Definition _get_overall_sentiment (avg_polarity : float) : string :=
  if (0.3 <? avg_polarity)%float then "predominantly_positive"
  else if (avg_polarity <? -0.3)%float then "predominantly_negative"
  else "mixed".

Definition analyze_batch (self : Services) (texts : list string) : Batch :=
  let results := map (analyze_sentiment self) texts in
  let avg_polarity := PyNum.np_mean (map polarity results) in
  let sentiment_distribution := Py.Counter (map sentiment results) in
  mkBatch results avg_polarity sentiment_distribution
    (_get_overall_sentiment avg_polarity)
    (match results with
     | [] => 0%float
     | _ => (PyNum.of_nat (Py.counter_get "positive" sentiment_distribution)
             / PyNum.of_nat (length results))%float
     end).

End SentimentAnalyzer.

Module TrendDetector.

Record Topic := mkTopic {
  topic : string;
  frequency : nat;
  percentage : float
}.

Record Anomaly := mkAnomaly {
  index : nat;
  value : float;
  z_score : float;
  severity : string
}.

Definition stop_words : list string :=
  [ "the"; "a"; "an"; "and"; "or"; "but"; "in"; "on"; "at"; "to"; "for"; "of";
    "with"; "by"; "is"; "are"; "was"; "were" ].

Definition identify_key_topics (self : Services) (texts : list string) : list Topic :=
  match texts with
  | [] => []
  | _ =>
      let all_text := PyStr.lower (PyStr.join " " texts) in
      let words := re_findall_words self all_text in
      let filtered_words :=
        List.filter (fun w => negb (Py.mem w stop_words) && (3 <? String.length w)) words in
      let word_freq := Py.Counter filtered_words in
      map (fun '(word, count) =>
             mkTopic word count
               (match filtered_words with
                | [] => 0%float
                | _ => (PyNum.of_nat count / PyNum.of_nat (length filtered_words) * 100)%float
                end))
          (Py.most_common 10 word_freq)
  end.

(** The z-score of one value and the entry appended for it, if any. *)
Definition anomaly_at (mean std : float) (i : nat) (value : float) : list Anomaly :=
  let z_score := if (0 <? std)%float then ((value - mean) / std)%float else 0%float in
  if (2 <? PrimFloat.abs z_score)%float
  then [mkAnomaly i value z_score
          (if (3 <? PrimFloat.abs z_score)%float then "high" else "medium")]
  else [].

Definition detect_anomalies (metrics : list float) : list Anomaly :=
  if length metrics <? 3 then []
  else
    let mean := PyNum.np_mean metrics in
    let std := PyNum.np_std metrics in
    concat (imap (anomaly_at mean std) metrics).

End TrendDetector.

Module InsightGenerator.

Import MetricsExtractor SentimentAnalyzer TrendDetector.

(** The statements appended for one chart source. *)
Definition chart_source_insights (self : Services) (source : EvidenceItem) : list string :=
  let metrics := extract_metrics self (content source) in
  (match percentages metrics with
   | [] => []
   | _ =>
       let avg_percentage := PyNum.np_mean (percentages metrics) in
       ["Average percentage metric: " +:+ PyNum.format_float 1 avg_percentage +:+ "%"]
       ++ (if existsb (fun p => (50 <? p)%float) (percentages metrics)
           then ["Significant metrics above 50% detected, indicating strong performance"]
           else [])
   end)
  ++
  (match trends metrics with
   | [] => []
   | _ =>
       let positive_trends :=
         count_if (fun t => PyStr.eqb (direction t) "positive") (trends metrics) in
       let negative_trends :=
         count_if (fun t => PyStr.eqb (direction t) "negative") (trends metrics) in
       if negative_trends <? positive_trends
       then ["Predominantly positive trends (" +:+ PyStr.of_nat positive_trends
             +:+ " positive vs " +:+ PyStr.of_nat negative_trends +:+ " negative)"]
       else if positive_trends <? negative_trends
       then ["Areas of concern: " +:+ PyStr.of_nat negative_trends
             +:+ " negative trends identified"]
       else []
   end).

Definition _analyze_chart_metrics (self : Services) (chart_sources : list EvidenceItem)
  : list string :=
  let insights := flat_map (chart_source_insights self) chart_sources in
  let all_metrics :=
    flat_map (fun source => percentages (extract_metrics self (content source)))
      chart_sources in
  insights ++
  match calculate_statistics all_metrics with
  | None => []
  | Some stats =>
      if (20 <? stat_range stats)%float
      then ["High variance in metrics (range: " +:+ PyNum.format_float 1 (stat_range stats)
            +:+ "%), suggesting diverse performance areas"]
      else []
  end.

Definition _analyze_comment_sentiment (self : Services) (comment_sources : list EvidenceItem)
  : list string :=
  let comments := map content comment_sources in
  match comments with
  | [] => []
  | _ =>
      let sentiment_results := analyze_batch self comments in
      let overall := overall_sentiment sentiment_results in
      let pos_ratio := positive_ratio sentiment_results in
      let topics := identify_key_topics self comments in
      ["Overall user sentiment is " +:+ PyStr.replace_char "_" " " overall]
      ++ (if (0.7 <? pos_ratio)%float
          then ["Strong positive feedback: " +:+ PyNum.format_float 0 (pos_ratio * 100)%float
                +:+ "% of comments are positive"]
          else if (pos_ratio <? 0.3)%float
          then ["Significant negative feedback: "
                +:+ PyNum.format_float 0 ((1 - pos_ratio) * 100)%float
                +:+ "% of comments express concerns"]
          else [])
      ++ (match topics with
          | [] => []
          | _ => ["Key discussion topics: " +:+ PyStr.join ", " (map topic (take 3 topics))]
          end)
  end.

Definition _generate_cross_insights (self : Services)
  (chart_sources comment_sources : list EvidenceItem) : list string :=
  let chart_metrics :=
    flat_map (fun source => percentages (extract_metrics self (content source)))
      chart_sources in
  let comments := map content comment_sources in
  let sentiment_results := analyze_batch self comments in
  match chart_metrics with
  | [] => []
  | _ =>
      if (0 <? average_polarity sentiment_results)%float
      then
        let avg_metric := PyNum.np_mean chart_metrics in
        if (10 <? avg_metric)%float && (0.6 <? positive_ratio sentiment_results)%float
        then ["Positive metrics align with positive user sentiment, indicating successful performance"]
        else if (avg_metric <? 5)%float && (positive_ratio sentiment_results <? 0.4)%float
        then ["Low metrics correlate with negative sentiment, requiring immediate attention"]
        else []
      else []
  end.

Definition generate_insights (self : Services) (context_sources : list EvidenceItem)
  : list string :=
  let chart_sources := List.filter (has_source_type "chart") context_sources in
  let comment_sources := List.filter (has_source_type "comment") context_sources in
  let insights :=
    (match chart_sources with
     | [] => []
     | _ => _analyze_chart_metrics self chart_sources
     end)
    ++ (match comment_sources with
        | [] => []
        | _ => _analyze_comment_sentiment self comment_sources
        end)
    ++ (match chart_sources, comment_sources with
        | _ :: _, _ :: _ => _generate_cross_insights self chart_sources comment_sources
        | _, _ => []
        end) in
  take 10 insights.

End InsightGenerator.

(** ** data-pipeline/parsers/pdf_parser.py: the comment parser *)

Module CommentParser.

(** One parsed comment: the dictionary with the keys [id], [text] and
    [length]. *)
Record Comment := mkComment {
  id : nat;
  text : string;
  length : nat
}.

(** The quotation mark. *)
Definition quote : ascii := ascii_of_N 34.

(** [re.findall(pattern, text)] for the pattern of the parser (a quotation
    mark, a group of any number of characters other than the mark, a
    quotation mark): the text between a mark and the next one, then on from
    behind the closing mark; a mark that is never closed opens nothing.
    [inside] holds the characters read since the opening mark, the last one
    first. *)
Fixpoint findall_quoted (inside : option string) (s : string) : list string :=
  match s with
  | EmptyString => []
  | String c s' =>
      match inside with
      | None =>
          if Ascii.eqb c quote then findall_quoted (Some EmptyString) s'
          else findall_quoted None s'
      | Some read =>
          if Ascii.eqb c quote then String.rev read :: findall_quoted None s'
          else findall_quoted (Some (String c read)) s'
      end
  end.

(** The loop over the candidates, common to both branches: a candidate that
    is not blank is kept, stripped, under its position counted from 1. *)
Definition keep_comments (candidates : list string) : list Comment :=
  concat (imap (fun idx comment =>
                  match PyStr.strip comment with
                  | EmptyString => []
                  | stripped => [mkComment (idx + 1) stripped (String.length stripped)]
                  end) candidates).

Definition parse_comments (text : string) : list Comment :=
  if (PyStr.count_char (ascii_of_N 10) text <=? 1) && (2 <? PyStr.count_char quote text)
  then keep_comments (findall_quoted None text)
  else keep_comments (PyStr.split_char (ascii_of_N 10) (PyStr.strip text)).

End CommentParser.

(** ** embeddings/generator.py *)

Module EmbeddingGenerator.

Local Open Scope py_scope.

(** [FAISS_INDEX_PATH], at its default. *)
Definition index_path (index_name : string) : string :=
  "/app/vector-db/indices/" +:+ index_name.

(** [shutil.rmtree(index_path, ignore_errors=True)] *)
Definition rmtree (index_name : string) : M unit :=
  fun w => (mkWorld (delete index_name (fs w)) (calls w), Returned tt).

Definition load_index (index_name : string) : M VectorStore :=
  log (EvLoadIndex index_name) ;;;
  fun w =>
    match fs w !! index_name with
    | None =>
        raise (FileNotFoundError ("Index directory not found: " +:+ index_path index_name)) w
    | Some Incomplete =>
        (rmtree index_name ;;;
         raise (FileNotFoundError
                  ("Index was incomplete and has been removed: " +:+ index_path index_name))) w
    | Some Unreadable =>
        (rmtree index_name ;;;
         raise (FileNotFoundError
                  ("Index was corrupted and has been removed: " +:+ index_path index_name))) w
    | Some (Loadable vectorstore) => ret vectorstore w
    end.

Definition search_similar (index_name query : string) (k : nat) : M (list EvidenceItem) :=
  vectorstore <- load_index index_name ;;
  log (EvSearch index_name query k) ;;;
  match vectorstore query k with
  | None => raise ServiceError
  | Some results =>
      ret (map (fun '(doc, score) =>
                  mkEvidence (page_content doc) (doc_metadata doc) score None None)
             results)
  end.

(** *** Building an index *)

(** The collaborators of the generator, its [self]; a field answers [None]
    when the call raises. *)
Record Embedder := mkEmbedder {
  (* [self.text_splitter.create_documents(texts, metadatas=metadatas)] *)
  create_documents :
    list string -> option (list (gmap string MetaValue)) -> option (list Document);
  (* [FAISS.from_documents(documents, self.embeddings)] *)
  from_documents : list Document -> option VectorStore;
  (* [vectorstore.add_documents(documents)]: the store with the documents added *)
  add_documents : VectorStore -> list Document -> option VectorStore
}.

(** [index_path.exists()] *)
Definition path_exists (index_name : string) : M bool :=
  fun w => (w, Returned match fs w !! index_name with
                        | Some _ => true
                        | None => false
                        end).

(** [vectorstore.save_local(str(index_path))] writes both files of the
    index. *)
Definition save_index (vectorstore : VectorStore) (index_name : string) : M unit :=
  fun w => (mkWorld (<[index_name := Loadable vectorstore]> (fs w)) (calls w), Returned tt).

Definition create_embeddings_from_texts (self : Embedder) (texts : list string)
  (metadatas : option (list (gmap string MetaValue))) : M VectorStore :=
  documents <- call (create_documents self texts metadatas) ;;
  call (from_documents self documents).

Definition batch_size : nat := 20.

(** [range(0, stop, step)] for a positive [step]. *)
Definition range_step (stop step : nat) : list nat :=
  map (fun j => j * step) (seq 0 ((stop + step - 1) / step)).

(** [texts[i:i+batch_size]] and
    [metadatas[i:i+batch_size] if metadatas else None] *)
Definition batch_texts (texts : list string) (i : nat) : list string :=
  take batch_size (drop i texts).

Definition batch_metadatas (metadatas : option (list (gmap string MetaValue))) (i : nat)
  : option (list (gmap string MetaValue)) :=
  match metadatas with
  | Some (m :: ms) => Some (take batch_size (drop i (m :: ms)))
  | Some [] | None => None
  end.

(** One turn of the loop over the batches. *)
Definition add_batch (self : Embedder) (texts : list string)
  (metadatas : option (list (gmap string MetaValue)))
  (vectorstore : option VectorStore) (i : nat) : M (option VectorStore) :=
  documents <- call (create_documents self (batch_texts texts i)
                       (batch_metadatas metadatas i)) ;;
  match vectorstore with
  | None =>
      vectorstore <- call (from_documents self documents) ;;
      ret (Some vectorstore)
  | Some vectorstore =>
      vectorstore <- call (add_documents self vectorstore documents) ;;
      ret (Some vectorstore)
  end.

Definition add_to_existing_index (self : Embedder) (index_name : string)
  (texts : list string) (metadatas : option (list (gmap string MetaValue)))
  : M (option VectorStore) :=
  found <- path_exists index_name ;;
  vectorstore <-
    (if found : bool
     then try_except_FileNotFoundError
            (vectorstore <- load_index index_name ;; ret (Some vectorstore))
            (ret None)
     else ret None) ;;
  vectorstore <- for_each (range_step (length texts) batch_size)
                   (add_batch self texts metadatas) vectorstore ;;
  match vectorstore with
  | Some vectorstore => save_index vectorstore index_name ;;; ret (Some vectorstore)
  | None => ret None
  end.

(** A table as the PDF parsers extract it: a cell is a string or [None]. *)
Definition Table : Type := list (list (option string)).

(** [str(cell) for cell in row if cell] *)
Definition row_cells (row : list (option string)) : list string :=
  flat_map (fun cell =>
              match cell with
              | Some (String c s) => [String c s]
              | Some EmptyString | None => []
              end) row.

Definition _table_to_text (table_data : Table) : string :=
  match table_data with
  | [] => ""
  | _ => PyStr.join PyStr.nl (map (fun row => PyStr.join " | " (row_cells row)) table_data)
  end.

(** Parsed PDF data: the entries of [pdf_data] that are read; a key may be
    absent. *)
Record TextItem := mkTextItem {
  text_content : string;
  text_page : Z
}.

Record TableItem := mkTableItem {
  table_data : Table;
  table_page : Z
}.

Record PdfData := mkPdfData {
  pdf_text : option (list TextItem);
  pdf_tables : option (list TableItem)
}.

Definition create_index_from_pdf_data (self : Embedder) (pdf_data : PdfData)
  (index_name : string) : M bool :=
  let text_items := default [] (pdf_text pdf_data) in
  let table_items := default [] (pdf_tables pdf_data) in
  let texts :=
    map text_content text_items
    ++ map (fun table_item => _table_to_text (table_data table_item)) table_items in
  let metadatas :=
    map (fun text_item =>
           <["source" := MStr "pdf_text"]> {["page" := MInt (text_page text_item)]})
      text_items
    ++ map (fun table_item =>
              <["source" := MStr "pdf_table"]> {["page" := MInt (table_page table_item)]})
         table_items in
  match texts with
  | [] => ret false
  | _ =>
      vectorstore <- create_embeddings_from_texts self texts (Some metadatas) ;;
      save_index vectorstore index_name ;;;
      ret true
  end.

Definition create_index_from_comments (self : Embedder)
  (comments : list CommentParser.Comment) (index_name : string) : M bool :=
  let texts := map CommentParser.text comments in
  let metadatas :=
    map (fun comment =>
           <["source" := MStr "user_comment"]>
             {["comment_id" := MInt (Z.of_nat (CommentParser.id comment))]})
      comments in
  match texts with
  | [] => ret false
  | _ =>
      vectorstore <- create_embeddings_from_texts self texts (Some metadatas) ;;
      save_index vectorstore index_name ;;;
      ret true
  end.

End EmbeddingGenerator.

(** ** analytics_agent.py *)

Module AnalyticsAgent.

Import MetricsExtractor SentimentAnalyzer TrendDetector.
Local Open Scope py_scope.

Definition max_context_sources : nat := 5.

Definition classifier_prompt : string :=
  PyStr.join PyStr.nl
    [ "You are a query classifier for a social media analytics system.";
      "            Determine if the user's query is analytical (related to data, metrics, insights, trends) ";
      "            or non-analytical (general conversation, off-topic).";
      "            Respond with only 'analytical' or 'non-analytical'." ].

(** [self.llm.invoke(messages).content] *)
Definition llm_call (self : Services) (messages : list Message) : M string :=
  log (EvLlmInvoke messages) ;;;
  match llm_invoke self messages with
  | Some text => ret text
  | None => raise ServiceError
  end.

Definition validate_query (self : Services) (state : AgentState) : M AgentState :=
  response <- llm_call self [SystemMessage classifier_prompt; HumanMessage (query state)] ;;
  ret (set_is_analytical (PyStr.contains "analytical" (PyStr.lower response)) state).

Definition _get_actual_index_name (logical_name : string) : string :=
  if PyStr.eqb logical_name "charts" then "brandbastion"
  else if PyStr.eqb logical_name "comments" then "brandbastion_comments"
  else logical_name.

Definition _index_exists (index_name : string) : M bool :=
  log (EvIndexExists index_name) ;;;
  fun w =>
    (w, Returned match fs w !! _get_actual_index_name index_name with
                 | Some Unreadable | Some (Loadable _) => true
                 | Some Incomplete | None => false
                 end).

Definition chart_part (idx : nat) (source : EvidenceItem) : string :=
  "[Chart Context " +:+ PyStr.of_nat (idx + 1) +:+ "] (Score: "
  +:+ PyNum.format_Q 3 (similarity_score source) +:+ ")" +:+ PyStr.nl
  +:+ "Page: " +:+ metadata_get "page" "N/A" source +:+ PyStr.nl
  +:+ "Content: " +:+ content source +:+ PyStr.nl.

Definition comment_part (idx : nat) (source : EvidenceItem) : string :=
  "[Comment Context " +:+ PyStr.of_nat (idx + 1) +:+ "] (Score: "
  +:+ PyNum.format_Q 3 (similarity_score source) +:+ ")" +:+ PyStr.nl
  +:+ "Comment ID: " +:+ metadata_get "comment_id" "N/A" source +:+ PyStr.nl
  +:+ "Content: " +:+ content source +:+ PyStr.nl.

(** [state.get(key)] is truthy: the list is given and not empty. *)
Definition provided (raw : option (list string)) : option nat :=
  match raw with
  | Some (x :: l) => Some (length (x :: l))
  | _ => None
  end.

(** The first [try] block: the tagged chart results and their text blocks. *)
Definition search_charts (state : AgentState) : M (list EvidenceItem * list string) :=
  try_except_FileNotFoundError
    (found <- _index_exists "charts" ;;
     if found : bool then
       chart_results <- EmbeddingGenerator.search_similar
                          (_get_actual_index_name "charts") (query state) max_context_sources ;;
       ret (imap (fun idx result => set_source_type "chart" (set_rank (idx + 1) result))
              chart_results,
            imap chart_part chart_results)
     else ret ([], []))
    (ret ([], match provided (charts state) with
              | Some n => ["Note: Charts index not found. " +:+ PyStr.of_nat n
                           +:+ " charts provided but not indexed."]
              | None => []
              end)).

(** The second [try] block. *)
Definition search_comments (state : AgentState) : M (list EvidenceItem * list string) :=
  try_except_FileNotFoundError
    (found <- _index_exists "comments" ;;
     if found : bool then
       comment_results <- EmbeddingGenerator.search_similar
                            (_get_actual_index_name "comments") (query state) max_context_sources ;;
       ret (imap (fun idx result => set_source_type "comment" (set_rank (idx + 1) result))
              comment_results,
            imap comment_part comment_results)
     else ret ([], []))
    (ret ([], match provided (comments state) with
              | Some n => ["Note: Comments index not found. " +:+ PyStr.of_nat n
                           +:+ " comments provided but not indexed."]
              | None => []
              end)).

Definition unique_key (source : EvidenceItem) : string :=
  let content_key := PyStr.strip (content source) in
  let comment_id := metadata_get "comment_id" "unknown" source in
  comment_id +:+ ":" +:+ PyStr.take 50 content_key.

(** The deduplication loop, [seen_content] being the keys met so far. *)
Fixpoint deduplicate (seen_content : gset string) (context_sources : list EvidenceItem)
  : list EvidenceItem :=
  match context_sources with
  | [] => []
  | source :: rest =>
      if decide (unique_key source ∈ seen_content)
      then deduplicate seen_content rest
      else source :: deduplicate ({[ unique_key source ]} ∪ seen_content) rest
  end.

(** [key(a) < key(b)] for [key=lambda x: x['similarity_score']]. *)
Definition score_lt (a b : EvidenceItem) : bool :=
  negb (Qle_bool (similarity_score b) (similarity_score a)).

Definition unique_part (idx : nat) (source : EvidenceItem) : string :=
  if has_source_type "comment" source then comment_part idx source
  else chart_part idx source.

Definition no_indexed_data : string :=
  "No indexed data found. Please ensure data is processed and indexed first.".

(** The part of [extract_context] after the two searches. *)
Definition merge_context (query : string) (context_sources : list EvidenceItem)
  (context_parts : list string) : list EvidenceItem * list string :=
  match context_sources with
  | [] => ([], context_parts ++ [no_indexed_data])
  | _ =>
      let unique_sources := deduplicate ∅ context_sources in
      let unique_sources := Py.sort_desc score_lt unique_sources in
      let unique_sources := take max_context_sources unique_sources in
      let unique_sources := imap (fun idx source => set_rank (idx + 1) source) unique_sources in
      let unique_parts := imap unique_part unique_sources in
      (unique_sources,
       ("Found " +:+ PyStr.of_nat (length unique_sources)
        +:+ " unique context sources for query: '" +:+ query +:+ "'" +:+ PyStr.nl)
       :: unique_parts)
  end.

Definition extract_context (self : Services) (state : AgentState) : M AgentState :=
  charts_found <- search_charts state ;;
  comments_found <- search_comments state ;;
  let context_sources := fst charts_found ++ fst comments_found in
  let context_parts := snd charts_found ++ snd comments_found in
  let merged := merge_context (query state) context_sources context_parts in
  ret (set_context_sources (fst merged)
         (set_context (PyStr.join PyStr.nl (snd merged)) state)).

Definition _summarize_trends (trends : list Trend) : string :=
  match trends with
  | [] => ""
  | _ =>
      let positive := count_if (fun t => PyStr.eqb (direction t) "positive") trends in
      let negative := count_if (fun t => PyStr.eqb (direction t) "negative") trends in
      if negative <? positive
      then "Positive trend detected: " +:+ PyStr.of_nat positive +:+ " growth indicators found"
      else if positive <? negative
      then "Declining trend: " +:+ PyStr.of_nat negative +:+ " decrease indicators identified"
      else "Mixed trends observed in the data"
  end.

Definition insights_prompt : string :=
  PyStr.join PyStr.nl
    [ "Extract 2-3 specific, data-driven insights from the context.";
      "            Focus on actionable findings and avoid generic statements." ].

(** [line.lstrip('-•* ')] strips hyphens, asterisks and blanks; the bullet
    of the set lies outside the modelled range of text. *)
Definition _get_llm_insights (self : Services) (state : AgentState) : M (list string) :=
  response <- llm_call self
                [ SystemMessage insights_prompt;
                  HumanMessage ("Query: " +:+ query state +:+ PyStr.nl +:+ "Context: "
                                +:+ PyStr.take 500 (context state)) ] ;;
  let insights :=
    flat_map (fun line =>
                let line := PyStr.strip line in
                if 20 <? String.length line
                then [PyStr.lstrip_chars ["-"; "*"; " "]%char line]
                else [])
      (PyStr.split_char (ascii_of_N 10) response) in
  ret (take 3 insights).

(** The statements [analyze_data] appends for one chart source. *)
Definition chart_metric_insights (self : Services) (source : EvidenceItem) : list string :=
  let metrics := extract_metrics self (content source) in
  map (fun pct => "Key metric: " +:+ float_repr self pct +:+ "% identified in data")
    (take 3 (percentages metrics))
  ++ match trends metrics with
     | [] => []
     | _ => match _summarize_trends (trends metrics) with
            | EmptyString => []
            | trend_summary => [trend_summary]
            end
     end.

(** The case-insensitive removal of duplicates at the end of [analyze_data]. *)
Fixpoint unique_insights (seen : gset string) (insights : list string) : list string :=
  match insights with
  | [] => []
  | insight :: rest =>
      let insight_lower := PyStr.lower insight in
      if decide (insight_lower ∈ seen)
      then unique_insights seen rest
      else insight :: unique_insights ({[ insight_lower ]} ∪ seen) rest
  end.

Definition analyze_data (self : Services) (state : AgentState) : M AgentState :=
  let insights :=
    match context_sources state with
    | [] => []
    | _ => InsightGenerator.generate_insights self (context_sources state)
    end in
  let chart_sources := List.filter (has_source_type "chart") (context_sources state) in
  let comment_sources := List.filter (has_source_type "comment") (context_sources state) in
  let insights :=
    insights ++
    match chart_sources with
    | [] => []
    | _ =>
        let all_metrics :=
          flat_map (fun source => percentages (extract_metrics self (content source)))
            chart_sources in
        flat_map (chart_metric_insights self) chart_sources
        ++ match calculate_statistics all_metrics with
           | None => []
           | Some stats =>
               ["Metrics range from " +:+ PyNum.format_float 1 (stat_min stats)
                +:+ "% to " +:+ PyNum.format_float 1 (stat_max stats)
                +:+ "% (avg: " +:+ PyNum.format_float 1 (stat_mean stats) +:+ "%)"]
           end
    end in
  let insights :=
    insights ++
    match comment_sources with
    | [] => []
    | _ =>
        let comments := map content comment_sources in
        let sentiment_results := analyze_batch self comments in
        let total_comments := length comments in
        let topics := identify_key_topics self comments in
        flat_map (fun '(sentiment, count) =>
                    let percentage :=
                      (PyNum.of_nat count / PyNum.of_nat total_comments * 100)%float in
                    if (20 <? percentage)%float
                    then [PyStr.capitalize (PyStr.replace_char "_" " " sentiment)
                          +:+ " sentiment in " +:+ PyNum.format_float 0 percentage
                          +:+ "% of comments"]
                    else [])
          (sentiment_distribution sentiment_results)
        ++ match topics with
           | [] => []
           | _ => ["Most discussed topics: " +:+ PyStr.join ", " (map topic (take 3 topics))]
           end
    end in
  insights <-
    (match context state with
     | EmptyString => ret insights
     | _ =>
         if length insights <? 5
         then llm_insights <- _get_llm_insights self state ;; ret (insights ++ llm_insights)
         else ret insights
     end) ;;
  ret (set_insights (take 8 (unique_insights ∅ insights)) state).

(** U+2022 followed by a space, in UTF-8. *)
Definition bullet : string :=
  String (ascii_of_N 226) (String (ascii_of_N 128) (String (ascii_of_N 162) " ")).

Definition _generate_follow_up_questions (state : AgentState) : list string :=
  match context_sources state with
  | [] =>
      take 3
        [ "Would you like me to analyze your social media data? Please upload PDFs or paste comments.";
          "Can you provide specific metrics or comments you'd like me to analyze?";
          "What type of social media insights are you looking for?" ]
  | _ =>
      let has_charts := existsb (has_source_type "chart") (context_sources state) in
      let has_comments := existsb (has_source_type "comment") (context_sources state) in
      let questions := [] in
      let questions :=
        if has_charts
        then questions ++
             [ "Would you like to see the trend analysis over different time periods?";
               "Can I break down these metrics by specific categories?";
               "What specific metric would you like to explore in more detail?" ]
        else questions in
      let questions :=
        if has_comments
        then questions ++
             [ "Would you like a detailed sentiment analysis of the user comments?";
               "Should I identify the main themes and topics in user feedback?";
               "Can I analyze the reasons behind negative comments?" ]
        else questions in
      let questions :=
        match insights state with
        | _ :: _ =>
            questions ++
            [ "Would you like me to provide actionable recommendations based on these insights?";
              "Can I compare these metrics with industry benchmarks?";
              "Should I analyze the correlation between different metrics?" ]
        | [] => questions
        end in
      let questions :=
        if length questions <? 3
        then questions ++
             [ "What specific aspect of the data would you like to explore further?";
               "Would you like to see a different perspective on this data?";
               "Can I help you identify opportunities for improvement?" ]
        else questions in
      take 3 questions
  end.

Definition generate_response (self : Services) (state : AgentState) : M AgentState :=
  let state :=
    match insights state with
    | _ :: _ =>
        let insights_text :=
          PyStr.join PyStr.nl (map (fun insight => bullet +:+ insight) (insights state)) in
        set_response ("Based on your query about '" +:+ query state
                      +:+ "', here are the key insights:" +:+ PyStr.nl +:+ PyStr.nl
                      +:+ insights_text) state
    | [] =>
        set_response ("I couldn't find specific insights for your query about '"
                      +:+ query state
                      +:+ "'. Please ensure the data has been properly indexed.") state
    end in
  let state := set_suggested_questions (_generate_follow_up_questions state) state in
  let state := set_requires_clarification (length (context_sources state) =? 0) state in
  ret state.

Definition redirect_response : string :=
  "I'm designed to help with social media analytics. Please ask questions about metrics, trends, or data insights.".

Definition redirect_questions : list string :=
  [ "What's the engagement rate for our latest campaign?";
    "How has our follower growth changed this month?";
    "Which content types perform best?" ].

Definition redirect_to_analytical (self : Services) (state : AgentState) : M AgentState :=
  let state := set_response redirect_response state in
  let state := set_requires_clarification true state in
  let state := set_suggested_questions redirect_questions state in
  ret state.

(** *** Indexing the data of a request *)

Definition chart_metadata (idx : nat) : gmap string MetaValue :=
  <["source" := MStr "uploaded_chart"]>
    (<["page" := MInt (Z.of_nat (idx + 1))]>
       {["chart_id" := MStr ("chart_" +:+ PyStr.of_nat idx)]}).

Definition comment_metadata (idx : nat) : gmap string MetaValue :=
  <["source" := MStr "user_comment"]>
    (<["comment_id" := MStr ("comment_" +:+ PyStr.of_nat idx)]>
       {["index" := MInt (Z.of_nat idx)]}).

(** The dictionary of results. *)
Record Indexed := mkIndexed {
  charts_indexed : bool;
  comments_indexed : bool
}.

(** One of the two blocks of [create_indices_from_data]. *)
Definition index_collection (embedding_generator : EmbeddingGenerator.Embedder)
  (logical_name : string) (item_metadata : nat -> gmap string MetaValue)
  (items : option (list string)) : M bool :=
  match items with
  | Some (item :: rest) =>
      try_except_Exception
        (EmbeddingGenerator.add_to_existing_index embedding_generator
           (_get_actual_index_name logical_name) (item :: rest)
           (Some (imap (fun idx _ => item_metadata idx) (item :: rest))) ;;;
         ret true)
        (ret false)
  | Some [] | None => ret false
  end.

Definition create_indices_from_data (embedding_generator : EmbeddingGenerator.Embedder)
  (charts comments : option (list string)) : M Indexed :=
  charts_done <- index_collection embedding_generator "charts" chart_metadata charts ;;
  comments_done <- index_collection embedding_generator "comments" comment_metadata comments ;;
  ret (mkIndexed charts_done comments_done).

(** *** The graph of stages

    A [StateGraph] as [_build_graph] fills it, and LangGraph's [invoke] for
    graphs that run one node at a time: run the node, follow its edge, stop
    at [END]; at most [recursion_limit] nodes are run. *)

Inductive Target :=
| END
| To (node : string).

Record StateGraph := mkGraph {
  nodes : list (string * (AgentState -> M AgentState));
  edges : list (string * Target);
  conditional_edges : list (string * ((AgentState -> string) * list (string * string)));
  entry_point : string
}.

Fixpoint lookup {A} (k : string) (l : list (string * A)) : option A :=
  match l with
  | [] => None
  | (k', v) :: l' => if PyStr.eqb k k' then Some v else lookup k l'
  end.

Definition next_node (g : StateGraph) (name : string) (state : AgentState) : option Target :=
  match lookup name (conditional_edges g) with
  | Some (path, path_map) => option_map To (lookup (path state) path_map)
  | None => lookup name (edges g)
  end.

Definition recursion_limit : nat := 25.

Fixpoint run_node (g : StateGraph) (limit : nat) (name : string) (state : AgentState)
  : M AgentState :=
  match limit with
  | 0 => raise GraphRecursionError
  | S limit' =>
      match lookup name (nodes g) with
      | None => raise ServiceError
      | Some action =>
          log (EvNode name) ;;;
          state' <- action state ;;
          match next_node g name state' with
          | Some (To name') => run_node g limit' name' state'
          | Some END | None => ret state'
          end
      end
  end.

Definition invoke (g : StateGraph) (state : AgentState) : M AgentState :=
  run_node g recursion_limit (entry_point g) state.

Definition _build_graph (self : Services) : StateGraph :=
  mkGraph
    [ ("validate_query", validate_query self);
      ("extract_context", extract_context self);
      ("analyze_data", analyze_data self);
      ("generate_response", generate_response self);
      ("redirect_to_analytical", redirect_to_analytical self) ]
    [ ("extract_context", To "analyze_data");
      ("analyze_data", To "generate_response");
      ("generate_response", END);
      ("redirect_to_analytical", END) ]
    [ ("validate_query",
       ((fun x => if is_analytical x then "extract_context" else "redirect_to_analytical"),
        [ ("extract_context", "extract_context");
          ("redirect_to_analytical", "redirect_to_analytical") ])) ]
    "validate_query".

Definition initial_state (query : string) (charts comments : option (list string))
  : AgentState :=
  mkState query charts comments false "" [] "" [] false [].

(** [run(query, charts, comments)] *)
Definition run (self : Services) (query : string) (charts comments : option (list string))
  : M AgentState :=
  invoke (_build_graph self) (initial_state query charts comments).

(** *** The streaming mode *)

Definition streaming_prompt (context : string) : string :=
  PyStr.join PyStr.nl
    [ "You are a social media analytics expert assistant.";
      "            ";
      "            Context from available data:";
      "            " +:+ context;
      "            ";
      "            Based on this context, provide insightful analysis answering the user's query.";
      "            If the data doesn't contain relevant information, acknowledge this limitation.";
      "            Focus on actionable insights, trends, and patterns in the data." ].

(** The contents of the chunks of [streaming_llm.astream(messages)]. *)
Definition llm_stream (self : Services) (messages : list Message) : M (list string) :=
  log (EvLlmStream messages) ;;;
  match llm_astream self messages with
  | Some chunks => ret chunks
  | None => raise ServiceError
  end.

Definition _generate_streaming_response (self : Services) (state : AgentState)
  : M AgentState :=
  let context := context state in
  let query := query state in
  chunks <- llm_stream self [SystemMessage (streaming_prompt context); HumanMessage query] ;;
  let response_text :=
    fold_left (fun text chunk =>
                 match chunk with
                 | EmptyString => text
                 | _ => text +:+ chunk
                 end) chunks "" in
  let state := set_response response_text state in
  state <-
    (if PyStr.eqb context no_indexed_data then ret state
     else match context_sources state with
          | _ :: _ =>
              ret (set_insights
                     (InsightGenerator.generate_insights self (context_sources state)) state)
          | [] => analyze_data self state
          end) ;;
  let state :=
    set_requires_clarification
      ((length (context_sources state) =? 0)
       || PyStr.contains "no indexed data" (PyStr.lower context)) state in
  let state := set_suggested_questions (_generate_follow_up_questions state) state in
  ret state.

(** [arun_with_streaming(query, charts, comments, callback_handler, model)];
    the streaming model chosen from the last two arguments is the
    [llm_astream] of [self]. *)
Definition arun_with_streaming (self : Services) (query : string)
  (charts comments : option (list string)) : M AgentState :=
  let initial_state := initial_state query charts comments in
  state <- validate_query self initial_state ;;
  if is_analytical state
  then state <- extract_context self state ;;
       _generate_streaming_response self state
  else redirect_to_analytical self state.

End AnalyticsAgent.

(** A fresh world: the given index directories and no call made yet. *)
Definition fresh_world (indices : gmap string IndexDir) : World := mkWorld indices [].

(** ** Vocabulary of the statements *)

Import AnalyticsAgent.
Local Open Scope py_scope.

(** The value a run returns, if it returns. *)
Definition returned {A} (r : World * Outcome A) : option A :=
  match snd r with
  | Returned a => Some a
  | Raised _ => None
  end.

(** An anomaly entry for [v] with the given severity was appended. *)
Definition flagged (v : float) (sev : string) (anomalies : list TrendDetector.Anomaly) : Prop :=
  exists a, In a anomalies /\ TrendDetector.value a = v /\ TrendDetector.severity a = sev.

(** The rule table of the follow-up questions, bucket by bucket. *)
Definition provide_data_prompts : list string :=
  [ "Would you like me to analyze your social media data? Please upload PDFs or paste comments.";
    "Can you provide specific metrics or comments you'd like me to analyze?";
    "What type of social media insights are you looking for?" ].

Definition chart_questions : list string :=
  [ "Would you like to see the trend analysis over different time periods?";
    "Can I break down these metrics by specific categories?";
    "What specific metric would you like to explore in more detail?" ].

Definition comment_questions : list string :=
  [ "Would you like a detailed sentiment analysis of the user comments?";
    "Should I identify the main themes and topics in user feedback?";
    "Can I analyze the reasons behind negative comments?" ].

Definition insight_questions : list string :=
  [ "Would you like me to provide actionable recommendations based on these insights?";
    "Can I compare these metrics with industry benchmarks?";
    "Should I analyze the correlation between different metrics?" ].

Definition generic_questions : list string :=
  [ "What specific aspect of the data would you like to explore further?";
    "Would you like to see a different perspective on this data?";
    "Can I help you identify opportunities for improvement?" ].

(** The list accumulated from the buckets that apply, in the fixed order,
    with the generic prompts appended when fewer than 3 were accumulated. *)
Definition accumulated_questions (state : AgentState) : list string :=
  let buckets :=
    (if existsb (has_source_type "chart") (context_sources state)
     then chart_questions else [])
    ++ (if existsb (has_source_type "comment") (context_sources state)
        then comment_questions else [])
    ++ (match insights state with [] => [] | _ :: _ => insight_questions end) in
  if length buckets <? 3 then buckets ++ generic_questions else buckets.

(** The messages of the classification call. *)
Definition classification_messages (query : string) : list Message :=
  [SystemMessage classifier_prompt; HumanMessage query].


(** The two arms of the graph after [validate_query], and the analytical
    arm of the streaming mode. *)
Definition analytical_branch (self : Services) (state : AgentState) : M AgentState :=
  log (EvNode "extract_context") ;;;
  state <- extract_context self state ;;
  log (EvNode "analyze_data") ;;;
  state <- analyze_data self state ;;
  log (EvNode "generate_response") ;;;
  generate_response self state.

Definition redirect_branch (self : Services) (state : AgentState) : M AgentState :=
  log (EvNode "redirect_to_analytical") ;;;
  redirect_to_analytical self state.

Definition streaming_branch (self : Services) (state : AgentState) : M AgentState :=
  state <- extract_context self state ;;
  _generate_streaming_response self state.

(** Events of the retrieval stage: the stage itself and every access to an
    index. *)
Definition is_retrieval_event (e : Event) : bool :=
  match e with
  | EvNode name => PyStr.eqb name "extract_context"
  | EvIndexExists _ | EvLoadIndex _ | EvSearch _ _ _ => true
  | EvLlmInvoke _ | EvLlmStream _ => false
  end.


(** Every event that [m] logs satisfies [P], whether it returns or raises;
    [m] never erases the log. *)
Definition emits (P : Event -> Prop) {A} (m : M A) : Prop :=
  forall w w' r, m w = (w', r) ->
    exists evs, calls w' = calls w ++ evs /\ Forall P evs.

(** The world once [events] have been logged. *)
Definition logged (w : World) (events : list Event) : World :=
  mkWorld (fs w) (calls w ++ events).

(** The state the redirect stage leaves. *)
Definition redirect_state (query : string) (charts comments : option (list string))
  : AgentState :=
  set_suggested_questions redirect_questions
    (set_requires_clarification true
       (set_response redirect_response (initial_state query charts comments))).

(** ** Sample collaborators, for the examples *)

(** A sentiment model that knows two words. *)
Definition keyword_polarity (text : string) : float :=
  if PyStr.contains "love" (PyStr.lower text) then 0.4%float
  else if PyStr.contains "hate" (PyStr.lower text) then (-0.4)%float
  else 0%float.

(** Services whose classifier always answers [completion]. *)
Definition sample_services (completion : string) : Services :=
  mkServices
    (fun _ => Some completion)
    (fun _ => Some ["Engagement "; ""; "is up."])
    keyword_polarity
    (fun _ => 0.5%float)
    (fun _ => [])
    PyStr.split_ws
    (fun _ => "0.0").

(** ** Vocabulary of retrieval and merge *)

(** [a] may stand before [b] in a descending sequence: its key is not below
    the key of [b]. *)
Definition may_precede {A} (lt : A -> A -> bool) (a b : A) : Prop := lt a b = false.

(** The two searches of [extract_context]: what was gathered from both
    collections, in order, and the text blocks appended so far. *)
Definition retrieve (state : AgentState) : M (list EvidenceItem * list string) :=
  charts_found <- search_charts state ;;
  comments_found <- search_comments state ;;
  ret (fst charts_found ++ fst comments_found, snd charts_found ++ snd comments_found).

Definition has_key (k : string) (e : EvidenceItem) : bool := PyStr.eqb (unique_key e) k.

(** The first retrieved item that carries the key. *)
Definition first_with_key (k : string) (l : list EvidenceItem) : option EvidenceItem :=
  List.find (has_key k) l.

(** How many items carry the key. *)
Definition count_key (k : string) (l : list EvidenceItem) : nat :=
  length (List.filter (has_key k) l).

(** The ranks 1, 2, ... written over a sequence. *)
Definition rerank (l : list EvidenceItem) : list EvidenceItem :=
  imap (fun idx source => set_rank (idx + 1) source) l.

(** [a] scores at least as much as [b]. *)
Definition score_ge (a b : EvidenceItem) : Prop :=
  (similarity_score b <= similarity_score a)%Q.

(** C1 as it is stated: of two retrieved items with one key, the bundle
    holds exactly one item with that key, and none of the two scores
    higher than it. *)
Definition keeps_best_duplicate (retrieved bundle : list EvidenceItem) : Prop :=
  forall i j a b,
    i < j -> retrieved !! i = Some a -> retrieved !! j = Some b ->
    unique_key a = unique_key b ->
    count_key (unique_key a) bundle = 1
    /\ forall x, In x bundle -> unique_key x = unique_key a ->
                 score_ge x a /\ score_ge x b.

(** Two comments that share their identifier and their first 50 characters;
    the store returns the nearer one first. *)
Definition comment_doc (id text : string) : Document :=
  mkDocument text (<["source" := MStr "user_comment"]> {["comment_id" := MStr id]}).

Definition chart_doc (page : Z) (text : string) : Document :=
  mkDocument text (<["source" := MStr "pdf_text"]> {["page" := MInt page]}).

Definition duplicate_hits : list (Document * Q) :=
  [ (comment_doc "comment_0"
       "The new dashboard is great and the weekly report is clear", (1 # 10)%Q);
    (comment_doc "comment_0"
       "The new dashboard is great and the weekly report is late again", (9 # 10)%Q) ].

Definition duplicate_world : World :=
  fresh_world {["brandbastion_comments" := Loadable (fun _ _ => Some duplicate_hits)]}.

Definition duplicate_first : EvidenceItem :=
  mkEvidence "The new dashboard is great and the weekly report is clear"
    (<["source" := MStr "user_comment"]> {["comment_id" := MStr "comment_0"]})
    (1 # 10) (Some 1) (Some "comment").

Definition duplicate_second : EvidenceItem :=
  mkEvidence "The new dashboard is great and the weekly report is late again"
    (<["source" := MStr "user_comment"]> {["comment_id" := MStr "comment_0"]})
    (9 # 10) (Some 2) (Some "comment").

(** What a run retrieved and the bundle it built, empty if it raised. *)
Definition retrieved_by (state : AgentState) (w : World) : list EvidenceItem :=
  match returned (retrieve state w) with
  | Some found => fst found
  | None => []
  end.

Definition bundle_by (self : Services) (state : AgentState) (w : World) : list EvidenceItem :=
  match returned (extract_context self state w) with
  | Some state' => context_sources state'
  | None => []
  end.

(** Two indices that together hold seven distinct items. *)
Definition busy_chart_hits : list (Document * Q) :=
  [ (chart_doc 1 "Engagement rate rose to 4.2% in March", (80 # 100)%Q);
    (chart_doc 2 "Follower growth of 12% month over month", (55 # 100)%Q);
    (chart_doc 3 "Reach dropped by 3% on weekends", (30 # 100)%Q) ].

Definition busy_comment_hits : list (Document * Q) :=
  [ (comment_doc "comment_0" "I love the new stories format", (90 # 100)%Q);
    (comment_doc "comment_1" "Too many ads lately", (70 # 100)%Q);
    (comment_doc "comment_2" "Great giveaway last week", (60 # 100)%Q);
    (comment_doc "comment_3" "Please post more tutorials", (20 # 100)%Q) ].

Definition busy_world : World :=
  fresh_world
    (<["brandbastion" := Loadable (fun _ _ => Some busy_chart_hits)]>
       {["brandbastion_comments" := Loadable (fun _ _ => Some busy_comment_hits)]}).

(** ** Vocabulary of missing and corrupt indices *)

(** The directory of a collection's index, if there is one. *)
Definition index_dir (w : World) (logical_name : string) : option IndexDir :=
  fs w !! _get_actual_index_name logical_name.

(** The index has both files and cannot be loaded. *)
Definition corrupt (w : World) (logical_name : string) : bool :=
  match index_dir w logical_name with
  | Some Unreadable => true
  | _ => false
  end.


(** If the index loads, the search in it answers. *)
Definition search_answers (w : World) (logical_name query : string) : Prop :=
  match index_dir w logical_name with
  | Some (Loadable vectorstore) => vectorstore query max_context_sources <> None
  | _ => True
  end.

Definition charts_note (state : AgentState) : list string :=
  match provided (charts state) with
  | Some n => ["Note: Charts index not found. " +:+ PyStr.of_nat n
               +:+ " charts provided but not indexed."]
  | None => []
  end.

Definition comments_note (state : AgentState) : list string :=
  match provided (comments state) with
  | Some n => ["Note: Comments index not found. " +:+ PyStr.of_nat n
               +:+ " comments provided but not indexed."]
  | None => []
  end.

(** The notes of a run: one for each collection whose index is corrupt
    while raw items of that kind came with the request. *)
Definition index_notes (state : AgentState) (w : World) : list string :=
  (if corrupt w "charts" then charts_note state else [])
  ++ (if corrupt w "comments" then comments_note state else []).


(** C3 as it is stated. *)
Definition sentinel_verbatim (self : Services) (state : AgentState) (w : World) : Prop :=
  forall state',
    returned (extract_context self state w) = Some state' ->
    context_sources state' = [] ->
    context state' = no_indexed_data.


(** A request that brings one chart. *)
Definition chart_request : AgentState :=
  initial_state "How is engagement?" (Some ["Engagement rate: 4.2%"]) None.

Definition corrupt_charts_world : World := fresh_world {["brandbastion" := Unreadable]}.

(** The results of a search as [extract_context] tags and renders them. *)
Definition tag_hits (t : string) (hits : list (Document * Q)) : list EvidenceItem :=
  imap (fun idx result => set_source_type t (set_rank (idx + 1) result))
    (map (fun '(doc, score) =>
            mkEvidence (page_content doc) (doc_metadata doc) score None None) hits).

Definition part_hits (part : nat -> EvidenceItem -> string) (hits : list (Document * Q))
  : list string :=
  imap part
    (map (fun '(doc, score) =>
            mkEvidence (page_content doc) (doc_metadata doc) score None None) hits).


(** The hits of a collection: those of the search when its index loads and
    the search answers, none otherwise. *)
Definition hits_of (w : World) (logical_name query : string) : list (Document * Q) :=
  match index_dir w logical_name with
  | Some (Loadable vectorstore) =>
      match vectorstore query max_context_sources with
      | Some hits => hits
      | None => []
      end
  | _ => []
  end.

(** What the two searches gather when neither raises. *)
Definition retrieved_sources (state : AgentState) (w : World) : list EvidenceItem :=
  tag_hits "chart" (hits_of w "charts" (query state))
  ++ tag_hits "comment" (hits_of w "comments" (query state)).

Definition retrieved_parts (state : AgentState) (w : World) : list string :=
  (if corrupt w "charts" then charts_note state
   else part_hits chart_part (hits_of w "charts" (query state)))
  ++ (if corrupt w "comments" then comments_note state
      else part_hits comment_part (hits_of w "comments" (query state))).

(** The index directories after the searches: the corrupt ones are gone. *)
Definition discard_corrupt (w : World) : gmap string IndexDir :=
  let fs1 := if corrupt w "charts" then delete "brandbastion" (fs w) else fs w in
  if corrupt w "comments" then delete "brandbastion_comments" fs1 else fs1.

(** The state that [extract_context] returns when no search raises. *)
Definition extracted (state : AgentState) (w : World) : AgentState :=
  let merged :=
    merge_context (query state) (retrieved_sources state w) (retrieved_parts state w) in
  set_context_sources (fst merged)
    (set_context (PyStr.join PyStr.nl (snd merged)) state).

(** ** Vocabulary of the sentiment thresholds *)

(** The comment classifies as positive: its label is "positive". *)
Definition classifies_positive (self : Services) (source : EvidenceItem) : bool :=
  PyStr.eqb
    (SentimentAnalyzer.sentiment (SentimentAnalyzer.analyze_sentiment self (content source)))
    "positive".

Definition positive_count (self : Services) (batch : list EvidenceItem) : nat :=
  length (List.filter (classifies_positive self) batch).


Definition significant_negative_feedback (insight : string) : bool :=
  PyStr.startswith "Significant negative feedback" insight.





Definition comment_item (text : string) : EvidenceItem :=
  mkEvidence text ∅ (1 # 2) None (Some "comment").

Definition happy_batch : list EvidenceItem :=
  [ comment_item "I love the new stories format";
    comment_item "Love it";
    comment_item "We love the giveaway";
    comment_item "Posted on Monday" ].

(** ** A streaming run whose query quotes the sentinel *)

Definition quoting_query : string := "Why is there no indexed data for March?".

Definition one_comment_world : World :=
  fresh_world
    {["brandbastion_comments" :=
        Loadable (fun _ _ => Some [(comment_doc "comment_0" "We love the giveaway", (3 # 10)%Q)])]}.

(** Two sources score the same. *)
Definition same_score (x y : EvidenceItem) : bool :=
  Qeq_bool (similarity_score x) (similarity_score y).

(** Five charts that score high and a comment retrieved twice that scores
    low. *)
Definition crowded_chart_hits : list (Document * Q) :=
  [ (chart_doc 1 "Engagement rate rose to 4.2% in March", (95 # 100)%Q);
    (chart_doc 2 "Follower growth of 12% month over month", (90 # 100)%Q);
    (chart_doc 3 "Reach dropped by 3% on weekends", (85 # 100)%Q);
    (chart_doc 4 "Video views up 20% after the campaign", (80 # 100)%Q);
    (chart_doc 5 "Click-through rate stable at 1.1%", (75 # 100)%Q) ].

Definition crowded_world : World :=
  fresh_world
    (<["brandbastion" := Loadable (fun _ _ => Some crowded_chart_hits)]>
       {["brandbastion_comments" := Loadable (fun _ _ => Some duplicate_hits)]}).

(** Comments that a two-word sentiment model finds very positive. *)
Definition delighted_batch : list EvidenceItem :=
  [ comment_item "Great work, I love it";
    comment_item "Amazing reel, love the music" ].

(** ** Vocabulary of whole runs *)

(** The two execution modes. *)
Inductive Mode :=
| Graph
| Streaming.

Definition execute (mode : Mode) (self : Services) (query : string)
  (charts comments : option (list string)) : M AgentState :=
  match mode with
  | Graph => run self query charts comments
  | Streaming => arun_with_streaming self query charts comments
  end.

(** [m] raises nothing but exceptions that satisfy [E]. *)
Definition raises_only (E : Exn -> Prop) {A} (m : M A) : Prop :=
  forall w w' e, m w = (w', Raised e) -> E e.

(** [m] leaves index directories related by [R] to those it found, whether
    it returns or raises. *)
Definition moves (R : gmap string IndexDir -> gmap string IndexDir -> Prop) {A} (m : M A)
  : Prop :=
  forall w w' r, m w = (w', r) -> R (fs w) (fs w').

(** Between [before] and [after] no directory was created or changed, and
    the directories removed are corrupt indices of the two collections. *)
Definition only_corrupt_removed (before after : gmap string IndexDir) : Prop :=
  forall name,
    after !! name = before !! name
    \/ (after !! name = None
        /\ before !! name = Some Unreadable
        /\ (name = "brandbastion" \/ name = "brandbastion_comments")).

(** Services that never answer. *)
Definition silent_services : Services :=
  mkServices (fun _ => None) (fun _ => None) keyword_polarity (fun _ => 0.5%float)
    (fun _ => []) PyStr.split_ws (fun _ => "0.0").

(** ** Vocabulary of the bundle *)

(** The source carries one of [hits], under the tag [t]. *)
Definition carries (t : string) (hits : list (Document * Q)) (s : EvidenceItem) : Prop :=
  source_type s = Some t
  /\ exists doc score,
       In (doc, score) hits
       /\ content s = page_content doc
       /\ metadata s = doc_metadata doc
       /\ similarity_score s = score.

(** The source is a hit of the search for [query] in the index of its
    kind. *)
Definition from_index (w : World) (query : string) (s : EvidenceItem) : Prop :=
  carries "chart" (hits_of w "charts" query) s
  \/ carries "comment" (hits_of w "comments" query) s.

(** The ranks of a sequence are 1, 2, ... in order. *)
Definition ranked (l : list EvidenceItem) : Prop :=
  map rank l = map Some (seq 1 (length l)).

(** The source is tagged as a chart or as a comment. *)
Definition tagged (s : EvidenceItem) : Prop :=
  source_type s = Some "chart" \/ source_type s = Some "comment".

(** The questions that go with a state a run returns. *)
Definition questions_for (final : AgentState) : list string :=
  if negb (is_analytical final) then redirect_questions
  else match context_sources final with
       | [] => provide_data_prompts
       | _ :: _ =>
           if existsb (has_source_type "chart") (context_sources final)
           then chart_questions
           else comment_questions
       end.

(** The messages of the streaming call and of the call for insights. *)
Definition streaming_messages (state : AgentState) : list Message :=
  [SystemMessage (streaming_prompt (context state)); HumanMessage (query state)].

Definition insights_messages (state : AgentState) : list Message :=
  [ SystemMessage insights_prompt;
    HumanMessage ("Query: " +:+ query state +:+ PyStr.nl +:+ "Context: "
                  +:+ PyStr.take 500 (context state)) ].

(** ** Vocabulary of the analytics tools *)

(** The words that [identify_key_topics] counts: those of the lower-cased
    texts that are no stop word and have more than 3 characters. *)
Definition counted_words (self : Services) (texts : list string) : list string :=
  List.filter
    (fun w => negb (Py.mem w TrendDetector.stop_words) && (3 <? String.length w))
    (re_findall_words self (PyStr.lower (PyStr.join " " texts))).

(** How often a word occurs. *)
Definition occurrences (word : string) (words : list string) : nat :=
  length (List.filter (fun x => PyStr.eqb x word) words).

(** The labels of [analyze_sentiment]. *)
Definition sentiment_labels : list string :=
  ["very_positive"; "positive"; "neutral"; "negative"; "very_negative"].

(** The label that [analyze_sentiment] gives a text. *)
Definition label_of (self : Services) (text : string) : string :=
  SentimentAnalyzer.sentiment (SentimentAnalyzer.analyze_sentiment self text).

(** Nine steady values and one far out. *)
Definition spiky_series : list float :=
  [10; 10; 10; 10; 10; 10; 10; 10; 10; 100]%float.

(** ** Vocabulary of strings *)

(** The first character of [s], if any, does not satisfy [p]. *)
Definition head_fails (p : ascii -> bool) (s : string) : Prop :=
  match s with
  | EmptyString => True
  | String c _ => p c = false
  end.

(** [s] has no white space at either end: [s.strip() == s]. *)
Definition stripped (s : string) : Prop := PyStr.strip s = s.


(** ** Vocabulary of the comment parser *)

(** The text is read as quoted comments on one line. *)
Definition quoted_mode (text : string) : bool :=
  (PyStr.count_char (ascii_of_N 10) text <=? 1)
  && (2 <? PyStr.count_char CommentParser.quote text).

(** [c] does not occur in [s]. *)
Definition free_of (c : ascii) (s : string) : Prop := PyStr.count_char c s = 0.

(** ** Vocabulary of index building *)

(** The store that loading the index yields, if it loads. *)
Definition loadable (w : World) (index_name : string) : option VectorStore :=
  match fs w !! index_name with
  | Some (Loadable vectorstore) => Some vectorstore
  | _ => None
  end.

(** The directories once a directory that does not load is gone. *)
Definition without_unloadable (w : World) (index_name : string) : gmap string IndexDir :=
  match loadable w index_name with
  | Some _ => fs w
  | None => delete index_name (fs w)
  end.

(** The collaborators of the generator answer every call. *)
Definition embedder_answers (self : EmbeddingGenerator.Embedder) : Prop :=
  (forall texts metadatas, EmbeddingGenerator.create_documents self texts metadatas <> None)
  /\ (forall documents, EmbeddingGenerator.from_documents self documents <> None)
  /\ (forall vectorstore documents,
        EmbeddingGenerator.add_documents self vectorstore documents <> None).

(** A store that ranks its documents in the order they were added. *)
Definition store_of (documents : list Document) : VectorStore :=
  fun _ k => Some (take k (map (fun document => (document, (1 # 2)%Q)) documents)).

(** A generator that makes one document of each text and never fails. *)
Definition sample_embedder : EmbeddingGenerator.Embedder :=
  EmbeddingGenerator.mkEmbedder
    (fun texts metadatas =>
       Some (zip_with mkDocument texts
               (default (replicate (length texts) ∅) metadatas)))
    (fun documents => Some (store_of documents))
    (fun vectorstore documents =>
       Some (fun query k =>
               match vectorstore query k with
               | Some hits => Some (take k (hits ++ map (fun document => (document, (1 # 2)%Q))
                                                     documents))
               | None => None
               end)).

(** A generator whose embedding model is out of reach. *)
Definition failing_embedder : EmbeddingGenerator.Embedder :=
  EmbeddingGenerator.mkEmbedder
    (fun texts metadatas =>
       Some (zip_with mkDocument texts
               (default (replicate (length texts) ∅) metadatas)))
    (fun _ => None)
    (fun _ _ => None).

(** Forty-five short comments. *)
Definition many_comments : list string :=
  map (fun i => "comment number " +:+ PyStr.of_nat i) (seq 0 45).

(** A line of text: it holds no line feed. *)
Definition single_line (s : string) : Prop := free_of (ascii_of_N 10) s.

(** The line that [_table_to_text] writes for a row. *)
Definition row_text (row : list (option string)) : string :=
  PyStr.join " | " (EmbeddingGenerator.row_cells row).

(** The world with the directory of an index removed. *)
Definition without_index (w : World) (index_name : string) : World :=
  mkWorld (delete index_name (fs w)) (calls w).

(** A small table with an empty cell and an absent one. *)
Definition sample_table : EmbeddingGenerator.Table :=
  [ [Some "Metric"; Some "March"; None];
    [Some "Engagement"; Some ""; Some "4.2%"];
    [] ].

(** What [create_indices_from_data] has done for one collection, between
    the worlds [w] and [w']: nothing when no item came with the request;
    otherwise the index loads when the flag is set, and when it is not, an
    index that loaded is what it was and no other directory is left. *)
Definition collection_indexed (logical_name : string) (items : option (list string))
  (done : bool) (w w' : World) : Prop :=
  match provided items with
  | None => done = false /\ index_dir w' logical_name = index_dir w logical_name
  | Some _ =>
      if done
      then exists vectorstore, index_dir w' logical_name = Some (Loadable vectorstore)
      else index_dir w' logical_name
           = option_map Loadable (loadable w (_get_actual_index_name logical_name))
  end.

(** The texts and the metadata that [create_index_from_comments] hands to
    the embedding. *)
Definition comment_texts (comments : list CommentParser.Comment) : list string :=
  map CommentParser.text comments.

Definition comment_metadatas (comments : list CommentParser.Comment)
  : list (gmap string MetaValue) :=
  map (fun comment =>
         <["source" := MStr "user_comment"]>
           {["comment_id" := MInt (Z.of_nat (CommentParser.id comment))]})
    comments.

(** The outcome of building an index, whatever store is returned. *)
Definition built {A} (r : Outcome A) : Outcome unit :=
  match r with
  | Returned _ => Returned tt
  | Raised e => Raised e
  end.

(** ** The Python helpers on small inputs *)

Example lower_mixed_case : PyStr.lower "Non-Analytical" = "non-analytical".
Proof. reflexivity. Qed.

Example strip_blanks : PyStr.strip "  a b  " = "a b".
Proof. reflexivity. Qed.

Example split_on_blanks : PyStr.split_ws "  a  bc d " = ["a"; "bc"; "d"].
Proof. reflexivity. Qed.

Example split_lines :
  PyStr.split_char (ascii_of_N 10) ("a" +:+ PyStr.nl +:+ "b" +:+ PyStr.nl) = ["a"; "b"; ""].
Proof. reflexivity. Qed.

Example find_inside : PyStr.find "cd" "abcde" = Some 2.
Proof. reflexivity. Qed.

Example join_three : PyStr.join ", " ["a"; "b"; "c"] = "a, b, c".
Proof. reflexivity. Qed.

Example format_score : PyNum.format_Q 3 (5 # 4) = "1.250".
Proof. reflexivity. Qed.

Example format_score_tie_to_even : PyNum.format_Q 3 (1 # 2000) = "0.000".
Proof. reflexivity. Qed.

Example format_score_tie_to_even_up : PyNum.format_Q 3 (3 # 2000) = "0.002".
Proof. reflexivity. Qed.

Example format_quarter : PyNum.format_float 1 0.25%float = "0.2".
Proof. reflexivity. Qed.

Example format_whole : PyNum.format_float 0 80%float = "80".
Proof. reflexivity. Qed.

Example format_negative : PyNum.format_float 1 (-12.35)%float = "-12.3".
Proof. reflexivity. Qed.

Example sort_is_stable : Py.sort_desc Nat.ltb [2; 5; 3; 5; 1] = [5; 5; 3; 2; 1].
Proof. reflexivity. Qed.

Example counter_in_order :
  Py.Counter ["b"; "a"; "b"; "c"; "b"] = [("b", 3); ("a", 1); ("c", 1)].
Proof. reflexivity. Qed.

Example most_common_keeps_order :
  Py.most_common 2 [("a", 1); ("b", 3); ("c", 3)] = [("b", 3); ("c", 3)].
Proof. reflexivity. Qed.

(** ** Facts about strings *)

Section StringFacts.

Lemma append_nil_l (s : string) : "" +:+ s = s.
Proof. reflexivity. Qed.

Lemma append_cons (c : ascii) (a b : string) : String c a +:+ b = String c (a +:+ b).
Proof. reflexivity. Qed.

Lemma append_nil_r (s : string) : s +:+ "" = s.
Proof.
  induction s as [|c s IH]; [reflexivity | now rewrite append_cons, IH].
Qed.

Lemma append_assoc (a b c : string) : (a +:+ b) +:+ c = a +:+ (b +:+ c).
Proof.
  induction a as [|x a IH]; [reflexivity | now rewrite !append_cons, IH].
Qed.

Lemma length_append (a b : string) :
  String.length (a +:+ b) = String.length a + String.length b.
Proof.
  induction a as [|x a IH]; [reflexivity|].
  rewrite append_cons. cbn [String.length]. now rewrite IH.
Qed.

Lemma eqb_true_iff (a b : string) : PyStr.eqb a b = true <-> a = b.
Proof. apply Stdlib.Strings.String.eqb_eq. Qed.

Lemma eqb_false_iff (a b : string) : PyStr.eqb a b = false <-> a <> b.
Proof. apply Stdlib.Strings.String.eqb_neq. Qed.

Lemma eqb_refl (a : string) : PyStr.eqb a a = true.
Proof. now apply eqb_true_iff. Qed.

Lemma startswith_iff (p s : string) :
  PyStr.startswith p s = true <-> exists post, s = p +:+ post.
Proof.
  revert s. induction p as [|a p IH]; intros s; simpl.
  - split; [intros _; now exists s | reflexivity].
  - destruct s as [|b s].
    + split; [discriminate | intros [post H]; discriminate].
    + rewrite andb_true_iff, IH. split.
      * intros [Hab [post ->]]. apply Ascii.eqb_eq in Hab. subst. now exists post.
      * intros [post H]. rewrite append_cons in H. injection H as -> ->.
        split; [apply Ascii.eqb_refl | now exists post].
Qed.

(** [sub in s] holds exactly when [s] splits around [sub]. *)
Lemma contains_iff (sub s : string) :
  PyStr.contains sub s = true <-> exists pre post, s = pre +:+ sub +:+ post.
Proof.
  induction s as [|c s IH]; simpl.
  - rewrite orb_false_r, startswith_iff. split.
    + intros [post H]. now exists "", post.
    + intros (pre & post & H). destruct pre; [now exists post | discriminate].
  - rewrite orb_true_iff, startswith_iff, IH. split.
    + intros [[post H] | (pre & post & H)].
      * now exists "", post.
      * exists (String c pre), post. now rewrite append_cons, H.
    + intros (pre & post & H). destruct pre as [|x pre].
      * left. now exists post.
      * right. rewrite append_cons in H. injection H as -> ->. now exists pre, post.
Qed.

Lemma lower_append (a b : string) :
  PyStr.lower (a +:+ b) = PyStr.lower a +:+ PyStr.lower b.
Proof.
  induction a as [|x a IH]; [reflexivity|].
  rewrite append_cons. cbn [PyStr.lower]. now rewrite IH, append_cons.
Qed.

(** A split of [lower s] comes from a split of [s]. *)
Lemma lower_split (s a b : string) :
  PyStr.lower s = a +:+ b ->
  exists s1 s2, s = s1 +:+ s2 /\ PyStr.lower s1 = a /\ PyStr.lower s2 = b.
Proof.
  revert s. induction a as [|x a IH]; intros s H.
  - now exists "", s.
  - destruct s as [|c s]; [discriminate|].
    rewrite append_cons in H. cbn [PyStr.lower] in H. injection H as Hx Hs.
    destruct (IH s Hs) as (s1 & s2 & -> & H1 & H2).
    exists (String c s1), s2. cbn [PyStr.lower]. now rewrite append_cons, Hx, H1.
Qed.


End StringFacts.

(** ** Facts about the effect monad and the log of calls *)

Section MonadFacts.

Context (P : Event -> Prop).

Lemma emits_ret {A} (a : A) : emits P (ret a).
Proof.
  intros w w' r H. injection H as <- <-. exists []. now rewrite app_nil_r.
Qed.

Lemma emits_raise {A} (e : Exn) : emits P (@raise A e).
Proof.
  intros w w' r H. injection H as <- <-. exists []. now rewrite app_nil_r.
Qed.

Lemma emits_read {A} (f : World -> Outcome A) : emits P (fun w => (w, f w)).
Proof.
  intros w w' r H. injection H as <- <-. exists []. now rewrite app_nil_r.
Qed.

Lemma emits_log (e : Event) : P e -> emits P (log e).
Proof.
  intros He w w' r H. injection H as <- <-. exists [e]. split; [reflexivity|].
  now constructor.
Qed.

Lemma emits_rmtree (name : string) : emits P (EmbeddingGenerator.rmtree name).
Proof.
  intros w w' r H. injection H as <- <-. exists []. cbn. now rewrite app_nil_r.
Qed.

Lemma emits_bind {A B} (m : M A) (k : A -> M B) :
  emits P m -> (forall a, emits P (k a)) -> emits P (bind m k).
Proof.
  intros Hm Hk w w' r H. unfold bind in H.
  destruct (m w) as [w1 [a|e]] eqn:Hmw.
  - destruct (Hm _ _ _ Hmw) as (evs1 & E1 & F1).
    destruct (Hk a _ _ _ H) as (evs2 & E2 & F2).
    exists (evs1 ++ evs2). rewrite E2, E1, app_assoc. split; [reflexivity|].
    now apply Forall_app.
  - injection H as <- <-. exact (Hm _ _ _ Hmw).
Qed.

Lemma emits_try {A} (body handler : M A) :
  emits P body -> emits P handler -> emits P (try_except_FileNotFoundError body handler).
Proof.
  intros Hb Hh w w' r H. unfold try_except_FileNotFoundError in H.
  destruct (body w) as [w1 [a|e]] eqn:Hbw.
  - injection H as <- <-. exact (Hb _ _ _ Hbw).
  - destruct (Hb _ _ _ Hbw) as (evs1 & E1 & F1).
    destruct e.
    + destruct (Hh _ _ _ H) as (evs2 & E2 & F2).
      exists (evs1 ++ evs2). rewrite E2, E1, app_assoc. split; [reflexivity|].
      now apply Forall_app.
    + injection H as <- <-. eauto.
    + injection H as <- <-. eauto.
Qed.

End MonadFacts.

Lemma emits_weaken (P Q : Event -> Prop) {A} (m : M A) :
  (forall e, P e -> Q e) -> emits P m -> emits Q m.
Proof.
  intros HPQ Hm w w' r H. destruct (Hm _ _ _ H) as (evs & E & F).
  exists evs. split; [exact E|]. eapply Forall_impl; eauto.
Qed.

(** *** What each stage logs *)

Section StageEvents.

Context (self : Services).
Context (P : Event -> Prop).
Hypothesis Pllm : forall msgs, P (EvLlmInvoke msgs).
Hypothesis Pstream : forall msgs, P (EvLlmStream msgs).
Hypothesis Pexists : forall name, P (EvIndexExists name).
Hypothesis Pload : forall name, P (EvLoadIndex name).
Hypothesis Psearch : forall name q k, P (EvSearch name q k).

Ltac emits_step :=
  first
    [ apply emits_ret | apply emits_raise | apply emits_rmtree
    | apply emits_log; solve [auto]
    | apply emits_bind; [| intros ?]
    | apply emits_try ].

Lemma emits_load_index name : emits P (EmbeddingGenerator.load_index name).
Proof.
  unfold EmbeddingGenerator.load_index. apply emits_bind; [emits_step | intros _].
  intros w w' r H. destruct (fs w !! name) as [[| |vs]|].
  - revert w w' r H. repeat emits_step.
  - revert w w' r H. repeat emits_step.
  - revert w w' r H. repeat emits_step.
  - revert w w' r H. repeat emits_step.
Qed.

Lemma emits_search_similar name q k : emits P (EmbeddingGenerator.search_similar name q k).
Proof.
  unfold EmbeddingGenerator.search_similar.
  apply emits_bind; [apply emits_load_index | intros vs].
  apply emits_bind; [emits_step | intros _].
  destruct (vs q k); emits_step.
Qed.

Lemma emits_index_exists name : emits P (_index_exists name).
Proof.
  unfold _index_exists. apply emits_bind; [emits_step | intros _].
  apply (emits_read P
           (fun w => Returned match fs w !! _get_actual_index_name name with
                              | Some Unreadable | Some (Loadable _) => true
                              | Some Incomplete | None => false
                              end)).
Qed.

Lemma emits_search_charts state : emits P (search_charts state).
Proof.
  unfold search_charts. apply emits_try; [|emits_step].
  apply emits_bind; [apply emits_index_exists | intros [|]]; [|emits_step].
  apply emits_bind; [apply emits_search_similar | intros ?]. emits_step.
Qed.

Lemma emits_search_comments state : emits P (search_comments state).
Proof.
  unfold search_comments. apply emits_try; [|emits_step].
  apply emits_bind; [apply emits_index_exists | intros [|]]; [|emits_step].
  apply emits_bind; [apply emits_search_similar | intros ?]. emits_step.
Qed.

Lemma emits_extract_context state : emits P (extract_context self state).
Proof.
  unfold extract_context.
  apply emits_bind; [apply emits_search_charts | intros ?].
  apply emits_bind; [apply emits_search_comments | intros ?]. emits_step.
Qed.

Lemma emits_llm_call msgs : emits P (llm_call self msgs).
Proof.
  unfold llm_call. apply emits_bind; [emits_step | intros _].
  destruct (llm_invoke self msgs); emits_step.
Qed.

Lemma emits_validate_query state : emits P (validate_query self state).
Proof.
  unfold validate_query. apply emits_bind; [apply emits_llm_call | intros ?]. emits_step.
Qed.

Lemma emits_get_llm_insights state : emits P (_get_llm_insights self state).
Proof.
  unfold _get_llm_insights. apply emits_bind; [apply emits_llm_call | intros ?]. emits_step.
Qed.

Lemma emits_analyze_data state : emits P (analyze_data self state).
Proof.
  unfold analyze_data. apply emits_bind; [|intros ?; emits_step].
  destruct (context state); [emits_step|].
  match goal with |- context [if ?b then _ else _] => destruct b end; [|emits_step].
  apply emits_bind; [apply emits_get_llm_insights | intros ?]. emits_step.
Qed.


Lemma emits_redirect_to_analytical state : emits P (redirect_to_analytical self state).
Proof. unfold redirect_to_analytical. emits_step. Qed.

Lemma emits_llm_stream msgs : emits P (llm_stream self msgs).
Proof.
  unfold llm_stream. apply emits_bind; [emits_step | intros _].
  destruct (llm_astream self msgs); emits_step.
Qed.

Lemma emits_generate_streaming_response state :
  emits P (_generate_streaming_response self state).
Proof.
  unfold _generate_streaming_response.
  apply emits_bind; [apply emits_llm_stream | intros chunks].
  apply emits_bind; [|intros ?; emits_step].
  destruct (PyStr.eqb (context state) no_indexed_data); [emits_step|].
  match goal with |- context [match ?l with [] => _ | _ :: _ => _ end] => destruct l end.
  - apply emits_analyze_data.
  - emits_step.
Qed.

Lemma emits_streaming_branch state : emits P (streaming_branch self state).
Proof.
  unfold streaming_branch.
  apply emits_bind; [apply emits_extract_context | intros ?].
  apply emits_generate_streaming_response.
Qed.


End StageEvents.

(** ** The two arms of the pipeline *)

Section Pipeline.

Context (self : Services).

Lemma logged_logged w evs1 evs2 : logged (logged w evs1) evs2 = logged w (evs1 ++ evs2).
Proof. unfold logged. cbn. now rewrite app_assoc. Qed.

Lemma log_logged e w : log e w = (logged w [e], Returned tt).
Proof. reflexivity. Qed.

(** The classification call, when the completion service answers. *)
Lemma validate_query_returns state w completion :
  llm_invoke self (classification_messages (query state)) = Some completion ->
  validate_query self state w
  = (logged w [EvLlmInvoke (classification_messages (query state))],
     Returned (set_is_analytical
                 (PyStr.contains "analytical" (PyStr.lower completion)) state)).
Proof.
  intros H. unfold classification_messages in *.
  cbv [validate_query llm_call bind log ret raise logged]. now rewrite H.
Qed.

(** When it does not, the run is aborted. *)
Lemma validate_query_raises state w :
  llm_invoke self (classification_messages (query state)) = None ->
  validate_query self state w
  = (logged w [EvLlmInvoke (classification_messages (query state))], Raised ServiceError).
Proof.
  intros H. unfold classification_messages in *.
  cbv [validate_query llm_call bind log ret raise logged]. now rewrite H.
Qed.

Lemma run_node_step (g : StateGraph) limit name state action :
  lookup name (nodes g) = Some action ->
  run_node g (S limit) name state
  = bind (log (EvNode name))
      (fun _ => bind (action state)
         (fun state' =>
            match next_node g name state' with
            | Some (To name') => run_node g limit name' state'
            | Some END | None => ret state'
            end)).
Proof. intros H. cbn [run_node]. now rewrite H. Qed.

Lemma next_node_validate_query state :
  next_node (_build_graph self) "validate_query" state
  = Some (To (if is_analytical state then "extract_context" else "redirect_to_analytical")).
Proof. unfold next_node. cbn. now destruct (is_analytical state). Qed.

Lemma bind_ext {A B} (m : M A) (k1 k2 : A -> M B) w :
  (forall a w', k1 a w' = k2 a w') -> bind m k1 w = bind m k2 w.
Proof.
  intros H. unfold bind. destruct (m w) as [w1 [a|e]]; [apply H | reflexivity].
Qed.

Lemma run_node_analytical limit state w :
  run_node (_build_graph self) (S (S (S limit))) "extract_context" state w
  = analytical_branch self state w.
Proof.
  rewrite (run_node_step (_build_graph self) _ "extract_context" _ (extract_context self) eq_refl).
  unfold analytical_branch.
  apply bind_ext; intros _ w1. apply bind_ext; intros st1 w2.
  change (next_node (_build_graph self) "extract_context" st1)
    with (Some (To "analyze_data")).
  cbv beta iota.
  rewrite (run_node_step (_build_graph self) _ "analyze_data" _ (analyze_data self) eq_refl).
  apply bind_ext; intros _ w3. apply bind_ext; intros st2 w4.
  change (next_node (_build_graph self) "analyze_data" st2)
    with (Some (To "generate_response")).
  cbv beta iota.
  rewrite (run_node_step (_build_graph self) _ "generate_response" _
             (generate_response self) eq_refl).
  apply bind_ext; intros _ w5.
  unfold bind. destruct (generate_response self st2 w5) as [w6 [st3|e]]; reflexivity.
Qed.

Lemma run_node_redirect limit state w :
  run_node (_build_graph self) (S limit) "redirect_to_analytical" state w
  = redirect_branch self state w.
Proof.
  rewrite (run_node_step (_build_graph self) _ "redirect_to_analytical" _
             (redirect_to_analytical self) eq_refl).
  reflexivity.
Qed.

(** The graph is the fixed flow with two arms. *)
Lemma run_two_arms q charts comments w w1 st1 :
  validate_query self (initial_state q charts comments) (logged w [EvNode "validate_query"])
  = (w1, Returned st1) ->
  run self q charts comments w
  = (if is_analytical st1 then analytical_branch self st1 else redirect_branch self st1) w1.
Proof.
  intros H. unfold run, invoke, recursion_limit.
  change (entry_point (_build_graph self)) with "validate_query".
  rewrite (run_node_step (_build_graph self) _ "validate_query" _ (validate_query self) eq_refl).
  unfold bind at 1 2. rewrite log_logged, H, next_node_validate_query.
  destruct (is_analytical st1); cbv beta iota.
  - apply run_node_analytical.
  - apply run_node_redirect.
Qed.

Lemma arun_two_arms q charts comments w w1 st1 :
  validate_query self (initial_state q charts comments) w = (w1, Returned st1) ->
  arun_with_streaming self q charts comments w
  = (if is_analytical st1 then streaming_branch self st1
     else redirect_to_analytical self st1) w1.
Proof.
  intros H. unfold arun_with_streaming, bind at 1. rewrite H.
  destruct (is_analytical st1); reflexivity.
Qed.

End Pipeline.

(** ** Facts about sorting and deduplication *)

Section Sorting.

Context {A : Type} (lt : A -> A -> bool).

Hypothesis lt_asym : forall a b, lt a b = true -> lt b a = false.
Hypothesis precede_trans :
  forall a b c, may_precede lt a b -> may_precede lt b c -> may_precede lt a c.

Lemma insert_desc_perm (x : A) (l : list A) :
  Permutation (Py.insert_desc lt x l) (x :: l).
Proof.
  induction l as [|y l IH]; cbn [Py.insert_desc]; [reflexivity|].
  destruct (lt x y); [|reflexivity].
  rewrite IH. apply perm_swap.
Qed.

Lemma sort_desc_perm (l : list A) : Permutation (Py.sort_desc lt l) l.
Proof.
  induction l as [|x l IH]; cbn [Py.sort_desc]; [reflexivity|].
  rewrite insert_desc_perm. now constructor.
Qed.

Lemma insert_desc_sorted (x : A) (l : list A) :
  StronglySorted (may_precede lt) l -> StronglySorted (may_precede lt) (Py.insert_desc lt x l).
Proof.
  induction 1 as [|y l Hsorted IH Hy]; cbn [Py.insert_desc].
  - repeat constructor.
  - destruct (lt x y) eqn:Hxy.
    + constructor; [exact IH|].
      eapply Permutation_Forall; [symmetry; apply insert_desc_perm|].
      constructor; [now apply lt_asym | exact Hy].
    + constructor; [now constructor|].
      constructor; [exact Hxy|].
      eapply Forall_impl; [exact Hy|]. intros z Hz. now apply precede_trans with y.
Qed.

Lemma sort_desc_sorted (l : list A) : StronglySorted (may_precede lt) (Py.sort_desc lt l).
Proof.
  induction l as [|x l IH]; cbn [Py.sort_desc]; [constructor|].
  now apply insert_desc_sorted.
Qed.

End Sorting.

Lemma StronglySorted_impl {A} (R R' : A -> A -> Prop) (l : list A) :
  (forall a b, R a b -> R' a b) -> StronglySorted R l -> StronglySorted R' l.
Proof.
  intros HR. induction 1 as [|x l Hs IH Hx]; constructor; [exact IH|].
  eapply Forall_impl; [exact Hx|]. auto.
Qed.

Lemma StronglySorted_app_cross {A} (R : A -> A -> Prop) (l1 l2 : list A) :
  StronglySorted R (l1 ++ l2) -> forall x y, In x l1 -> In y l2 -> R x y.
Proof.
  induction l1 as [|a l1 IH]; intros Hs x y Hx Hy; [destruct Hx|].
  cbn in Hs. apply StronglySorted_inv in Hs as [Hs Ha].
  destruct Hx as [<- | Hx].
  - rewrite List.Forall_forall in Ha. apply Ha. apply in_or_app. now right.
  - now apply IH.
Qed.

Lemma StronglySorted_app_l {A} (R : A -> A -> Prop) (l1 l2 : list A) :
  StronglySorted R (l1 ++ l2) -> StronglySorted R l1.
Proof.
  induction l1 as [|a l1 IH]; intros Hs; [constructor|].
  cbn in Hs. apply StronglySorted_inv in Hs as [Hs Ha].
  constructor; [now apply IH|].
  rewrite List.Forall_forall in *. intros z Hz. apply Ha. apply in_or_app. now left.
Qed.

Section ScoreOrder.

Lemma score_lt_false (a b : EvidenceItem) : score_lt a b = false <-> score_ge a b.
Proof.
  unfold score_lt, score_ge. rewrite negb_false_iff. apply Qle_bool_iff.
Qed.

Lemma score_lt_asym (a b : EvidenceItem) : score_lt a b = true -> score_lt b a = false.
Proof.
  intros H. apply score_lt_false. unfold score_ge.
  unfold score_lt in H. apply negb_true_iff in H.
  destruct (Qlt_le_dec (similarity_score a) (similarity_score b)) as [Hlt | Hle].
  - now apply Qlt_le_weak.
  - apply Qle_bool_iff in Hle. congruence.
Qed.

Lemma score_lt_trans (a b c : EvidenceItem) :
  score_lt a b = false -> score_lt b c = false -> score_lt a c = false.
Proof.
  rewrite !score_lt_false. unfold score_ge. intros H1 H2. now apply Qle_trans with (similarity_score b).
Qed.

(** The sort of [extract_context] yields a descending sequence. *)
Lemma sort_by_score_sorted (l : list EvidenceItem) :
  StronglySorted score_ge (Py.sort_desc score_lt l).
Proof.
  eapply StronglySorted_impl; [|apply sort_desc_sorted].
  - intros a b. apply score_lt_false.
  - apply score_lt_asym.
  - exact score_lt_trans.
Qed.

Lemma same_score_below x a y :
  same_score x y = true -> score_lt a y = true -> same_score x a = false.
Proof.
  unfold same_score, score_lt. intros Hxy Hay.
  apply Qeq_bool_iff in Hxy. apply negb_true_iff in Hay.
  destruct (Qeq_bool (similarity_score x) (similarity_score a)) eqn:E; [|reflexivity].
  apply Qeq_bool_iff in E.
  assert (Hle : (similarity_score y <= similarity_score a)%Q)
    by (rewrite <- Hxy, E; apply Qle_refl).
  apply Qle_bool_iff in Hle. congruence.
Qed.

Lemma insert_by_score_stable x a l :
  List.filter (same_score x) (Py.insert_desc score_lt a l)
  = List.filter (same_score x) (a :: l).
Proof.
  induction l as [|y l IH]; [reflexivity|].
  cbn [Py.insert_desc]. destruct (score_lt a y) eqn:Hay; [|reflexivity].
  cbn [List.filter] in *. rewrite IH.
  destruct (same_score x y) eqn:Hxy; [|reflexivity].
  now rewrite (same_score_below x a y Hxy Hay).
Qed.

(** The sort is stable: sources of one score keep their order. *)
Lemma sort_by_score_stable x l :
  List.filter (same_score x) (Py.sort_desc score_lt l) = List.filter (same_score x) l.
Proof.
  induction l as [|a l IH]; [reflexivity|].
  cbn [Py.sort_desc]. rewrite insert_by_score_stable. cbn [List.filter]. now rewrite IH.
Qed.

End ScoreOrder.

Section Deduplication.

Lemma unique_key_set_rank r e : unique_key (set_rank r e) = unique_key e.
Proof. reflexivity. Qed.

Lemma has_key_true k e : has_key k e = true <-> unique_key e = k.
Proof. apply eqb_true_iff. Qed.

Lemma has_key_false k e : has_key k e = false <-> unique_key e <> k.
Proof. apply eqb_false_iff. Qed.

(** What survives the loop was there, and its key had not been seen. *)
Lemma deduplicate_in seen l x :
  In x (deduplicate seen l) -> In x l /\ unique_key x ∉ seen.
Proof.
  revert seen. induction l as [|s l IH]; intros seen Hx; [destruct Hx|].
  cbn [deduplicate] in Hx. destruct (decide (unique_key s ∈ seen)) as [Hs | Hs].
  - destruct (IH _ Hx). split; [now right | assumption].
  - destruct Hx as [<- | Hx]; [split; [now left | assumption]|].
    destruct (IH _ Hx) as [Hin Hnot]. split; [now right|].
    intros Hseen. apply Hnot, elem_of_union. now right.
Qed.

(** What survives is the first item that carries its key. *)
Lemma deduplicate_first seen l x :
  In x (deduplicate seen l) -> first_with_key (unique_key x) l = Some x.
Proof.
  revert seen. induction l as [|s l IH]; intros seen Hx; [destruct Hx|].
  cbn [deduplicate] in Hx. unfold first_with_key. cbn [find].
  destruct (decide (unique_key s ∈ seen)) as [Hs | Hs].
  - destruct (deduplicate_in _ _ _ Hx) as [_ Hnot].
    assert (Hne : has_key (unique_key x) s = false)
      by (apply has_key_false; intros E; rewrite E in Hs; contradiction).
    rewrite Hne. exact (IH _ Hx).
  - destruct Hx as [<- | Hx].
    + assert (Heq : has_key (unique_key s) s = true) by now apply has_key_true.
      now rewrite Heq.
    + destruct (deduplicate_in _ _ _ Hx) as [_ Hnot].
      assert (Hne : has_key (unique_key x) s = false)
        by (apply has_key_false; intros E; apply Hnot, elem_of_union; left;
            now apply elem_of_singleton).
      rewrite Hne. exact (IH _ Hx).
Qed.

(** No key survives twice. *)
Lemma deduplicate_NoDup seen l : List.NoDup (map unique_key (deduplicate seen l)).
Proof.
  revert seen. induction l as [|s l IH]; intros seen; cbn [deduplicate].
  - constructor.
  - destruct (decide (unique_key s ∈ seen)) as [Hs | Hs]; [apply IH|].
    cbn [map]. constructor; [|apply IH].
    intros Hin. apply in_map_iff in Hin as (y & Hy & Hin).
    apply deduplicate_in in Hin as [_ Hnot]. apply Hnot, elem_of_union. left.
    now apply elem_of_singleton.
Qed.

(** Every key that was not seen before survives. *)
Lemma deduplicate_complete seen l a :
  In a l -> unique_key a ∉ seen ->
  exists x, In x (deduplicate seen l) /\ unique_key x = unique_key a.
Proof.
  revert seen. induction l as [|s l IH]; intros seen Ha Hnot; [destruct Ha|].
  cbn [deduplicate]. destruct (decide (unique_key s ∈ seen)) as [Hs | Hs].
  - destruct Ha as [-> | Ha]; [contradiction|].
    destruct (IH _ Ha Hnot) as (x & Hx & E). now exists x.
  - destruct Ha as [-> | Ha]; [exists a; split; [now left | reflexivity]|].
    destruct (decide (unique_key a = unique_key s)) as [E | NE].
    + exists s. split; [now left | now symmetry].
    + destruct (IH ({[unique_key s]} ∪ seen) Ha) as (x & Hx & E).
      { intros Hseen. apply elem_of_union in Hseen as [Hseen | Hseen];
          [apply elem_of_singleton in Hseen|]; contradiction. }
      exists x. split; [now right | exact E].
Qed.

Lemma deduplicate_nonempty s l : deduplicate ∅ (s :: l) <> [].
Proof.
  cbn [deduplicate].
  destruct (decide (unique_key s ∈ (∅ : gset string))) as [Hin | _];
    [now apply not_elem_of_empty in Hin | discriminate].
Qed.

(** Counting the carriers of a key. *)
Lemma filter_none k (l : list EvidenceItem) :
  ~ In k (map unique_key l) -> List.filter (has_key k) l = [].
Proof.
  induction l as [|y l IH]; intros Hk; [reflexivity|].
  cbn [List.filter].
  assert (Hy : has_key k y = false).
  { apply has_key_false. intros E. apply Hk. left. exact E. }
  rewrite Hy. apply IH. intros Hin. apply Hk. now right.
Qed.

Lemma filter_key_singleton (l : list EvidenceItem) x :
  List.NoDup (map unique_key l) -> In x l ->
  List.filter (has_key (unique_key x)) l = [x].
Proof.
  induction l as [|y l IH]; intros Hnd Hx; [destruct Hx|].
  cbn [map] in Hnd. apply List.NoDup_cons_iff in Hnd as [Hy Hnd].
  cbn [List.filter]. destruct Hx as [-> | Hx].
  - assert (E : has_key (unique_key x) x = true) by now apply has_key_true.
    rewrite E. f_equal. now apply filter_none.
  - assert (E : has_key (unique_key x) y = false).
    { apply has_key_false. intros E. apply Hy. rewrite E. now apply in_map. }
    rewrite E. now apply IH.
Qed.

Lemma count_key_NoDup k (l : list EvidenceItem) :
  List.NoDup (map unique_key l) -> count_key k l <= 1.
Proof.
  unfold count_key. induction l as [|y l IH]; intros Hnd; [cbn; lia|].
  cbn [map] in Hnd. apply List.NoDup_cons_iff in Hnd as [Hy Hnd].
  cbn [List.filter]. destruct (has_key k y) eqn:E.
  - apply has_key_true in E. subst k. rewrite (filter_none _ _ Hy). cbn. lia.
  - now apply IH.
Qed.

Lemma count_key_perm k (l l' : list EvidenceItem) :
  Permutation l l' -> count_key k l = count_key k l'.
Proof.
  unfold count_key. induction 1 as [|x l l' _ IH|x y l|l l' l'' _ IH1 _ IH2].
  - reflexivity.
  - cbn [List.filter]. destruct (has_key k x); cbn [length]; now rewrite IH.
  - cbn [List.filter]. destruct (has_key k x), (has_key k y); reflexivity.
  - now rewrite IH1.
Qed.

Lemma count_key_imap_set_rank k (g : nat -> nat) (l : list EvidenceItem) :
  count_key k (imap (fun i => set_rank (g i)) l) = count_key k l.
Proof.
  unfold count_key. revert g. induction l as [|x l IH]; intros g; [reflexivity|].
  rewrite imap_cons. cbn [List.filter].
  change (has_key k (set_rank (g 0) x)) with (has_key k x).
  destruct (has_key k x); cbn [length]; now rewrite <- (IH (fun i => g (S i))).
Qed.

Lemma count_key_rerank k (l : list EvidenceItem) :
  count_key k (rerank l) = count_key k l.
Proof. apply (count_key_imap_set_rank k (fun i => i + 1)). Qed.

Lemma In_rerank (l : list EvidenceItem) x :
  In x (rerank l) -> exists r y, x = set_rank r y /\ In y l.
Proof.
  intros Hx. apply list_elem_of_In, list_elem_of_lookup in Hx as [i Hi].
  unfold rerank in Hi. rewrite list_lookup_imap in Hi.
  destruct (l !! i) as [y|] eqn:Hy; [|discriminate].
  injection Hi as <-. exists (i + 1), y. split; [reflexivity|].
  apply list_elem_of_In. eapply list_elem_of_lookup_2; eauto.
Qed.

Lemma NoDup_keys_take n (l : list EvidenceItem) :
  List.NoDup (map unique_key l) -> List.NoDup (map unique_key (take n l)).
Proof.
  intros H. rewrite <- (take_drop n l), map_app in H.
  now apply List.NoDup_app_remove_r in H.
Qed.

End Deduplication.

(** ** The structure of [extract_context] *)

Section ExtractContext.

Context (self : Services).

(** The bundle that [merge_context] builds from what was retrieved. *)
Lemma merge_context_sources q (retrieved : list EvidenceItem) parts :
  retrieved <> [] ->
  fst (merge_context q retrieved parts)
  = rerank (take max_context_sources
              (Py.sort_desc score_lt (deduplicate ∅ retrieved))).
Proof. destruct retrieved; [congruence | reflexivity]. Qed.

Lemma extract_context_retrieve state w w1 retrieved parts :
  retrieve state w = (w1, Returned (retrieved, parts)) ->
  extract_context self state w
  = (w1, Returned
           (set_context_sources (fst (merge_context (query state) retrieved parts))
              (set_context
                 (PyStr.join PyStr.nl (snd (merge_context (query state) retrieved parts)))
                 state))).
Proof.
  unfold retrieve, extract_context, bind, ret.
  destruct (search_charts state w) as [w' [cf|e]]; [|discriminate].
  destruct (search_comments state w') as [w'' [mf|e]]; [|discriminate].
  intros H. injection H as <- <- <-. reflexivity.
Qed.

Lemma returned_Some {A} (r : World * Outcome A) (a : A) :
  returned r = Some a <-> exists w, r = (w, Returned a).
Proof.
  destruct r as [w [x|e]]; unfold returned; cbn [snd]; split.
  - intros H. injection H as ->. now exists w.
  - intros [w' H]. now injection H as _ ->.
  - discriminate.
  - intros [w' H]. discriminate.
Qed.

Lemma extract_context_returned state w retrieved parts :
  returned (retrieve state w) = Some (retrieved, parts) ->
  returned (extract_context self state w)
  = Some (set_context_sources (fst (merge_context (query state) retrieved parts))
            (set_context
               (PyStr.join PyStr.nl (snd (merge_context (query state) retrieved parts)))
               state)).
Proof.
  intros H. apply returned_Some in H as [w1 H].
  apply returned_Some. exists w1. now apply extract_context_retrieve.
Qed.

(** [extract_context] returns exactly when both searches do. *)
Lemma extract_context_raises state w w1 e :
  retrieve state w = (w1, Raised e) -> extract_context self state w = (w1, Raised e).
Proof.
  unfold retrieve, extract_context, bind, ret.
  destruct (search_charts state w) as [w' [cf|e']]; [|congruence].
  destruct (search_comments state w') as [w'' [mf|e']]; [discriminate | congruence].
Qed.

End ExtractContext.

Section Ranking.

Lemma Forall_imap_set_rank (P : EvidenceItem -> Prop) (g : nat -> nat) l :
  (forall r x, P x -> P (set_rank r x)) ->
  Forall P l -> Forall P (imap (fun i => set_rank (g i)) l).
Proof.
  intros HP. revert g. induction l as [|x l IH]; intros g Hl; [constructor|].
  rewrite imap_cons. apply Forall_cons in Hl as [Hx Hl].
  constructor; [now apply HP|]. exact (IH (fun i => g (S i)) Hl).
Qed.

Lemma sorted_imap_set_rank (g : nat -> nat) l :
  StronglySorted score_ge l ->
  StronglySorted score_ge (imap (fun i => set_rank (g i)) l).
Proof.
  intros Hs. revert g. induction Hs as [|x l Hs IH Hx]; intros g; [constructor|].
  rewrite imap_cons. constructor; [exact (IH (fun i => g (S i)))|].
  apply (Forall_imap_set_rank (score_ge (set_rank (g 0) x)) (fun i => g (S i))).
  - intros r y Hy. exact Hy.
  - exact Hx.
Qed.

(** Writing the ranks keeps a descending sequence descending. *)
Lemma rerank_sorted l : StronglySorted score_ge l -> StronglySorted score_ge (rerank l).
Proof. apply (sorted_imap_set_rank (fun i => i + 1)). Qed.

Lemma length_rerank l : length (rerank l) = length l.
Proof. apply length_imap. Qed.

End Ranking.

(** ** The searches, case by case *)

Section Searches.

Lemma search_charts_cases state w :
  match fs w !! "brandbastion" with
  | None | Some Incomplete =>
      search_charts state w = (logged w [EvIndexExists "charts"], Returned ([], []))
  | Some Unreadable =>
      search_charts state w
      = (mkWorld (delete "brandbastion" (fs w))
           (calls w ++ [EvIndexExists "charts"; EvLoadIndex "brandbastion"]),
         Returned ([], charts_note state))
  | Some (Loadable vs) =>
      let w' := logged w [EvIndexExists "charts"; EvLoadIndex "brandbastion";
                          EvSearch "brandbastion" (query state) max_context_sources] in
      match vs (query state) max_context_sources with
      | Some hits =>
          search_charts state w
          = (w', Returned (tag_hits "chart" hits, part_hits chart_part hits))
      | None => search_charts state w = (w', Raised ServiceError)
      end
  end.
Proof.
  unfold search_charts, try_except_FileNotFoundError, _index_exists,
    EmbeddingGenerator.search_similar, EmbeddingGenerator.load_index,
    EmbeddingGenerator.rmtree, bind, log, ret, raise, logged.
  change (_get_actual_index_name "charts") with "brandbastion".
  cbn [fs calls].
  destruct (fs w !! "brandbastion") as [[| |vs]|] eqn:E; cbn [fs calls]; rewrite ?E.
  - reflexivity.
  - rewrite <- app_assoc. reflexivity.
  - cbn zeta. destruct (vs (query state) max_context_sources);
      cbn [fs calls]; rewrite <- !app_assoc; reflexivity.
  - reflexivity.
Qed.

Lemma search_comments_cases state w :
  match fs w !! "brandbastion_comments" with
  | None | Some Incomplete =>
      search_comments state w = (logged w [EvIndexExists "comments"], Returned ([], []))
  | Some Unreadable =>
      search_comments state w
      = (mkWorld (delete "brandbastion_comments" (fs w))
           (calls w ++ [EvIndexExists "comments"; EvLoadIndex "brandbastion_comments"]),
         Returned ([], comments_note state))
  | Some (Loadable vs) =>
      let w' := logged w [EvIndexExists "comments"; EvLoadIndex "brandbastion_comments";
                          EvSearch "brandbastion_comments" (query state)
                            max_context_sources] in
      match vs (query state) max_context_sources with
      | Some hits =>
          search_comments state w
          = (w', Returned (tag_hits "comment" hits, part_hits comment_part hits))
      | None => search_comments state w = (w', Raised ServiceError)
      end
  end.
Proof.
  unfold search_comments, try_except_FileNotFoundError, _index_exists,
    EmbeddingGenerator.search_similar, EmbeddingGenerator.load_index,
    EmbeddingGenerator.rmtree, bind, log, ret, raise, logged.
  change (_get_actual_index_name "comments") with "brandbastion_comments".
  cbn [fs calls].
  destruct (fs w !! "brandbastion_comments") as [[| |vs]|] eqn:E; cbn [fs calls]; rewrite ?E.
  - reflexivity.
  - rewrite <- app_assoc. reflexivity.
  - cbn zeta. destruct (vs (query state) max_context_sources);
      cbn [fs calls]; rewrite <- !app_assoc; reflexivity.
  - reflexivity.
Qed.

(** Both searches together: they return what the indices hold, and drop
    the corrupt directories, unless a search in a loaded index raises. *)
Lemma retrieve_spec state w :
  (search_answers w "charts" (query state)
   /\ search_answers w "comments" (query state)
   /\ exists events,
        retrieve state w
        = (mkWorld (discard_corrupt w) (calls w ++ events),
           Returned (retrieved_sources state w, retrieved_parts state w)))
  \/ ((~ search_answers w "charts" (query state)
       \/ ~ search_answers w "comments" (query state))
      /\ exists w', retrieve state w = (w', Raised ServiceError)).
Proof.
  pose proof (search_charts_cases state w) as Hc.
  unfold search_answers, retrieved_sources, retrieved_parts, discard_corrupt,
    hits_of, corrupt, index_dir.
  change (_get_actual_index_name "charts") with "brandbastion".
  change (_get_actual_index_name "comments") with "brandbastion_comments".
  unfold retrieve, bind.
  destruct (fs w !! "brandbastion") as [[| |vc]|] eqn:Ec;
    [| | cbn zeta in Hc; destruct (vc (query state) max_context_sources) as [hc|] eqn:Evc |];
    rewrite Hc; clear Hc.
  all: try (right; split; [left; intros H; now apply H | eexists; reflexivity]).
  all: match goal with
       | |- context [search_comments ?s ?w1] =>
           pose proof (search_comments_cases s w1) as Hm;
           assert (Efs : fs w1 !! "brandbastion_comments" = fs w !! "brandbastion_comments")
             by (cbn [fs logged]; try reflexivity; now apply lookup_delete_ne);
           rewrite Efs in Hm; clear Efs
       end.
  all: destruct (fs w !! "brandbastion_comments") as [[| |vm]|] eqn:Em;
    [| | cbn zeta in Hm; destruct (vm (query state) max_context_sources) as [hm|] eqn:Evm |];
    rewrite Hm; clear Hm.
  all: try (right; split; [right; intros H; now apply H | eexists; reflexivity]).
  all: left; split; [try exact I; congruence|]; split; [try exact I; congruence|].
  all: eexists; unfold ret, logged; cbn [fs calls fst snd]; rewrite <- ?app_assoc.
  all: reflexivity.
Qed.

Lemma tag_hits_nil t hits : tag_hits t hits = [] -> hits = [].
Proof.
  intros H. apply (f_equal length) in H. unfold tag_hits in H.
  rewrite length_imap, length_map in H. now destruct hits.
Qed.

End Searches.

Section NoEvidence.

Context (self : Services).

Lemma join_cons sep p q (ps : list string) :
  PyStr.join sep (p :: q :: ps) = p +:+ sep +:+ PyStr.join sep (q :: ps).
Proof. reflexivity. Qed.

Lemma length_join_last sep (l : list string) s :
  String.length s <= String.length (PyStr.join sep (l ++ [s])).
Proof.
  induction l as [|x l IH]; [cbn; lia|].
  destruct l as [|y l]; cbn [app] in *; rewrite join_cons, !length_append; lia.
Qed.

Lemma join_notes_differs sep (notes : list string) s :
  sep <> "" -> notes <> [] -> PyStr.join sep (notes ++ [s]) <> s.
Proof.
  intros Hsep Hnotes E. apply (f_equal String.length) in E.
  destruct notes as [|x l]; [congruence|].
  pose proof (length_join_last sep l s) as Hlen.
  destruct l as [|y l]; cbn [app] in *; rewrite join_cons, !length_append in E;
    destruct sep; try congruence; cbn [String.length] in E; lia.
Qed.

Lemma merge_context_nonempty q (retrieved : list EvidenceItem) parts :
  retrieved <> [] -> fst (merge_context q retrieved parts) <> [].
Proof.
  intros Hne. rewrite (merge_context_sources _ _ _ Hne). intros E.
  apply (f_equal length) in E. rewrite length_rerank, length_take in E.
  rewrite (Permutation_length (sort_desc_perm score_lt _)) in E.
  destruct retrieved as [|s l]; [congruence|].
  pose proof (deduplicate_nonempty s l) as Hd.
  destruct (deduplicate ∅ (s :: l)); [congruence|].
  unfold max_context_sources in E. cbn [length] in E. lia.
Qed.

(** What [extract_context] returns is decided by what the searches return. *)
Lemma extract_context_spec state w state' :
  returned (extract_context self state w) = Some state' ->
  let merged :=
    merge_context (query state) (retrieved_sources state w) (retrieved_parts state w) in
  search_answers w "charts" (query state)
  /\ search_answers w "comments" (query state)
  /\ state' = set_context_sources (fst merged)
                (set_context (PyStr.join PyStr.nl (snd merged)) state).
Proof.
  intros Hret merged.
  destruct (retrieve_spec state w) as [(Hc & Hm & events & Hr) | (_ & w' & Hr)].
  - split; [exact Hc|]. split; [exact Hm|].
    rewrite (extract_context_retrieve self _ _ _ _ _ Hr) in Hret.
    unfold returned in Hret. cbn [snd] in Hret. now injection Hret as <-.
  - rewrite (extract_context_raises self _ _ _ _ Hr) in Hret. discriminate.
Qed.

Lemma no_sources_no_hits state w :
  retrieved_sources state w = [] ->
  retrieved_parts state w = index_notes state w.
Proof.
  unfold retrieved_sources, retrieved_parts, index_notes. intros H.
  apply app_eq_nil in H as [Hc Hm].
  apply tag_hits_nil in Hc. apply tag_hits_nil in Hm. rewrite Hc, Hm.
  now destruct (corrupt w "charts"), (corrupt w "comments").
Qed.

End NoEvidence.

(** ** The stages after retrieval *)

Section LaterStages.

Context (self : Services).

(** [analyze_data] writes the insights and nothing else; it returns when
    the completion service answers. *)
Lemma analyze_data_returns state w :
  (forall msgs, llm_invoke self msgs <> None) ->
  exists w' found, analyze_data self state w = (w', Returned (set_insights found state)).
Proof.
  intros Hllm. unfold analyze_data.
  match goal with
  | |- context [bind ?m ?k] => set (gather := m); set (finish := k)
  end.
  assert (Hg : exists w' l, gather w = (w', Returned l)).
  { subst gather. destruct (context state); [eexists; eexists; reflexivity|].
    match goal with |- context [if ?b then _ else _] => destruct b end;
      [|eexists; eexists; reflexivity].
    unfold _get_llm_insights, llm_call, bind, log, ret.
    match goal with |- context [llm_invoke self ?m] =>
      destruct (llm_invoke self m) eqn:E; [|now apply Hllm in E] end.
    eexists; eexists; reflexivity. }
  destruct Hg as (w' & l & Hg). unfold bind. rewrite Hg.
  subst finish. eexists; eexists; reflexivity.
Qed.

(** [generate_response] always returns, touches no index and keeps the
    context. *)
Lemma generate_response_returns state w :
  exists final,
    generate_response self state w = (w, Returned final)
    /\ context_sources final = context_sources state
    /\ context final = context state
    /\ insights final = insights state
    /\ requires_clarification final = (length (context_sources state) =? 0)
    /\ suggested_questions final = _generate_follow_up_questions state.
Proof.
  unfold generate_response. destruct (insights state) eqn:E;
    eexists; (split; [reflexivity|]); cbn; rewrite ?E; repeat split; reflexivity.
Qed.

End LaterStages.

Section Provenance.

(** Every source of the bundle is a retrieved item with its final rank. *)
Lemma merge_context_from q (retrieved : list EvidenceItem) parts x :
  In x (fst (merge_context q retrieved parts)) ->
  exists r y, x = set_rank r y /\ In y retrieved.
Proof.
  destruct retrieved as [|s l] eqn:E; [intros []|]. rewrite <- E.
  rewrite merge_context_sources by (rewrite E; discriminate).
  intros Hx. apply In_rerank in Hx as (r & y & -> & Hy).
  exists r, y. split; [reflexivity|].
  assert (Hs : In y (Py.sort_desc score_lt (deduplicate ∅ retrieved))).
  { rewrite <- (take_drop max_context_sources). apply in_or_app. now left. }
  apply (Permutation_in _ (sort_desc_perm score_lt _)) in Hs.
  now apply deduplicate_in in Hs as [Hs _].
Qed.

Lemma tag_hits_source_type t hits y :
  In y (tag_hits t hits) -> source_type y = Some t.
Proof.
  intros Hy. apply list_elem_of_In, list_elem_of_lookup in Hy as [i Hi].
  unfold tag_hits in Hi. rewrite list_lookup_imap in Hi.
  destruct (_ !! i) as [z|]; [|discriminate]. now injection Hi as <-.
Qed.


Lemma extract_context_returns self state w :
  search_answers w "charts" (query state) ->
  search_answers w "comments" (query state) ->
  exists events,
    extract_context self state w
    = (mkWorld (discard_corrupt w) (calls w ++ events), Returned (extracted state w)).
Proof.
  intros Hc Hm.
  destruct (retrieve_spec state w) as [(_ & _ & events & Hr) | ([Hn | Hn] & _)];
    [|contradiction|contradiction].
  exists events. exact (extract_context_retrieve self _ _ _ _ _ Hr).
Qed.




Lemma extracted_empty state w :
  context_sources (extracted state w) = [] ->
  context (extracted state w)
  = PyStr.join PyStr.nl (index_notes state w ++ [no_indexed_data]).
Proof.
  unfold extracted. cbn [context_sources set_context_sources context set_context].
  intros Hempty.
  assert (Hnone : retrieved_sources state w = []).
  { destruct (retrieved_sources state w) as [|s l] eqn:E; [reflexivity|].
    exfalso. eapply merge_context_nonempty; [|exact Hempty]. discriminate. }
  rewrite Hnone. cbn [merge_context snd]. now rewrite (no_sources_no_hits _ _ Hnone).
Qed.


End Provenance.

(** ** Deduplication keeps the first-seen item *)

Example duplicate_retrieved :
  retrieved_by (initial_state "weekly report" None None) duplicate_world
  = [duplicate_first; duplicate_second].
Proof. vm_compute. reflexivity. Qed.

Example duplicate_bundle :
  bundle_by (sample_services "analytical") (initial_state "weekly report" None None)
    duplicate_world
  = [duplicate_first].
Proof. vm_compute. reflexivity. Qed.

Example duplicate_same_key : unique_key duplicate_first = unique_key duplicate_second.
Proof. vm_compute. reflexivity. Qed.

(** The bound can drop the key altogether: the comment retrieved twice
    scores below five charts. *)
Example duplicate_cut_by_bound :
  count_key (unique_key duplicate_first)
    (retrieved_by (initial_state "weekly report" None None) crowded_world) = 2
  /\ count_key (unique_key duplicate_first)
       (bundle_by (sample_services "analytical")
          (initial_state "weekly report" None None) crowded_world) = 0.
Proof. split; vm_compute; reflexivity. Qed.

(** C1, as stated, fails: of two retrieved comments with one key, the bundle
    keeps the first, which scores 0.1, and drops the one that scores 0.9. *)
Lemma dedup_keeps_lower_score :
  ~ keeps_best_duplicate
      (retrieved_by (initial_state "weekly report" None None) duplicate_world)
      (bundle_by (sample_services "analytical")
         (initial_state "weekly report" None None) duplicate_world).
Proof.
  rewrite duplicate_retrieved, duplicate_bundle. intros H.
  destruct (H 0 1 duplicate_first duplicate_second) as [_ Hbest];
    [lia | reflexivity | reflexivity | exact duplicate_same_key |].
  destruct (Hbest duplicate_first) as [_ Hge]; [now left | reflexivity |].
  vm_compute in Hge. now apply Hge.
Qed.

(** C1, amended: of the retrieved items that share a key, deduplication
    keeps exactly one, the first retrieved, whatever the scores; the bundle
    holds at most one item with that key (exactly one when no more than 5
    items survive deduplication), and it is that first item with its final
    rank. *)
Theorem extract_context_keeps_first_seen (self : Services) (state : AgentState) (w : World)
  (retrieved : list EvidenceItem) (parts : list string) (i j : nat) (a b : EvidenceItem) :
  returned (retrieve state w) = Some (retrieved, parts) ->
  i < j -> retrieved !! i = Some a -> retrieved !! j = Some b ->
  unique_key a = unique_key b ->
  exists state' first,
    returned (extract_context self state w) = Some state'
    /\ first_with_key (unique_key a) retrieved = Some first
    /\ List.filter (has_key (unique_key a)) (deduplicate ∅ retrieved) = [first]
    /\ (forall x, In x (context_sources state') -> unique_key x = unique_key a ->
                  exists r, x = set_rank r first)
    /\ count_key (unique_key a) (context_sources state') <= 1
    /\ (length (deduplicate ∅ retrieved) <= max_context_sources ->
        count_key (unique_key a) (context_sources state') = 1).
Proof.
  intros Hret _ Ha _ _.
  assert (Hin : In a retrieved)
    by (apply list_elem_of_In; eapply list_elem_of_lookup_2; eauto).
  assert (Hne : retrieved <> []) by (intros ->; destruct Hin).
  destruct (deduplicate_complete ∅ retrieved a Hin) as (first & Hfirst & Ekey);
    [apply not_elem_of_empty|].
  pose proof (deduplicate_NoDup ∅ retrieved) as Hnd.
  pose proof (filter_key_singleton _ _ Hnd Hfirst) as Hone.
  rewrite Ekey in Hone.
  set (D := deduplicate ∅ retrieved) in *.
  set (S := Py.sort_desc score_lt D).
  assert (Hperm : Permutation S D) by apply sort_desc_perm.
  assert (HndS : List.NoDup (map unique_key S)).
  { eapply Permutation_NoDup; [|exact Hnd]. apply Permutation_map. now symmetry. }
  eexists. exists first.
  split; [exact (extract_context_returned self state w retrieved parts Hret)|].
  cbn [context_sources set_context_sources].
  rewrite (merge_context_sources _ _ _ Hne). fold D. fold S.
  split; [rewrite <- Ekey; now apply (deduplicate_first ∅)|].
  split; [exact Hone|].
  split; [|split].
  - intros x Hx Hk.
    apply In_rerank in Hx as (r & y & -> & Hy).
    exists r. f_equal.
    assert (HyD : In y D).
    { eapply Permutation_in; [exact Hperm|].
      rewrite <- (take_drop max_context_sources S). apply in_or_app. now left. }
    assert (Hyf : In y (List.filter (has_key (unique_key a)) D))
      by (apply filter_In; split; [exact HyD | now apply has_key_true]).
    rewrite Hone in Hyf. destruct Hyf as [<- | []]. reflexivity.
  - rewrite count_key_rerank. apply count_key_NoDup. now apply NoDup_keys_take.
  - intros Hlen. rewrite count_key_rerank, take_ge.
    + rewrite (count_key_perm _ _ _ Hperm). unfold count_key. now rewrite Hone.
    + now rewrite (Permutation_length Hperm).
Qed.

Lemma extract_context_keeps_first_seen_witness :
  exists state' first,
    returned (extract_context (sample_services "analytical")
                (initial_state "weekly report" None None) duplicate_world) = Some state'
    /\ first_with_key (unique_key duplicate_first) [duplicate_first; duplicate_second]
       = Some first
    /\ List.filter (has_key (unique_key duplicate_first))
         (deduplicate ∅ [duplicate_first; duplicate_second]) = [first]
    /\ (forall x, In x (context_sources state') ->
                  unique_key x = unique_key duplicate_first ->
                  exists r, x = set_rank r first)
    /\ count_key (unique_key duplicate_first) (context_sources state') <= 1
    /\ (length (deduplicate ∅ [duplicate_first; duplicate_second]) <= max_context_sources ->
        count_key (unique_key duplicate_first) (context_sources state') = 1).
Proof.
  apply (extract_context_keeps_first_seen (sample_services "analytical")
           (initial_state "weekly report" None None) duplicate_world
           [duplicate_first; duplicate_second]
           [comment_part 0 duplicate_first; comment_part 1 duplicate_second]
           0 1 duplicate_first duplicate_second).
  - vm_compute. reflexivity.
  - lia.
  - reflexivity.
  - reflexivity.
  - vm_compute. reflexivity.
Defined.

(** ** The clarification flag *)

Section Clarification.

Context (self : Services).

Lemma bind_returned {A B} (m : M A) (k : A -> M B) w w' b :
  bind m k w = (w', Returned b) ->
  exists w1 a, m w = (w1, Returned a) /\ k a w1 = (w', Returned b).
Proof.
  unfold bind. destruct (m w) as [w1 [a|e]]; [|discriminate].
  intros H. now exists w1, a.
Qed.

Lemma analyze_data_keeps_context state w w' state' :
  analyze_data self state w = (w', Returned state') ->
  context_sources state' = context_sources state /\ context state' = context state.
Proof.
  unfold analyze_data. intros H.
  apply bind_returned in H as (w1 & found & _ & H).
  now injection H as _ <-.
Qed.

(** In the graph, the flag is set exactly when the bundle is empty. *)
Lemma run_clarification_iff q charts comments w w' final :
  run self q charts comments w = (w', Returned final) ->
  requires_clarification final = true <-> context_sources final = [].
Proof.
  intros Hrun.
  destruct (validate_query self (initial_state q charts comments)
              (logged w [EvNode "validate_query"])) as [w1 [st1|e]] eqn:Hv.
  - rewrite (run_two_arms self q charts comments w w1 st1 Hv) in Hrun.
    assert (Hst1 : context_sources st1 = []).
    { unfold validate_query in Hv. apply bind_returned in Hv as (w0 & text & _ & Hv).
      now injection Hv as _ <-. }
    destruct (is_analytical st1).
    + unfold analytical_branch in Hrun.
      apply bind_returned in Hrun as (w2 & [] & _ & Hrun).
      apply bind_returned in Hrun as (w3 & st2 & _ & Hrun).
      apply bind_returned in Hrun as (w4 & [] & _ & Hrun).
      apply bind_returned in Hrun as (w5 & st3 & _ & Hrun).
      apply bind_returned in Hrun as (w6 & [] & _ & Hrun).
      destruct (generate_response_returns self st3 w6) as (final' & Hg & Hs & _ & _ & Hc & _).
      rewrite Hg in Hrun. injection Hrun as _ <-.
      rewrite Hc, <- Hs, Nat.eqb_eq. split; [apply length_zero_iff_nil | now intros ->].
    + unfold redirect_branch in Hrun.
      apply bind_returned in Hrun as (w2 & [] & _ & Hrun).
      injection Hrun as _ <-. cbn. now rewrite Hst1.
  - unfold run, invoke, recursion_limit in Hrun.
    change (entry_point (_build_graph self)) with "validate_query" in Hrun.
    rewrite (run_node_step (_build_graph self) _ "validate_query" _
               (validate_query self) eq_refl) in Hrun.
    unfold bind at 1 2 in Hrun. rewrite log_logged, Hv in Hrun. discriminate.
Qed.

(** In the streaming mode, the flag is set when the bundle is empty, and
    also when the context text quotes "no indexed data". *)
Lemma streaming_response_clarification state w w' final :
  _generate_streaming_response self state w = (w', Returned final) ->
  context_sources final = context_sources state
  /\ context final = context state
  /\ requires_clarification final
     = (length (context_sources state) =? 0)
       || PyStr.contains "no indexed data" (PyStr.lower (context state)).
Proof.
  unfold _generate_streaming_response. intros H.
  apply bind_returned in H as (w1 & chunks & _ & H).
  apply bind_returned in H as (w2 & st2 & Hmid & H).
  injection H as _ <-.
  cbn [context_sources context requires_clarification set_requires_clarification
         set_suggested_questions].
  assert (Hcs : context_sources st2 = context_sources state /\ context st2 = context state).
  { destruct (PyStr.eqb (context state) no_indexed_data).
    - now injection Hmid as _ <-.
    - cbn [context_sources set_response] in Hmid.
      destruct (context_sources state) eqn:E.
      + apply analyze_data_keeps_context in Hmid as [Hcs Hctx]. now rewrite Hcs, Hctx.
      + now injection Hmid as _ <-. }
  destruct Hcs as [-> ->]. repeat split; reflexivity.
Qed.

(** Every state that the streaming mode returns carries that flag. *)
Lemma arun_clarification q charts comments w w' final :
  arun_with_streaming self q charts comments w = (w', Returned final) ->
  requires_clarification final
  = (length (context_sources final) =? 0)
    || PyStr.contains "no indexed data" (PyStr.lower (context final)).
Proof.
  intros Hrun.
  destruct (validate_query self (initial_state q charts comments) w)
    as [w1 [st1|e]] eqn:Hv.
  - rewrite (arun_two_arms self q charts comments w w1 st1 Hv) in Hrun.
    assert (Hst1 : context_sources st1 = []).
    { unfold validate_query in Hv. apply bind_returned in Hv as (w0 & text & _ & Hv).
      now injection Hv as _ <-. }
    destruct (is_analytical st1).
    + unfold streaming_branch in Hrun.
      apply bind_returned in Hrun as (w2 & st2 & _ & Hrun).
      apply streaming_response_clarification in Hrun as (-> & -> & ->). reflexivity.
    + injection Hrun as _ <-. cbn. now rewrite Hst1.
  - unfold arun_with_streaming, bind at 1 in Hrun. rewrite Hv in Hrun. discriminate.
Qed.

End Clarification.

(** C2 at a run that finds one comment for a query quoting the sentinel: in
    the streaming mode the bundle is not empty and the flag is set, where
    the claim has it unset; the graph, on the same input, leaves it unset. *)
Theorem streaming_clarification_with_sources :
  (exists final,
      returned (arun_with_streaming (sample_services "analytical") quoting_query None None
                  one_comment_world) = Some final
      /\ length (context_sources final) = 1
      /\ requires_clarification final = true)
  /\ (exists final,
         returned (run (sample_services "analytical") quoting_query None None
                     one_comment_world) = Some final
         /\ length (context_sources final) = 1
         /\ requires_clarification final = false).
Proof.
  split; eexists; (split; [vm_compute; reflexivity|]); split; reflexivity.
Qed.

(** ** The text of a context without evidence *)

(** C3, as stated, fails: with a corrupt charts index and one chart in the
    request, no evidence is gathered and the context is a note, a line feed
    and the sentinel. *)
Lemma note_precedes_sentinel :
  ~ sentinel_verbatim (sample_services "analytical") chart_request corrupt_charts_world.
Proof.
  intros H.
  specialize (H (set_context
                   (PyStr.join PyStr.nl
                      ["Note: Charts index not found. 1 charts provided but not indexed.";
                       no_indexed_data])
                   chart_request)).
  discriminate H; vm_compute; reflexivity.
Qed.

(** C3, amended: when no evidence is gathered, the context text is the
    notes of the run, if any, and then the sentinel, one per line; it is
    the sentinel alone exactly when the run has no note, that is unless an
    index was found corrupt while raw items of its kind came with the
    request. *)
Theorem extract_context_no_evidence (self : Services) (state : AgentState) (w : World)
  (state' : AgentState) :
  returned (extract_context self state w) = Some state' ->
  context_sources state' = [] ->
  context state' = PyStr.join PyStr.nl (index_notes state w ++ [no_indexed_data])
  /\ (index_notes state w = [] <-> context state' = no_indexed_data).
Proof.
  intros Hret Hempty.
  destruct (extract_context_spec self _ _ _ Hret) as (_ & _ & ->).
  cbn [context_sources set_context_sources context set_context] in *.
  assert (Hnone : retrieved_sources state w = []).
  { destruct (retrieved_sources state w) as [|s l] eqn:E; [reflexivity|].
    exfalso. eapply merge_context_nonempty; [|exact Hempty]. discriminate. }
  rewrite Hnone. cbn [merge_context snd].
  rewrite (no_sources_no_hits _ _ Hnone).
  split; [reflexivity|]. split.
  - intros ->. reflexivity.
  - intros E. destruct (index_notes state w) as [|n l] eqn:En; [reflexivity|].
    exfalso. revert E. apply join_notes_differs; discriminate.
Qed.

Lemma extract_context_no_evidence_witness :
  context (set_context
             (PyStr.join PyStr.nl
                ["Note: Charts index not found. 1 charts provided but not indexed.";
                 no_indexed_data])
             chart_request)
  = PyStr.join PyStr.nl (index_notes chart_request corrupt_charts_world ++ [no_indexed_data]).
Proof.
  destruct (extract_context_no_evidence (sample_services "analytical")
              chart_request corrupt_charts_world
              (set_context
                 (PyStr.join PyStr.nl
                    ["Note: Charts index not found. 1 charts provided but not indexed.";
                     no_indexed_data])
                 chart_request))
    as [Htext _].
  - vm_compute. reflexivity.
  - reflexivity.
  - exact Htext.
Defined.

(** ** Bounding the bundle *)

(** C4: when more than 5 items survive deduplication, the bundle has exactly
    5 items; they are 5 of the deduplicated items, none of the items left
    out scores higher than any of them; they stand in descending order of
    score; and their ranks are 1 to 5 in that order. *)
Theorem extract_context_top_five (self : Services) (state : AgentState) (w : World)
  (retrieved : list EvidenceItem) (parts : list string) :
  returned (retrieve state w) = Some (retrieved, parts) ->
  max_context_sources < length (deduplicate ∅ retrieved) ->
  exists state' top rest,
    returned (extract_context self state w) = Some state'
    /\ Permutation (deduplicate ∅ retrieved) (top ++ rest)
    /\ context_sources state' = rerank top
    /\ length (context_sources state') = 5
    /\ map rank (context_sources state') = [Some 1; Some 2; Some 3; Some 4; Some 5]
    /\ (forall x y, In x top -> In y rest -> score_ge x y)
    /\ StronglySorted score_ge (context_sources state').
Proof.
  intros Hret Hlen.
  assert (Hne : retrieved <> []) by (intros ->; cbn in Hlen; lia).
  set (D := deduplicate ∅ retrieved) in *.
  set (S := Py.sort_desc score_lt D).
  assert (Hperm : Permutation S D) by apply sort_desc_perm.
  assert (Hsorted : StronglySorted score_ge S) by apply sort_by_score_sorted.
  assert (HlenS : length S = length D) by apply (Permutation_length Hperm).
  assert (Htop : length (take max_context_sources S) = 5).
  { rewrite length_take. unfold max_context_sources in *. lia. }
  rewrite <- (take_drop max_context_sources S) in Hperm, Hsorted.
  eexists. exists (take max_context_sources S), (drop max_context_sources S).
  split; [exact (extract_context_returned self state w retrieved parts Hret)|].
  cbn [context_sources set_context_sources].
  rewrite (merge_context_sources _ _ _ Hne). fold D. fold S.
  split; [now symmetry|].
  split; [reflexivity|].
  split; [now rewrite length_rerank|].
  split; [|split].
  - destruct (take max_context_sources S) as [|x1 [|x2 [|x3 [|x4 [|x5 [|x6 l]]]]]];
      try discriminate Htop. reflexivity.
  - now apply StronglySorted_app_cross.
  - apply rerank_sorted. eapply StronglySorted_app_l. exact Hsorted.
Qed.

Lemma extract_context_top_five_witness :
  exists state',
    returned (extract_context (sample_services "analytical")
                (initial_state "How is engagement?" None None) busy_world) = Some state'
    /\ map similarity_score (context_sources state')
       = [(90 # 100); (80 # 100); (70 # 100); (60 # 100); (55 # 100)]%Q
    /\ map rank (context_sources state') = [Some 1; Some 2; Some 3; Some 4; Some 5].
Proof.
  destruct (extract_context_top_five (sample_services "analytical")
              (initial_state "How is engagement?" None None) busy_world
              (retrieved_by (initial_state "How is engagement?" None None) busy_world)
              (match returned (retrieve (initial_state "How is engagement?" None None)
                                 busy_world) with
               | Some found => snd found
               | None => []
               end))
    as (state' & top & rest & Hret & _ & _ & _ & Hrank & _).
  - vm_compute. reflexivity.
  - vm_compute. lia.
  - exists state'. split; [exact Hret|]. split; [|exact Hrank].
    vm_compute in Hret. injection Hret as <-. vm_compute. reflexivity.
Defined.

(** ** Anomaly detection *)

Section Anomalies.

Import TrendDetector.
Local Open Scope float_scope.

Example np_mean_series : PyNum.np_mean [10; 10; 10; 10; 100] = 28.
Proof. reflexivity. Qed.

Example np_std_series : PyNum.np_std [10; 10; 10; 10; 100] = 36.
Proof. reflexivity. Qed.

(** The z-score of 100 in the series is exactly 2. *)
Example z_score_of_100 : (100 - 28) / 36 = 2.
Proof. reflexivity. Qed.

Lemma anomaly_at_flat mean std i value :
  (0 <? std) = false -> anomaly_at mean std i value = [].
Proof.
  intros Hstd. unfold anomaly_at. rewrite Hstd. reflexivity.
Qed.

Lemma imap_anomaly_flat mean std metrics :
  (0 <? std) = false -> concat (imap (anomaly_at mean std) metrics) = [].
Proof.
  intros Hstd.
  assert (Hgen : forall (l : list float) k,
             concat (imap (fun i => anomaly_at mean std (k + i)) l) = []).
  { induction l as [|x l IH]; intros k; [reflexivity|].
    rewrite imap_cons. cbn [concat].
    rewrite (anomaly_at_flat _ _ _ _ Hstd). cbn [app].
    rewrite <- (IH (S k)). f_equal. apply imap_ext. intros j y _.
    cbn. f_equal. lia. }
  apply (Hgen metrics 0%nat).
Qed.

(** A series whose standard deviation is not positive has no anomaly. *)
Lemma detect_anomalies_flat metrics :
  (0 <? PyNum.np_std metrics) = false -> detect_anomalies metrics = [].
Proof.
  intros Hstd. unfold detect_anomalies.
  destruct (length metrics <? 3)%nat; [reflexivity|].
  now apply imap_anomaly_flat.
Qed.

Lemma detect_anomalies_short metrics :
  (length metrics < 3)%nat -> detect_anomalies metrics = [].
Proof.
  intros Hlen. unfold detect_anomalies.
  destruct (Nat.ltb_spec (length metrics) 3); [reflexivity | lia].
Qed.

(** C5, as stated, fails: in [10, 10, 10, 10, 100] the value 100 is not
    flagged with severity "high"; it is not flagged at all. *)
Lemma detect_anomalies_100_not_high :
  ~ flagged 100 "high" (detect_anomalies [10; 10; 10; 10; 100]).
Proof.
  intros (a & Hin & _). vm_compute in Hin. exact Hin.
Qed.

(** C5, amended: [detect_anomalies] returns the empty list on
    [10, 10, 10, 10, 100] (the z-score of 100 is exactly 2, which is not
    above the threshold 2), on [10, 11, 9, 10], and on every series with
    fewer than 3 values or with zero standard deviation. *)
Theorem detect_anomalies_spec :
  detect_anomalies [10; 10; 10; 10; 100] = []
  /\ detect_anomalies [10; 11; 9; 10] = []
  /\ forall metrics,
       (length metrics < 3)%nat \/ PyNum.np_std metrics = 0 ->
       detect_anomalies metrics = [].
Proof.
  split; [reflexivity|]. split; [reflexivity|].
  intros metrics [Hlen | Hstd].
  - now apply detect_anomalies_short.
  - apply detect_anomalies_flat. rewrite Hstd. reflexivity.
Qed.

Lemma detect_anomalies_spec_witness :
  detect_anomalies [7; 7; 7; 7] = [] /\ detect_anomalies [1; 250] = [].
Proof.
  destruct detect_anomalies_spec as (_ & _ & H).
  split; apply H.
  - right. reflexivity.
  - left. simpl. lia.
Defined.

End Anomalies.

(** ** Sentiment thresholds *)

Section SentimentThresholds.

Import SentimentAnalyzer.

Lemma eqb_sym (a b : string) : PyStr.eqb a b = PyStr.eqb b a.
Proof.
  destruct (PyStr.eqb b a) eqn:E.
  - apply eqb_true_iff in E. subst. apply eqb_refl.
  - apply eqb_false_iff. apply eqb_false_iff in E. congruence.
Qed.

Lemma counter_get_add k k' c :
  Py.counter_get k (Py.counter_add k' c)
  = if PyStr.eqb k k' then S (Py.counter_get k c) else Py.counter_get k c.
Proof.
  induction c as [|[k0 n] c IH]; cbn [Py.counter_add Py.counter_get].
  - now destruct (PyStr.eqb k k').
  - destruct (PyStr.eqb k' k0) eqn:E0; cbn [Py.counter_get].
    + apply eqb_true_iff in E0. subst k0. now destruct (PyStr.eqb k k').
    + rewrite IH. destruct (PyStr.eqb k k0) eqn:E1; [|reflexivity].
      apply eqb_true_iff in E1. subst k0. rewrite eqb_sym in E0. now rewrite E0.
Qed.

(** A counter counts. *)
Lemma counter_get_Counter k xs :
  Py.counter_get k (Py.Counter xs) = length (List.filter (fun x => PyStr.eqb x k) xs).
Proof.
  unfold Py.Counter.
  assert (Hgen : forall c,
             Py.counter_get k (fold_left (fun c x => Py.counter_add x c) xs c)
             = Py.counter_get k c + length (List.filter (fun x => PyStr.eqb x k) xs)).
  { induction xs as [|x xs IH]; intros c; cbn [fold_left List.filter]; [cbn; lia|].
    rewrite IH, counter_get_add, (eqb_sym k x).
    destruct (PyStr.eqb x k); cbn [length]; lia. }
  apply Hgen.
Qed.










(** Comments labelled "very_positive" are not counted: a batch of them is
    reported as negative feedback. *)
Example very_positive_not_counted :
  map (fun s => sentiment (analyze_sentiment (sample_services "analytical") (content s)))
    delighted_batch = ["very_positive"; "very_positive"]
  /\ positive_count (sample_services "analytical") delighted_batch = 0
  /\ existsb significant_negative_feedback
       (InsightGenerator._analyze_comment_sentiment (sample_services "analytical")
          delighted_batch) = true.
Proof. repeat split; vm_compute; reflexivity. Qed.


End SentimentThresholds.

(** ** The redirect path *)

(** C7: when the classifier's completion does not make the query
    analytical, both execution modes return the redirect state: its response
    and its 3 suggested questions are the fixed constants, whatever the
    query, the charts and the comments; and nothing of the retrieval stage
    happens: the log holds the classification call (and, in the graph, the
    two nodes [validate_query] and [redirect_to_analytical]) only. *)
Theorem redirect_path (self : Services) (q : string) (charts comments : option (list string))
  (w : World) (completion : string) :
  llm_invoke self (classification_messages q) = Some completion ->
  PyStr.contains "analytical" (PyStr.lower completion) = false ->
  (exists events,
      run self q charts comments w
      = (logged w events, Returned (redirect_state q charts comments))
      /\ forallb (fun e => negb (is_retrieval_event e)) events = true)
  /\ (exists events,
         arun_with_streaming self q charts comments w
         = (logged w events, Returned (redirect_state q charts comments))
         /\ forallb (fun e => negb (is_retrieval_event e)) events = true)
  /\ response (redirect_state q charts comments) = redirect_response
  /\ suggested_questions (redirect_state q charts comments) = redirect_questions
  /\ length (suggested_questions (redirect_state q charts comments)) = 3.
Proof.
  intros Hllm Hmark.
  pose proof (validate_query_returns self (initial_state q charts comments)) as Hv.
  cbn [query initial_state] in Hv.
  split; [|split; [|repeat split]].
  - exists [EvNode "validate_query"; EvLlmInvoke (classification_messages q);
            EvNode "redirect_to_analytical"].
    split; [|reflexivity].
    rewrite (run_two_arms self q charts comments w _ _ (Hv _ _ Hllm)).
    rewrite Hmark. cbn [is_analytical set_is_analytical].
    unfold redirect_branch, bind. rewrite log_logged, !logged_logged. reflexivity.
  - exists [EvLlmInvoke (classification_messages q)].
    split; [|reflexivity].
    rewrite (arun_two_arms self q charts comments w _ _ (Hv _ _ Hllm)).
    rewrite Hmark. reflexivity.
Qed.

Lemma redirect_path_witness :
  returned (run (sample_services "off-topic") "Tell me a joke"
              (Some ["Reach: 40%"]) (Some ["I love it"]) (fresh_world ∅))
  = Some (redirect_state "Tell me a joke" (Some ["Reach: 40%"]) (Some ["I love it"])).
Proof.
  destruct (redirect_path (sample_services "off-topic") "Tell me a joke"
              (Some ["Reach: 40%"]) (Some ["I love it"]) (fresh_world ∅) "off-topic"
              eq_refl eq_refl) as [(events & Hrun & _) _].
  rewrite Hrun. reflexivity.
Defined.

(** ** Suggested questions *)

(** C8: the generator returns exactly 3 questions; the 3 fixed prompts
    asking for data when there is no context source; otherwise the first 3
    of the list accumulated in bucket order (chart, comment, insights, and
    the generic prompts when fewer than 3 were accumulated). *)
Theorem follow_up_questions_spec (state : AgentState) :
  length (_generate_follow_up_questions state) = 3
  /\ (context_sources state = [] ->
      _generate_follow_up_questions state = provide_data_prompts)
  /\ (context_sources state <> [] ->
      _generate_follow_up_questions state = take 3 (accumulated_questions state)).
Proof.
  unfold _generate_follow_up_questions, accumulated_questions.
  destruct (context_sources state) as [|s l] eqn:Hcs.
  - split; [reflexivity | split; [reflexivity | congruence]].
  - destruct (existsb (has_source_type "chart") (s :: l));
      destruct (existsb (has_source_type "comment") (s :: l));
      destruct (insights state);
      (split; [reflexivity | split; [discriminate | reflexivity]]).
Qed.

Lemma follow_up_questions_spec_witness :
  _generate_follow_up_questions (initial_state "reach?" None None) = provide_data_prompts
  /\ _generate_follow_up_questions
       (set_context_sources
          [mkEvidence "Reach grew 12%" ∅ (1 # 2) (Some 1) (Some "chart")]
          (initial_state "reach?" None None))
     = chart_questions.
Proof.
  split.
  - apply (follow_up_questions_spec (initial_state "reach?" None None)). reflexivity.
  - etransitivity.
    + apply follow_up_questions_spec. simpl. discriminate.
    + reflexivity.
Defined.

(** ** Missing and corrupt indices *)




(** ** The classifier's marker *)



(** ** What a stage does to the index directories *)

Section MoveFacts.

Context (R : gmap string IndexDir -> gmap string IndexDir -> Prop).
Hypothesis R_refl : forall m, R m m.
Hypothesis R_trans : forall a b c, R a b -> R b c -> R a c.

Lemma moves_ret {A} (a : A) : moves R (ret a).
Proof. intros w w' r H. injection H as <- <-. apply R_refl. Qed.

Lemma moves_raise {A} (e : Exn) : moves R (@raise A e).
Proof. intros w w' r H. injection H as <- <-. apply R_refl. Qed.

Lemma moves_read {A} (f : World -> Outcome A) : moves R (fun w => (w, f w)).
Proof. intros w w' r H. injection H as <- <-. apply R_refl. Qed.

Lemma moves_log (e : Event) : moves R (log e).
Proof. intros w w' r H. injection H as <- <-. apply R_refl. Qed.

Lemma moves_call {A} (result : option A) : moves R (call result).
Proof. destruct result; [apply moves_ret | apply moves_raise]. Qed.

Lemma moves_bind {A B} (m : M A) (k : A -> M B) :
  moves R m -> (forall a, moves R (k a)) -> moves R (bind m k).
Proof.
  intros Hm Hk w w' r H. unfold bind in H.
  destruct (m w) as [w1 [a|e]] eqn:Hmw.
  - eapply R_trans; [exact (Hm _ _ _ Hmw) | exact (Hk a _ _ _ H)].
  - injection H as <- <-. exact (Hm _ _ _ Hmw).
Qed.

Lemma moves_try {A} (body handler : M A) :
  moves R body -> moves R handler -> moves R (try_except_FileNotFoundError body handler).
Proof.
  intros Hb Hh w w' r H. unfold try_except_FileNotFoundError in H.
  destruct (body w) as [w1 [a|e]] eqn:Hbw.
  - injection H as <- <-. exact (Hb _ _ _ Hbw).
  - destruct e.
    + eapply R_trans; [exact (Hb _ _ _ Hbw) | exact (Hh _ _ _ H)].
    + injection H as <- <-. exact (Hb _ _ _ Hbw).
    + injection H as <- <-. exact (Hb _ _ _ Hbw).
Qed.

Lemma moves_try_Exception {A} (body handler : M A) :
  moves R body -> moves R handler -> moves R (try_except_Exception body handler).
Proof.
  intros Hb Hh w w' r H. unfold try_except_Exception in H.
  destruct (body w) as [w1 [a|e]] eqn:Hbw.
  - injection H as <- <-. exact (Hb _ _ _ Hbw).
  - eapply R_trans; [exact (Hb _ _ _ Hbw) | exact (Hh _ _ _ H)].
Qed.

Lemma moves_for_each {A S} (xs : list A) (body : S -> A -> M S) (acc : S) :
  (forall s x, moves R (body s x)) -> moves R (for_each xs body acc).
Proof.
  intros Hbody. revert acc. induction xs as [|x xs IH]; intros acc; cbn [for_each].
  - apply moves_ret.
  - apply moves_bind; [apply Hbody | exact IH].
Qed.

Context (self : Services).

Ltac moves_step :=
  first
    [ apply moves_ret | apply moves_raise | apply moves_log
    | apply moves_bind; [| intros ?] ].

Lemma moves_llm_call msgs : moves R (llm_call self msgs).
Proof. unfold llm_call. moves_step; [moves_step|]. destruct (llm_invoke self msgs); moves_step. Qed.

Lemma moves_llm_stream msgs : moves R (llm_stream self msgs).
Proof.
  unfold llm_stream. moves_step; [moves_step|]. destruct (llm_astream self msgs); moves_step.
Qed.

Lemma moves_validate_query state : moves R (validate_query self state).
Proof. unfold validate_query. moves_step; [apply moves_llm_call | moves_step]. Qed.

Lemma moves_get_llm_insights state : moves R (_get_llm_insights self state).
Proof. unfold _get_llm_insights. moves_step; [apply moves_llm_call | moves_step]. Qed.

Lemma moves_analyze_data state : moves R (analyze_data self state).
Proof.
  unfold analyze_data. moves_step; [|moves_step].
  destruct (context state); [moves_step|].
  match goal with |- context [if ?c then _ else _] => destruct c end; [|moves_step].
  moves_step; [apply moves_get_llm_insights | moves_step].
Qed.

Lemma moves_generate_response state : moves R (generate_response self state).
Proof. unfold generate_response. moves_step. Qed.

Lemma moves_redirect_to_analytical state : moves R (redirect_to_analytical self state).
Proof. unfold redirect_to_analytical. moves_step. Qed.

Lemma moves_generate_streaming_response state :
  moves R (_generate_streaming_response self state).
Proof.
  unfold _generate_streaming_response. moves_step; [apply moves_llm_stream|].
  moves_step; [|moves_step].
  match goal with |- context [if ?c then _ else _] => destruct c end; [moves_step|].
  cbn [context_sources set_response].
  destruct (context_sources state); [apply moves_analyze_data | moves_step].
Qed.

End MoveFacts.

Section IndexDecay.

Lemma only_corrupt_removed_refl m : only_corrupt_removed m m.
Proof. intros name. now left. Qed.

Lemma only_corrupt_removed_trans a b c :
  only_corrupt_removed a b -> only_corrupt_removed b c -> only_corrupt_removed a c.
Proof.
  intros Hab Hbc name. destruct (Hbc name) as [E|(E1 & E2 & E3)].
  - rewrite E. apply Hab.
  - destruct (Hab name) as [E'|(E1' & E2' & _)].
    + right. rewrite <- E'. auto.
    + congruence.
Qed.

Lemma only_corrupt_removed_delete m name :
  m !! name = Some Unreadable ->
  name = "brandbastion" \/ name = "brandbastion_comments" ->
  only_corrupt_removed m (delete name m).
Proof.
  intros Hm Hname other. destruct (decide (other = name)) as [->|Hne].
  - right. rewrite lookup_delete_eq. auto.
  - left. now rewrite lookup_delete_ne.
Qed.

Lemma moves_search_charts state : moves only_corrupt_removed (search_charts state).
Proof.
  intros w w' r H. pose proof (search_charts_cases state w) as Hc.
  destruct (fs w !! "brandbastion") as [[| |vs]|] eqn:E.
  - rewrite Hc in H. injection H as <- <-. apply only_corrupt_removed_refl.
  - rewrite Hc in H. injection H as <- <-. cbn. apply only_corrupt_removed_delete; auto.
  - cbv zeta in Hc. destruct (vs (query state) max_context_sources);
      rewrite Hc in H; injection H as <- <-; apply only_corrupt_removed_refl.
  - rewrite Hc in H. injection H as <- <-. apply only_corrupt_removed_refl.
Qed.

Lemma moves_search_comments state : moves only_corrupt_removed (search_comments state).
Proof.
  intros w w' r H. pose proof (search_comments_cases state w) as Hc.
  destruct (fs w !! "brandbastion_comments") as [[| |vs]|] eqn:E.
  - rewrite Hc in H. injection H as <- <-. apply only_corrupt_removed_refl.
  - rewrite Hc in H. injection H as <- <-. cbn. apply only_corrupt_removed_delete; auto.
  - cbv zeta in Hc. destruct (vs (query state) max_context_sources);
      rewrite Hc in H; injection H as <- <-; apply only_corrupt_removed_refl.
  - rewrite Hc in H. injection H as <- <-. apply only_corrupt_removed_refl.
Qed.

Context (self : Services).

Lemma moves_extract_context state : moves only_corrupt_removed (extract_context self state).
Proof.
  unfold extract_context.
  apply (moves_bind _ only_corrupt_removed_trans); [apply moves_search_charts | intros charts_found].
  apply (moves_bind _ only_corrupt_removed_trans); [apply moves_search_comments | intros comments_found].
  apply (moves_ret _ only_corrupt_removed_refl).
Qed.

Lemma moves_analytical_branch state :
  moves only_corrupt_removed (analytical_branch self state).
Proof.
  unfold analytical_branch.
  apply (moves_bind _ only_corrupt_removed_trans); [apply (moves_log _ only_corrupt_removed_refl) | intros _].
  apply (moves_bind _ only_corrupt_removed_trans); [apply moves_extract_context | intros st].
  apply (moves_bind _ only_corrupt_removed_trans); [apply (moves_log _ only_corrupt_removed_refl) | intros _].
  apply (moves_bind _ only_corrupt_removed_trans); [apply (moves_analyze_data _ only_corrupt_removed_refl only_corrupt_removed_trans) | intros st'].
  apply (moves_bind _ only_corrupt_removed_trans); [apply (moves_log _ only_corrupt_removed_refl) | intros _].
  apply (moves_generate_response _ only_corrupt_removed_refl).
Qed.

Lemma moves_streaming_branch state :
  moves only_corrupt_removed (streaming_branch self state).
Proof.
  unfold streaming_branch.
  apply (moves_bind _ only_corrupt_removed_trans); [apply moves_extract_context | intros st].
  apply (moves_generate_streaming_response _ only_corrupt_removed_refl only_corrupt_removed_trans).
Qed.

Lemma run_validate_raises q charts comments w w1 e :
  validate_query self (initial_state q charts comments) (logged w [EvNode "validate_query"])
  = (w1, Raised e) ->
  run self q charts comments w = (w1, Raised e).
Proof.
  intros Hv. unfold run, invoke, recursion_limit. cbn [entry_point _build_graph].
  rewrite (run_node_step (_build_graph self) _ "validate_query" _ (validate_query self)
             eq_refl).
  unfold bind at 1. rewrite log_logged. unfold bind at 1. now rewrite Hv.
Qed.

Lemma moves_run q charts comments :
  moves only_corrupt_removed (run self q charts comments).
Proof.
  intros w w' r H.
  destruct (validate_query self (initial_state q charts comments)
              (logged w [EvNode "validate_query"])) as [w1 [st1|e]] eqn:Hv.
  - rewrite (run_two_arms self q charts comments w w1 st1 Hv) in H.
    pose proof (moves_validate_query _ only_corrupt_removed_refl only_corrupt_removed_trans self _ _ _ _ Hv) as H1.
    cbn [fs logged] in H1. eapply only_corrupt_removed_trans; [exact H1|].
    destruct (is_analytical st1).
    + exact (moves_analytical_branch _ _ _ _ H).
    + unfold redirect_branch in H. revert H.
      apply (moves_bind _ only_corrupt_removed_trans); [apply (moves_log _ only_corrupt_removed_refl) | intros _].
      apply (moves_redirect_to_analytical _ only_corrupt_removed_refl).
  - rewrite (run_validate_raises _ _ _ _ _ _ Hv) in H. injection H as <- <-.
    exact (moves_validate_query _ only_corrupt_removed_refl only_corrupt_removed_trans self _ _ _ _ Hv).
Qed.

Lemma moves_arun q charts comments :
  moves only_corrupt_removed (arun_with_streaming self q charts comments).
Proof.
  unfold arun_with_streaming.
  apply (moves_bind _ only_corrupt_removed_trans); [apply (moves_validate_query _ only_corrupt_removed_refl only_corrupt_removed_trans) | intros st].
  destruct (is_analytical st).
  - apply moves_streaming_branch.
  - apply (moves_redirect_to_analytical _ only_corrupt_removed_refl).
Qed.

End IndexDecay.

(** X1: a run never creates an index and never changes one that loads;
    the only directories it removes are corrupt indices of the two collections. *)
Theorem execute_keeps_indices (mode : Mode) (self : Services) (q : string)
  (charts comments : option (list string)) (w w' : World) (r : Outcome AgentState) :
  execute mode self q charts comments w = (w', r) ->
  only_corrupt_removed (fs w) (fs w')
  /\ (forall name vs, fs w !! name = Some (Loadable vs) -> fs w' !! name = Some (Loadable vs))
  /\ (forall name, fs w !! name = None -> fs w' !! name = None).
Proof.
  intros H.
  assert (Hd : only_corrupt_removed (fs w) (fs w')).
  { destruct mode; [exact (moves_run _ _ _ _ _ _ _ H) | exact (moves_arun _ _ _ _ _ _ _ H)]. }
  split; [exact Hd|]. split.
  - intros name vs Hn. destruct (Hd name) as [E|(_ & E & _)]; congruence.
  - intros name Hn. destruct (Hd name) as [E|(_ & E & _)]; congruence.
Qed.

Lemma execute_keeps_indices_witness :
  exists w' r,
    execute Graph (sample_services "analytical") "How is engagement?" None None
      corrupt_charts_world = (w', r)
    /\ only_corrupt_removed (fs corrupt_charts_world) (fs w').
Proof.
  eexists. eexists. split; [vm_compute; reflexivity|].
  destruct (execute_keeps_indices Graph (sample_services "analytical") "How is engagement?"
              None None corrupt_charts_world _ _ eq_refl) as (Hd & _).
  exact Hd.
Defined.

(** ** The exceptions that leave a run *)

Section RaiseFacts.

Context (E : Exn -> Prop).

Lemma raises_only_ret {A} (a : A) : raises_only E (ret a).
Proof. intros w w' e H. discriminate H. Qed.

Lemma raises_only_raise {A} (e : Exn) : E e -> raises_only E (@raise A e).
Proof. intros He w w' e' H. now injection H as _ <-. Qed.

Lemma raises_only_log (ev : Event) : raises_only E (log ev).
Proof. intros w w' e H. discriminate H. Qed.

Lemma raises_only_call {A} (result : option A) : E ServiceError -> raises_only E (call result).
Proof. intros He. destruct result; [apply raises_only_ret | now apply raises_only_raise]. Qed.

Lemma raises_only_bind {A B} (m : M A) (k : A -> M B) :
  raises_only E m -> (forall a, raises_only E (k a)) -> raises_only E (bind m k).
Proof.
  intros Hm Hk w w' e H. unfold bind in H.
  destruct (m w) as [w1 [a|e1]] eqn:Hmw.
  - exact (Hk a _ _ _ H).
  - injection H as _ <-. exact (Hm _ _ _ Hmw).
Qed.

Lemma raises_only_try_Exception {A} (body handler : M A) :
  raises_only E handler -> raises_only E (try_except_Exception body handler).
Proof.
  intros Hh w w' e H. unfold try_except_Exception in H.
  destruct (body w) as [w1 [a|e1]]; [discriminate H | exact (Hh _ _ _ H)].
Qed.

Lemma raises_only_for_each {A S} (xs : list A) (body : S -> A -> M S) (acc : S) :
  (forall s x, raises_only E (body s x)) -> raises_only E (for_each xs body acc).
Proof.
  intros Hbody. revert acc. induction xs as [|x xs IH]; intros acc; cbn [for_each].
  - apply raises_only_ret.
  - apply raises_only_bind; [apply Hbody | exact IH].
Qed.

End RaiseFacts.

Section StageRaises.

Context (self : Services).

Ltac raises_step :=
  first
    [ apply raises_only_ret | apply raises_only_log
    | apply raises_only_raise; reflexivity
    | apply raises_only_bind; [| intros ?] ].

Lemma raises_llm_call msgs : raises_only (fun e => e = ServiceError) (llm_call self msgs).
Proof.
  unfold llm_call. raises_step; [raises_step|]. destruct (llm_invoke self msgs); raises_step.
Qed.

Lemma raises_llm_stream msgs : raises_only (fun e => e = ServiceError) (llm_stream self msgs).
Proof.
  unfold llm_stream. raises_step; [raises_step|]. destruct (llm_astream self msgs); raises_step.
Qed.

Lemma raises_validate_query state :
  raises_only (fun e => e = ServiceError) (validate_query self state).
Proof. unfold validate_query. raises_step; [apply raises_llm_call | raises_step]. Qed.

Lemma raises_search_charts state :
  raises_only (fun e => e = ServiceError) (search_charts state).
Proof.
  intros w w' e H. pose proof (search_charts_cases state w) as Hc.
  destruct (fs w !! "brandbastion") as [[| |vs]|]; try (rewrite Hc in H; discriminate H).
  cbv zeta in Hc. destruct (vs (query state) max_context_sources); rewrite Hc in H;
    [discriminate H | now injection H as _ <-].
Qed.

Lemma raises_search_comments state :
  raises_only (fun e => e = ServiceError) (search_comments state).
Proof.
  intros w w' e H. pose proof (search_comments_cases state w) as Hc.
  destruct (fs w !! "brandbastion_comments") as [[| |vs]|];
    try (rewrite Hc in H; discriminate H).
  cbv zeta in Hc. destruct (vs (query state) max_context_sources); rewrite Hc in H;
    [discriminate H | now injection H as _ <-].
Qed.

Lemma raises_extract_context state :
  raises_only (fun e => e = ServiceError) (extract_context self state).
Proof.
  unfold extract_context. raises_step; [apply raises_search_charts|].
  raises_step; [apply raises_search_comments | raises_step].
Qed.

Lemma raises_get_llm_insights state :
  raises_only (fun e => e = ServiceError) (_get_llm_insights self state).
Proof. unfold _get_llm_insights. raises_step; [apply raises_llm_call | raises_step]. Qed.

Lemma raises_analyze_data state :
  raises_only (fun e => e = ServiceError) (analyze_data self state).
Proof.
  unfold analyze_data. raises_step; [|raises_step].
  destruct (context state); [raises_step|].
  match goal with |- context [if ?c then _ else _] => destruct c end; [|raises_step].
  raises_step; [apply raises_get_llm_insights | raises_step].
Qed.

Lemma raises_generate_response state :
  raises_only (fun e => e = ServiceError) (generate_response self state).
Proof. unfold generate_response. raises_step. Qed.

Lemma raises_redirect_to_analytical state :
  raises_only (fun e => e = ServiceError) (redirect_to_analytical self state).
Proof. unfold redirect_to_analytical. raises_step. Qed.

Lemma raises_generate_streaming_response state :
  raises_only (fun e => e = ServiceError) (_generate_streaming_response self state).
Proof.
  unfold _generate_streaming_response. raises_step; [apply raises_llm_stream|].
  raises_step; [|raises_step].
  match goal with |- context [if ?c then _ else _] => destruct c end; [raises_step|].
  cbn [context_sources set_response].
  destruct (context_sources state); [apply raises_analyze_data | raises_step].
Qed.

Lemma raises_analytical_branch state :
  raises_only (fun e => e = ServiceError) (analytical_branch self state).
Proof.
  unfold analytical_branch. raises_step; [raises_step|].
  raises_step; [apply raises_extract_context|].
  raises_step; [raises_step|].
  raises_step; [apply raises_analyze_data|].
  raises_step; [raises_step | apply raises_generate_response].
Qed.

Lemma raises_run q charts comments :
  raises_only (fun e => e = ServiceError) (run self q charts comments).
Proof.
  intros w w' e H.
  destruct (validate_query self (initial_state q charts comments)
              (logged w [EvNode "validate_query"])) as [w1 [st1|e1]] eqn:Hv.
  - rewrite (run_two_arms self q charts comments w w1 st1 Hv) in H.
    destruct (is_analytical st1).
    + exact (raises_analytical_branch _ _ _ _ H).
    + unfold redirect_branch in H.
      refine (raises_only_bind (fun e => e = ServiceError) _ _ _ _ _ _ _ H);
        [raises_step | intros _; apply raises_redirect_to_analytical].
  - rewrite (run_validate_raises _ _ _ _ _ _ _ Hv) in H. injection H as _ <-.
    exact (raises_validate_query _ _ _ _ Hv).
Qed.

Lemma raises_arun q charts comments :
  raises_only (fun e => e = ServiceError) (arun_with_streaming self q charts comments).
Proof.
  unfold arun_with_streaming. raises_step; [apply raises_validate_query|].
  match goal with |- context [if ?c then _ else _] => destruct c end.
  - raises_step; [apply raises_extract_context | apply raises_generate_streaming_response].
  - apply raises_redirect_to_analytical.
Qed.

End StageRaises.

(** X2: whatever fails in a run, in either mode, the exception that leaves
    it is that of an outside service: a [FileNotFoundError] of the index
    loader never escapes, and the graph never exceeds its recursion limit. *)
Theorem execute_raises_service_error (mode : Mode) (self : Services) (q : string)
  (charts comments : option (list string)) (w w' : World) (e : Exn) :
  execute mode self q charts comments w = (w', Raised e) -> e = ServiceError.
Proof.
  destruct mode; [apply raises_run | apply raises_arun].
Qed.

Lemma execute_raises_service_error_witness :
  exists w' e,
    execute Graph silent_services "How is engagement?" None None (fresh_world ∅)
    = (w', Raised e)
    /\ e = ServiceError.
Proof.
  eexists. eexists. split; [vm_compute; reflexivity|].
  exact (execute_raises_service_error Graph silent_services "How is engagement?" None None
           (fresh_world ∅) _ _ eq_refl).
Defined.

(** ** Runs that return *)

Section Totality.

Context (self : Services).
Hypothesis invoke_answers : forall msgs, llm_invoke self msgs <> None.
Hypothesis astream_answers : forall msgs, llm_astream self msgs <> None.

Lemma validate_query_total state w :
  exists completion,
    llm_invoke self (classification_messages (query state)) = Some completion
    /\ validate_query self state w
       = (logged w [EvLlmInvoke (classification_messages (query state))],
          Returned (set_is_analytical
                      (PyStr.contains "analytical" (PyStr.lower completion)) state)).
Proof.
  destruct (llm_invoke self (classification_messages (query state))) as [completion|] eqn:E.
  - exists completion. split; [reflexivity|]. now apply validate_query_returns.
  - now destruct (invoke_answers _ E).
Qed.

Lemma analytical_branch_total state w :
  search_answers w "charts" (query state) ->
  search_answers w "comments" (query state) ->
  exists w' final, analytical_branch self state w = (w', Returned final).
Proof.
  intros Hc Hm. unfold analytical_branch, bind at 1 2. rewrite log_logged.
  destruct (extract_context_returns self state (logged w [EvNode "extract_context"])
              Hc Hm) as (events & Hx).
  rewrite Hx. unfold bind at 1 2. rewrite log_logged.
  match goal with |- context [analyze_data self ?s ?w0] =>
    destruct (analyze_data_returns self s w0 invoke_answers) as (w1 & found & Ha)
  end.
  rewrite Ha. unfold bind. rewrite log_logged.
  match goal with |- context [generate_response self ?s ?w0] =>
    destruct (generate_response_returns self s w0) as (final & Hg & _)
  end.
  rewrite Hg. eauto.
Qed.

Lemma generate_streaming_response_total state w :
  exists w' final, _generate_streaming_response self state w = (w', Returned final).
Proof.
  unfold _generate_streaming_response, bind at 1, llm_stream, bind at 1.
  rewrite log_logged.
  match goal with |- context [llm_astream self ?msgs] =>
    destruct (llm_astream self msgs) as [chunks|] eqn:E;
      [|now destruct (astream_answers msgs E)]
  end.
  cbn [ret]. unfold bind at 1.
  destruct (PyStr.eqb (context state) no_indexed_data).
  - cbn [ret]. eauto.
  - cbn [context_sources set_response].
    destruct (context_sources state) eqn:Es.
    + match goal with |- context [analyze_data self ?s ?w0] =>
        destruct (analyze_data_returns self s w0 invoke_answers) as (w1 & found & Ha)
      end.
      rewrite Ha. cbn [ret]. eauto.
    + cbn [ret]. eauto.
Qed.

Lemma streaming_branch_total state w :
  search_answers w "charts" (query state) ->
  search_answers w "comments" (query state) ->
  exists w' final, streaming_branch self state w = (w', Returned final).
Proof.
  intros Hc Hm. unfold streaming_branch, bind.
  destruct (extract_context_returns self state w Hc Hm) as (events & Hx).
  rewrite Hx. apply generate_streaming_response_total.
Qed.

End Totality.

(** X3: a run returns, in either mode, as long as the outside services
    answer: the two completion services for every list of messages, and the
    search for the query in each collection whose index loads.  Missing,
    incomplete and corrupt indices do not prevent it. *)
Theorem execute_returns (mode : Mode) (self : Services) (q : string)
  (charts comments : option (list string)) (w : World) :
  (forall msgs, llm_invoke self msgs <> None) ->
  (forall msgs, llm_astream self msgs <> None) ->
  search_answers w "charts" q ->
  search_answers w "comments" q ->
  exists w' final, execute mode self q charts comments w = (w', Returned final).
Proof.
  intros Hi Ha Hc Hm. destruct mode; cbn [execute].
  - destruct (validate_query_total self Hi (initial_state q charts comments)
                (logged w [EvNode "validate_query"])) as (completion & _ & Hv).
    rewrite (run_two_arms self q charts comments w _ _ Hv).
    destruct (is_analytical _).
    + now apply analytical_branch_total.
    + unfold redirect_branch, bind. rewrite log_logged. cbn. eauto.
  - destruct (validate_query_total self Hi (initial_state q charts comments) w)
      as (completion & _ & Hv).
    rewrite (arun_two_arms self q charts comments w _ _ Hv).
    destruct (is_analytical _).
    + now apply streaming_branch_total.
    + cbn. eauto.
Qed.

Lemma execute_returns_witness :
  exists w' final,
    execute Streaming (sample_services "analytical") "How is engagement?" None None
      corrupt_charts_world = (w', Returned final).
Proof.
  apply execute_returns.
  - intros msgs. discriminate.
  - intros msgs. discriminate.
  - exact I.
  - exact I.
Defined.

(** ** The bundle of sources *)

Section Bundle.

Lemma rank_imap_set_rank (g : nat -> nat) (l : list EvidenceItem) :
  map rank (imap (fun i => set_rank (g i)) l) = map (fun i => Some (g i)) (seq 0 (length l)).
Proof.
  revert g. induction l as [|x l IH]; intros g; [reflexivity|].
  cbn [imap map length seq rank set_rank]. f_equal.
  change (imap ((fun i => set_rank (g i)) ∘ S) l) with (imap (fun i => set_rank (g (S i))) l).
  rewrite (IH (fun i => g (S i))), <- seq_shift, map_map. reflexivity.
Qed.

Lemma rerank_ranked l : ranked (rerank l).
Proof.
  unfold ranked, rerank. rewrite (rank_imap_set_rank (fun i => i + 1)), length_imap.
  rewrite <- seq_shift, map_map. apply map_ext. intros i. now rewrite Nat.add_1_r.
Qed.

Lemma unique_key_imap_set_rank (g : nat -> nat) (l : list EvidenceItem) :
  map unique_key (imap (fun i => set_rank (g i)) l) = map unique_key l.
Proof.
  revert g. induction l as [|x l IH]; intros g; [reflexivity|].
  cbn [imap map]. rewrite unique_key_set_rank. f_equal. exact (IH (fun i => g (S i))).
Qed.

Lemma tag_hits_carries t hits y : In y (tag_hits t hits) -> carries t hits y.
Proof.
  intros Hy. split; [exact (tag_hits_source_type _ _ _ Hy)|].
  apply list_elem_of_In, list_elem_of_lookup in Hy as [i Hi].
  unfold tag_hits in Hi. rewrite list_lookup_imap, list_lookup_fmap in Hi.
  destruct (hits !! i) as [[doc score]|] eqn:Hh; [|discriminate].
  injection Hi as <-. exists doc, score. split; [|now cbn].
  apply list_elem_of_In. eapply list_elem_of_lookup_2; eauto.
Qed.

(** What [merge_context] makes of any retrieved items. *)
Lemma merge_context_bundle q (retrieved : list EvidenceItem) parts :
  let bundle := fst (merge_context q retrieved parts) in
  length bundle <= max_context_sources
  /\ ranked bundle
  /\ StronglySorted score_ge bundle
  /\ List.NoDup (map unique_key bundle).
Proof.
  destruct retrieved as [|s l] eqn:E.
  - cbn. repeat split; try constructor. lia.
  - rewrite <- E. cbv zeta. rewrite merge_context_sources by (rewrite E; discriminate).
    split; [|split; [|split]].
    + rewrite length_rerank, length_take. lia.
    + apply rerank_ranked.
    + apply rerank_sorted.
      pose proof (sort_by_score_sorted (deduplicate ∅ retrieved)) as Hs.
      rewrite <- (take_drop max_context_sources) in Hs.
      exact (StronglySorted_app_l _ _ _ Hs).
    + unfold rerank. rewrite (unique_key_imap_set_rank (fun i => i + 1)).
      apply NoDup_keys_take.
      eapply Permutation_NoDup; [|apply (deduplicate_NoDup ∅ retrieved)].
      apply Permutation_map. symmetry. apply sort_desc_perm.
Qed.

Lemma from_index_tagged w q s : from_index w q s -> tagged s.
Proof. intros [[H _]|[H _]]; [now left | now right]. Qed.

Lemma extract_context_from_index (self : Services) state w w' state' :
  extract_context self state w = (w', Returned state') ->
  Forall (from_index w (query state)) (context_sources state')
  /\ is_analytical state' = is_analytical state
  /\ query state' = query state.
Proof.
  intros H.
  assert (Hr : returned (extract_context self state w) = Some state') by now rewrite H.
  apply extract_context_spec in Hr as (_ & _ & ->).
  cbn [context_sources set_context_sources].
  split; [|split; reflexivity].
  apply List.Forall_forall. intros x Hx.
  apply merge_context_from in Hx as (r & y & -> & Hy).
  unfold retrieved_sources in Hy. apply in_app_or in Hy as [Hy|Hy].
  - left. now apply tag_hits_carries in Hy.
  - right. now apply tag_hits_carries in Hy.
Qed.

End Bundle.

(** X4: the bundle of every state that [extract_context] returns holds at
    most 5 sources, ranked 1, 2, ... in descending order of score, with
    pairwise distinct deduplication keys; each source is a hit of the
    search in the index of its kind, tagged "chart" or "comment". *)
Theorem extract_context_bundle (self : Services) (state : AgentState) (w w' : World)
  (state' : AgentState) :
  extract_context self state w = (w', Returned state') ->
  length (context_sources state') <= max_context_sources
  /\ ranked (context_sources state')
  /\ StronglySorted score_ge (context_sources state')
  /\ List.NoDup (map unique_key (context_sources state'))
  /\ Forall (from_index w (query state)) (context_sources state').
Proof.
  intros H.
  destruct (extract_context_from_index self state w w' state' H) as (Hfrom & _).
  assert (Hr : returned (extract_context self state w) = Some state') by now rewrite H.
  apply extract_context_spec in Hr as (_ & _ & Hs). rewrite Hs in *.
  cbn [context_sources set_context_sources] in *.
  destruct (merge_context_bundle (query state) (retrieved_sources state w)
              (retrieved_parts state w)) as (Hlen & Hrank & Hsorted & Hkeys).
  repeat (split; [assumption|]). exact Hfrom.
Qed.

Lemma extract_context_bundle_witness :
  exists w' state',
    extract_context (sample_services "analytical")
      (initial_state "How is engagement?" None None) busy_world = (w', Returned state')
    /\ length (context_sources state') <= max_context_sources
    /\ ranked (context_sources state').
Proof.
  eexists. eexists. split; [vm_compute; reflexivity|].
  destruct (extract_context_bundle (sample_services "analytical")
              (initial_state "How is engagement?" None None) busy_world _ _ eq_refl)
    as (Hlen & Hrank & _).
  split; [exact Hlen | exact Hrank].
Defined.

(** ** Retrieval, once more *)

Section Repeat.

Lemma index_dir_discarded w w1 name :
  fs w1 = discard_corrupt w ->
  name = "charts" \/ name = "comments" ->
  index_dir w1 name = if corrupt w name then None else index_dir w name.
Proof.
  intros Hfs Hname. unfold index_dir, corrupt, index_dir. rewrite Hfs. unfold discard_corrupt.
  unfold corrupt, index_dir.
  change (_get_actual_index_name "charts") with "brandbastion".
  change (_get_actual_index_name "comments") with "brandbastion_comments".
  destruct Hname as [-> | ->].
  - change (_get_actual_index_name "charts") with "brandbastion".
    destruct (fs w !! "brandbastion") as [[| |vs]|] eqn:Ec;
      destruct (fs w !! "brandbastion_comments") as [[| |vs']|] eqn:Em;
      rewrite ?lookup_delete_eq, ?lookup_delete_ne by discriminate;
      rewrite ?lookup_delete_eq, ?Ec; reflexivity.
  - change (_get_actual_index_name "comments") with "brandbastion_comments".
    destruct (fs w !! "brandbastion") as [[| |vs]|] eqn:Ec;
      destruct (fs w !! "brandbastion_comments") as [[| |vs']|] eqn:Em;
      rewrite ?lookup_delete_eq, ?lookup_delete_ne by discriminate;
      rewrite ?lookup_delete_eq, ?Em; reflexivity.
Qed.

Lemma corrupt_discarded w w1 name :
  fs w1 = discard_corrupt w -> name = "charts" \/ name = "comments" ->
  corrupt w1 name = false.
Proof.
  intros Hfs Hname. unfold corrupt. rewrite (index_dir_discarded w w1 name Hfs Hname).
  unfold corrupt. now destruct (index_dir w name) as [[| |vs]|].
Qed.

Lemma hits_of_discarded w w1 name q :
  fs w1 = discard_corrupt w -> name = "charts" \/ name = "comments" ->
  hits_of w1 name q = hits_of w name q.
Proof.
  intros Hfs Hname. unfold hits_of. rewrite (index_dir_discarded w w1 name Hfs Hname).
  unfold corrupt. now destruct (index_dir w name) as [[| |vs]|].
Qed.

Lemma search_answers_discarded w w1 name q :
  fs w1 = discard_corrupt w -> name = "charts" \/ name = "comments" ->
  search_answers w name q -> search_answers w1 name q.
Proof.
  intros Hfs Hname. unfold search_answers. rewrite (index_dir_discarded w w1 name Hfs Hname).
  unfold corrupt. now destruct (index_dir w name) as [[| |vs]|].
Qed.

Lemma discard_corrupt_none w :
  corrupt w "charts" = false -> corrupt w "comments" = false -> discard_corrupt w = fs w.
Proof. unfold discard_corrupt. now intros -> ->. Qed.

Lemma index_notes_none state w :
  corrupt w "charts" = false -> corrupt w "comments" = false -> index_notes state w = [].
Proof. unfold index_notes. now intros -> ->. Qed.

End Repeat.

(** X5: retrieval repairs the index directory once.  After
    [extract_context] has returned, running it again on what it left
    returns the same bundle, removes nothing more and has no note to write;
    the context is the same text when there are sources, and the bare
    sentinel when there are none. *)
Theorem extract_context_repeatable (self : Services) (state : AgentState) (w w1 : World)
  (state1 : AgentState) :
  extract_context self state w = (w1, Returned state1) ->
  exists w2 state2,
    extract_context self state w1 = (w2, Returned state2)
    /\ fs w2 = fs w1
    /\ context_sources state2 = context_sources state1
    /\ index_notes state w1 = []
    /\ (context_sources state1 <> [] -> context state2 = context state1)
    /\ (context_sources state1 = [] -> context state2 = no_indexed_data).
Proof.
  intros H.
  assert (Hr : returned (extract_context self state w) = Some state1) by now rewrite H.
  apply extract_context_spec in Hr as (Hc & Hm & Hs1).
  destruct (extract_context_returns self state w Hc Hm) as (events & Hx).
  rewrite Hx in H. injection H as Hw1 _.
  assert (Hfs : fs w1 = discard_corrupt w) by now rewrite <- Hw1.
  assert (Hcc : corrupt w1 "charts" = false) by (apply (corrupt_discarded w); auto).
  assert (Hcm : corrupt w1 "comments" = false) by (apply (corrupt_discarded w); auto).
  destruct (extract_context_returns self state w1) as (events' & Hx').
  { apply (search_answers_discarded w); auto. }
  { apply (search_answers_discarded w); auto. }
  assert (Hsrc : retrieved_sources state w1 = retrieved_sources state w).
  { unfold retrieved_sources. now rewrite !(hits_of_discarded w w1) by auto. }
  assert (Hcs : context_sources (extracted state w1) = context_sources state1).
  { rewrite Hs1. unfold extracted. cbn [context_sources set_context_sources].
    rewrite Hsrc. unfold merge_context. now destruct (retrieved_sources state w). }
  eexists. exists (extracted state w1). split; [exact Hx'|].
  split; [cbn [fs]; now apply discard_corrupt_none|].
  split; [exact Hcs|].
  split; [now apply index_notes_none|].
  split.
  - intros Hne. rewrite Hs1. unfold extracted. cbn [context set_context set_context_sources].
    rewrite Hsrc. rewrite Hs1 in Hne. cbn [context_sources set_context_sources] in Hne.
    unfold merge_context in *. destruct (retrieved_sources state w); [now destruct Hne|].
    reflexivity.
  - intros He. rewrite <- Hcs in He. rewrite (extracted_empty _ _ He).
    now rewrite index_notes_none.
Qed.

Lemma extract_context_repeatable_witness :
  exists w1 state1 w2 state2,
    extract_context (sample_services "analytical") chart_request corrupt_charts_world
    = (w1, Returned state1)
    /\ extract_context (sample_services "analytical") chart_request w1
       = (w2, Returned state2)
    /\ context state1 <> no_indexed_data
    /\ context state2 = no_indexed_data.
Proof.
  eexists. eexists.
  destruct (extract_context_repeatable (sample_services "analytical") chart_request
              corrupt_charts_world _ _ eq_refl)
    as (w2 & state2 & Hx & _ & _ & _ & _ & Hs).
  exists w2, state2. split; [vm_compute; reflexivity|].
  split; [exact Hx|]. split; [vm_compute; discriminate|].
  apply Hs. vm_compute. reflexivity.
Defined.

(** ** The questions of a run *)

Section Questions.

Context (self : Services).

(** With sources that are all tagged, the first bucket that applies fills
    the three questions. *)
Lemma follow_up_questions_tagged state :
  context_sources state <> [] ->
  Forall tagged (context_sources state) ->
  _generate_follow_up_questions state
  = if existsb (has_source_type "chart") (context_sources state)
    then chart_questions else comment_questions.
Proof.
  intros Hne Ht. unfold _generate_follow_up_questions.
  destruct (context_sources state) as [|s l] eqn:E; [now destruct Hne|].
  destruct (existsb (has_source_type "chart") (s :: l)) eqn:Ec.
  - destruct (existsb (has_source_type "comment") (s :: l));
      destruct (insights state); reflexivity.
  - assert (Hm : existsb (has_source_type "comment") (s :: l) = true).
    { apply Forall_inv in Ht. apply existsb_exists. exists s. split; [now left|].
      destruct Ht as [Hs|Hs].
      - assert (Hf : has_source_type "chart" s = true)
          by (unfold has_source_type; now rewrite Hs).
        cbn [existsb] in Ec. rewrite Hf in Ec. discriminate.
      - unfold has_source_type. now rewrite Hs. }
    rewrite Hm. destruct (insights state); reflexivity.
Qed.

Lemma questions_for_analytical state final :
  is_analytical final = true ->
  context_sources final = context_sources state ->
  Forall tagged (context_sources state) ->
  _generate_follow_up_questions state = questions_for final.
Proof.
  intros Ha Hcs Ht. unfold questions_for. rewrite Ha, Hcs. cbn [negb].
  destruct (context_sources state) as [|s l] eqn:E.
  - unfold _generate_follow_up_questions. now rewrite E.
  - rewrite <- E in *. apply follow_up_questions_tagged; [rewrite E; discriminate | exact Ht].
Qed.

Lemma analyze_data_frame state w w' state' :
  analyze_data self state w = (w', Returned state') ->
  exists found, state' = set_insights found state.
Proof.
  unfold analyze_data. intros H.
  apply bind_returned in H as (w1 & found & _ & H).
  injection H as _ <-. eauto.
Qed.

Lemma generate_response_questions state w w' final :
  generate_response self state w = (w', Returned final) ->
  suggested_questions final = _generate_follow_up_questions state
  /\ context_sources final = context_sources state
  /\ is_analytical final = is_analytical state.
Proof.
  unfold generate_response. intros H. injection H as _ <-.
  destruct (insights state) eqn:E; cbn; rewrite ?E; repeat split; reflexivity.
Qed.

Lemma generate_streaming_response_questions state w w' final :
  _generate_streaming_response self state w = (w', Returned final) ->
  exists mid,
    suggested_questions final = _generate_follow_up_questions mid
    /\ context_sources mid = context_sources state
    /\ context_sources final = context_sources state
    /\ is_analytical final = is_analytical state.
Proof.
  unfold _generate_streaming_response. intros H.
  apply bind_returned in H as (w1 & chunks & _ & H).
  apply bind_returned in H as (w2 & mid & Hmid & H).
  injection H as _ <-. exists mid.
  assert (Hm : context_sources mid = context_sources state
               /\ is_analytical mid = is_analytical state).
  { destruct (PyStr.eqb (context state) no_indexed_data).
    - injection Hmid as _ <-. split; reflexivity.
    - cbn [context_sources set_response] in Hmid.
      destruct (context_sources state) eqn:E.
      + apply analyze_data_frame in Hmid as (found & ->). cbn. now rewrite E.
      + injection Hmid as _ <-. cbn. now rewrite E. }
  destruct Hm as [Hcs Ha]. cbn. rewrite Hcs, Ha. repeat split; reflexivity.
Qed.

Lemma validate_query_frame state w w' state' :
  validate_query self state w = (w', Returned state') ->
  exists b, state' = set_is_analytical b state.
Proof.
  unfold validate_query. intros H.
  apply bind_returned in H as (w1 & text & _ & H). injection H as _ <-. eauto.
Qed.

Lemma analytical_branch_questions state w w' final :
  is_analytical state = true ->
  analytical_branch self state w = (w', Returned final) ->
  suggested_questions final = questions_for final.
Proof.
  intros Ha H. unfold analytical_branch in H.
  apply bind_returned in H as (w1 & [] & _ & H).
  apply bind_returned in H as (w2 & st2 & Hx & H).
  apply bind_returned in H as (w3 & [] & _ & H).
  apply bind_returned in H as (w4 & st4 & Hd & H).
  apply bind_returned in H as (w5 & [] & _ & H).
  apply (extract_context_from_index self) in Hx as (Hfrom & Ha2 & _).
  apply analyze_data_frame in Hd as (found & ->).
  apply generate_response_questions in H as (-> & Hcs & Ha5).
  cbn [context_sources set_insights is_analytical] in Hcs, Ha5.
  apply questions_for_analytical.
  - congruence.
  - exact Hcs.
  - cbn [context_sources set_insights]. eapply Forall_impl; [exact Hfrom|].
    intros s. apply from_index_tagged.
Qed.

Lemma streaming_branch_questions state w w' final :
  is_analytical state = true ->
  streaming_branch self state w = (w', Returned final) ->
  suggested_questions final = questions_for final.
Proof.
  intros Ha H. unfold streaming_branch in H.
  apply bind_returned in H as (w2 & st2 & Hx & H).
  apply (extract_context_from_index self) in Hx as (Hfrom & Ha2 & _).
  apply generate_streaming_response_questions in H as (mid & -> & Hmid & Hcs & Ha5).
  apply questions_for_analytical.
  - congruence.
  - congruence.
  - rewrite Hmid. eapply Forall_impl; [exact Hfrom|].
    intros s. apply from_index_tagged.
Qed.

End Questions.

(** X6: every state that a run returns, in either mode, suggests exactly
    three questions, and they are one of four fixed lists: the redirect
    questions when the query was not classified as analytical, the prompts
    asking for data when the bundle is empty, the chart questions when the
    bundle holds a chart, the comment questions otherwise.  The questions
    about insights and the generic ones are never suggested by a run. *)
Theorem execute_suggested_questions (mode : Mode) (self : Services) (q : string)
  (charts comments : option (list string)) (w w' : World) (final : AgentState) :
  execute mode self q charts comments w = (w', Returned final) ->
  suggested_questions final = questions_for final
  /\ length (suggested_questions final) = 3
  /\ suggested_questions final <> insight_questions
  /\ suggested_questions final <> generic_questions.
Proof.
  intros H.
  assert (Hq : suggested_questions final = questions_for final).
  { destruct mode; cbn [execute] in H.
    - destruct (validate_query self (initial_state q charts comments)
                  (logged w [EvNode "validate_query"])) as [w1 [st1|e]] eqn:Hv.
      + rewrite (run_two_arms self q charts comments w w1 st1 Hv) in H.
        destruct (is_analytical st1) eqn:Ha.
        * now apply (analytical_branch_questions self st1 w1 w').
        * unfold redirect_branch in H. apply bind_returned in H as (w2 & [] & _ & H).
          injection H as _ <-. unfold questions_for. cbn. now rewrite Ha.
      + rewrite (run_validate_raises _ _ _ _ _ _ _ Hv) in H. discriminate H.
    - unfold arun_with_streaming in H.
      apply bind_returned in H as (w1 & st1 & Hv & H).
      destruct (is_analytical st1) eqn:Ha.
      + now apply (streaming_branch_questions self st1 w1 w').
      + injection H as _ <-. unfold questions_for. cbn. now rewrite Ha. }
  rewrite Hq. unfold questions_for.
  destruct (negb (is_analytical final)); [repeat split; discriminate|].
  destruct (context_sources final); [repeat split; discriminate|].
  destruct (existsb _ _); repeat split; discriminate.
Qed.

Lemma execute_suggested_questions_witness :
  exists w' final,
    execute Graph (sample_services "analytical") "How is engagement?" None None
      one_comment_world = (w', Returned final)
    /\ suggested_questions final = comment_questions.
Proof.
  eexists. eexists. split; [vm_compute; reflexivity|].
  destruct (execute_suggested_questions Graph (sample_services "analytical")
              "How is engagement?" None None one_comment_world _ _ eq_refl) as (Hq & _).
  exact Hq.
Defined.

(** ** Insights and the streamed response *)

Section Insights.

Context (self : Services).

Lemma unique_insights_spec seen l :
  List.NoDup (map PyStr.lower (unique_insights seen l))
  /\ forall x, In x (unique_insights seen l) -> (PyStr.lower x ∉ seen) /\ In x l.
Proof.
  revert seen. induction l as [|a l IH]; intros seen; cbn [unique_insights].
  - split; [constructor | intros x []].
  - destruct (decide (PyStr.lower a ∈ seen)) as [Hin|Hout].
    + destruct (IH seen) as [Hn Hx]. split; [exact Hn|].
      intros x Hi. destruct (Hx x Hi). split; [assumption | now right].
    + destruct (IH ({[PyStr.lower a]} ∪ seen)) as [Hn Hx]. split.
      * cbn [map]. constructor; [|exact Hn].
        intros Hi. apply in_map_iff in Hi as (x & Hlow & Hi).
        destruct (Hx x Hi) as [Hnot _]. apply Hnot. rewrite Hlow.
        apply elem_of_union. left. now apply elem_of_singleton.
      * intros x [<-|Hi]; [split; [exact Hout | now left]|].
        destruct (Hx x Hi) as [Hnot Hl]. split; [|now right].
        intros Hs. apply Hnot. apply elem_of_union. now right.
Qed.

Lemma NoDup_take {A} n (l : list A) : List.NoDup l -> List.NoDup (take n l).
Proof.
  intros H. rewrite <- (take_drop n l) in H. exact (List.NoDup_app_remove_r _ _ H).
Qed.

Lemma get_llm_insights_log state w w' r :
  _get_llm_insights self state w = (w', r) ->
  w' = logged w [EvLlmInvoke (insights_messages state)].
Proof.
  unfold _get_llm_insights, llm_call, bind. rewrite log_logged.
  fold (insights_messages state).
  destruct (llm_invoke self (insights_messages state)); intros H; now injection H as <- _.
Qed.

End Insights.

(** X7: [analyze_data] replaces the insights of the state and nothing
    else: at most 8 statements, pairwise distinct even when the case of
    letters is ignored.  It touches no index and asks the language model at
    most once, for the insights of the query and the context. *)
Theorem analyze_data_insights (self : Services) (state : AgentState) (w w' : World)
  (state' : AgentState) :
  analyze_data self state w = (w', Returned state') ->
  state' = set_insights (insights state') state
  /\ length (insights state') <= 8
  /\ List.NoDup (map PyStr.lower (insights state'))
  /\ (w' = w \/ w' = logged w [EvLlmInvoke (insights_messages state)]).
Proof.
  unfold analyze_data. intros H.
  apply bind_returned in H as (w1 & found & Hfound & H).
  injection H as <- <-. cbn [insights set_insights].
  split; [reflexivity|]. split; [rewrite length_take; lia|].
  split; [rewrite <- firstn_map; apply NoDup_take, unique_insights_spec|].
  destruct (context state); [injection Hfound as <- _; now left|].
  match type of Hfound with context [if ?c then _ else _] => destruct c end;
    [|injection Hfound as <- _; now left].
  apply bind_returned in Hfound as (w2 & llm_insights & Hllm & Hfound).
  injection Hfound as <- _. right. exact (get_llm_insights_log self _ _ _ _ Hllm).
Qed.

Lemma analyze_data_insights_witness :
  exists w' state',
    analyze_data (sample_services "analytical")
      (set_context_sources happy_batch (initial_state "How is engagement?" None None))
      (fresh_world ∅) = (w', Returned state')
    /\ length (insights state') <= 8
    /\ w' = fresh_world ∅.
Proof.
  eexists. eexists. split; [vm_compute; reflexivity|].
  destruct (analyze_data_insights (sample_services "analytical")
              (set_context_sources happy_batch (initial_state "How is engagement?" None None))
              (fresh_world ∅) _ _ eq_refl) as (_ & Hlen & _).
  split; [exact Hlen | reflexivity].
Defined.

Section StreamingText.

Lemma join_empty_cons p (ps : list string) : PyStr.join "" (p :: ps) = p +:+ PyStr.join "" ps.
Proof.
  destruct ps as [|q ps]; [now rewrite append_nil_r|]. now rewrite join_cons.
Qed.

Lemma fold_chunks (chunks : list string) (text : string) :
  fold_left (fun text chunk =>
               match chunk with
               | EmptyString => text
               | _ => text +:+ chunk
               end) chunks text
  = text +:+ PyStr.join "" chunks.
Proof.
  revert text. induction chunks as [|c chunks IH]; intros text.
  - cbn. now rewrite append_nil_r.
  - cbn [fold_left]. rewrite IH, join_empty_cons.
    destruct c; [now rewrite append_nil_l|]. now rewrite append_assoc.
Qed.

End StreamingText.

(** X8: the response that the streaming stage leaves in the state is the
    text streamed: the chunks of the completion for the context and the
    query, joined.  With sources, the insights are those of the insight
    generator alone and the stream is the only call made; with the bare
    sentinel as context, the insights are left as they were. *)
Theorem streaming_response_spec (self : Services) (state : AgentState) (w w' : World)
  (final : AgentState) :
  _generate_streaming_response self state w = (w', Returned final) ->
  exists chunks,
    llm_astream self (streaming_messages state) = Some chunks
    /\ response final = PyStr.join "" chunks
    /\ (context state = no_indexed_data ->
        insights final = insights state
        /\ w' = logged w [EvLlmStream (streaming_messages state)])
    /\ (context state <> no_indexed_data -> context_sources state <> [] ->
        insights final = InsightGenerator.generate_insights self (context_sources state)
        /\ w' = logged w [EvLlmStream (streaming_messages state)]).
Proof.
  unfold _generate_streaming_response. intros H.
  apply bind_returned in H as (w1 & chunks & Hs & H).
  apply bind_returned in H as (w2 & mid & Hmid & H).
  injection H as <- <-.
  unfold llm_stream, bind in Hs. rewrite log_logged in Hs.
  fold (streaming_messages state) in Hs.
  destruct (llm_astream self (streaming_messages state)) as [chunks'|]; [|discriminate Hs].
  injection Hs as <- <-. exists chunks'. split; [reflexivity|].
  cbn [response insights set_requires_clarification set_suggested_questions].
  rewrite fold_chunks, append_nil_l in Hmid.
  destruct (PyStr.eqb (context state) no_indexed_data) eqn:E.
  - injection Hmid as <- <-. cbn. split; [reflexivity|]. split; [now intros _|].
    apply eqb_true_iff in E. now intros Hne.
  - apply eqb_false_iff in E. cbn [context_sources set_response] in Hmid.
    destruct (context_sources state) eqn:Es.
    + apply analyze_data_frame in Hmid as (found & ->). cbn.
      split; [reflexivity|]. split; [now intros Hc | now intros _ Hne].
    + injection Hmid as <- <-. cbn. split; [reflexivity|].
      split; [now intros Hc | now intros _ _].
Qed.

Lemma streaming_response_spec_witness :
  exists w' final,
    _generate_streaming_response (sample_services "analytical")
      (set_context no_indexed_data (initial_state "How is engagement?" None None))
      (fresh_world ∅) = (w', Returned final)
    /\ response final = "Engagement is up.".
Proof.
  eexists. eexists. split; [vm_compute; reflexivity|].
  destruct (streaming_response_spec (sample_services "analytical")
              (set_context no_indexed_data (initial_state "How is engagement?" None None))
              (fresh_world ∅) _ _ eq_refl) as (chunks & Hc & Hr & _).
  transitivity (PyStr.join "" chunks); [exact Hr|].
  vm_compute in Hc. injection Hc as <-. reflexivity.
Defined.

(** ** Key topics *)

Section Counters.

Lemma In_keys_counter_add k k' c :
  In k' (map fst (Py.counter_add k c)) <-> k' = k \/ In k' (map fst c).
Proof.
  induction c as [|[k0 n] c IH]; cbn [Py.counter_add map fst In].
  - split; [intros [<-|[]]; now left | intros [->|[]]; now left].
  - destruct (PyStr.eqb k k0) eqn:E; cbn [map fst In].
    + apply eqb_true_iff in E. subst k0. split; [tauto|].
      intros [->|H]; [now left | exact H].
    + rewrite IH. split; [tauto|]. tauto.
Qed.

Lemma NoDup_keys_counter_add k c :
  List.NoDup (map fst c) -> List.NoDup (map fst (Py.counter_add k c)).
Proof.
  induction c as [|[k0 n] c IH]; cbn [Py.counter_add map fst]; intros H.
  - repeat constructor. intros [].
  - destruct (PyStr.eqb k k0) eqn:E; cbn [map fst]; [exact H|].
    apply List.NoDup_cons_iff in H as [Hk0 Hc]. constructor; [|now apply IH].
    rewrite In_keys_counter_add. intros [->|Hin]; [|now apply Hk0].
    apply eqb_false_iff in E. now apply E.
Qed.

Lemma Counter_keys xs :
  List.NoDup (map fst (Py.Counter xs))
  /\ forall k, In k (map fst (Py.Counter xs)) <-> In k xs.
Proof.
  unfold Py.Counter.
  assert (Hgen : forall c,
             List.NoDup (map fst c) ->
             List.NoDup (map fst (fold_left (fun c x => Py.counter_add x c) xs c))
             /\ forall k, In k (map fst (fold_left (fun c x => Py.counter_add x c) xs c))
                          <-> In k xs \/ In k (map fst c)).
  { induction xs as [|x xs IH]; intros c Hc; cbn [fold_left].
    - split; [exact Hc|]. intros k. cbn. tauto.
    - destruct (IH (Py.counter_add x c) (NoDup_keys_counter_add x c Hc)) as [Hn Hk].
      split; [exact Hn|]. intros k. rewrite Hk, In_keys_counter_add. cbn. intuition. }
  destruct (Hgen [] (List.NoDup_nil _)) as [Hn Hk]. split; [exact Hn|].
  intros k. rewrite Hk. cbn. tauto.
Qed.

Lemma counter_get_In k n c :
  List.NoDup (map fst c) -> In (k, n) c -> Py.counter_get k c = n.
Proof.
  induction c as [|[k0 n0] c IH]; cbn [map fst Py.counter_get]; intros Hn Hin; [destruct Hin|].
  apply List.NoDup_cons_iff in Hn as [Hk0 Hc]. destruct Hin as [Heq|Hin].
  - injection Heq as -> ->. now rewrite eqb_refl.
  - destruct (PyStr.eqb k k0) eqn:E; [|now apply IH].
    apply eqb_true_iff in E. subst k0. destruct Hk0.
    apply in_map_iff. now exists (k, n).
Qed.

(** An entry of a counter holds the number of occurrences of its key. *)
Lemma Counter_entry k n xs :
  In (k, n) (Py.Counter xs) -> In k xs /\ n = occurrences k xs.
Proof.
  intros Hin. destruct (Counter_keys xs) as [Hn Hk]. split.
  - apply Hk, in_map_iff. now exists (k, n).
  - rewrite <- (counter_get_In k n _ Hn Hin). apply counter_get_Counter.
Qed.

Lemma Counter_complete k xs :
  In k xs -> In (k, occurrences k xs) (Py.Counter xs).
Proof.
  intros Hin. destruct (Counter_keys xs) as [Hn Hk].
  apply Hk, in_map_iff in Hin as ([k' n] & Hfst & Hin). cbn in Hfst. subst k'.
  now destruct (Counter_entry k n xs Hin) as [_ <-].
Qed.

Lemma count_lt_asym (a b : string * nat) : (snd a <? snd b) = true -> (snd b <? snd a) = false.
Proof. rewrite Nat.ltb_lt, Nat.ltb_ge. lia. Qed.

Lemma count_precede_trans (a b c : string * nat) :
  may_precede (fun a b => snd a <? snd b) a b ->
  may_precede (fun a b => snd a <? snd b) b c ->
  may_precede (fun a b => snd a <? snd b) a c.
Proof. unfold may_precede. rewrite !Nat.ltb_ge. lia. Qed.

Lemma StronglySorted_map {A B} (R : A -> A -> Prop) (R' : B -> B -> Prop) (f : A -> B) l :
  (forall a b, R a b -> R' (f a) (f b)) ->
  StronglySorted R l -> StronglySorted R' (map f l).
Proof.
  intros HR. induction 1 as [|x l Hs IH Hx]; cbn [map]; constructor; [exact IH|].
  apply List.Forall_forall. intros y Hy. apply in_map_iff in Hy as (z & <- & Hz).
  apply HR. revert z Hz. now apply List.Forall_forall.
Qed.

(** [most_common n]: the first [n] entries in descending order of count;
    an entry left out counts no more than any entry kept. *)
Lemma most_common_spec n (c : list (string * nat)) :
  let top := Py.most_common n c in
  length top <= n
  /\ (forall e, In e top -> In e c)
  /\ StronglySorted (fun a b => snd b <= snd a) top
  /\ (forall e, In e c -> ~ In e top ->
      length top = n /\ forall t, In t top -> snd e <= snd t).
Proof.
  cbv zeta. unfold Py.most_common.
  set (sorted := Py.sort_desc (fun a b => snd a <? snd b) c).
  assert (Hperm : Permutation sorted c) by apply sort_desc_perm.
  assert (Hsorted : StronglySorted (fun a b => snd b <= snd a) sorted).
  { eapply StronglySorted_impl;
      [|apply (sort_desc_sorted _ count_lt_asym count_precede_trans)].
    intros a b. unfold may_precede. now rewrite Nat.ltb_ge. }
  rewrite <- (take_drop n sorted) in Hperm, Hsorted.
  split; [rewrite length_take; lia|].
  split; [|split].
  - intros e He. apply (Permutation_in _ Hperm). apply in_or_app. now left.
  - exact (StronglySorted_app_l _ _ _ Hsorted).
  - intros e He Hnot.
    apply (Permutation_in _ (Permutation_sym Hperm)) in He.
    apply in_app_or in He as [He|He]; [now destruct Hnot|].
    split.
    + rewrite length_take. destruct (Nat.le_gt_cases n (length sorted)); [lia|].
      rewrite drop_ge in He by lia. destruct He.
    + intros t Ht. exact (StronglySorted_app_cross _ _ _ Hsorted t e Ht He).
Qed.

End Counters.

(** X9: the topics of a non-empty list of texts are at most 10 distinct
    words, each one counted among the words of the texts (no stop word,
    more than 3 characters), with its number of occurrences as frequency,
    in descending order of frequency; a counted word that is no topic
    occurs no more often than any topic, and then there are 10 topics.  An
    empty list of texts has no topic. *)
Theorem identify_key_topics_spec (self : Services) (texts : list string) :
  texts <> [] ->
  let topics := TrendDetector.identify_key_topics self texts in
  let words := counted_words self texts in
  length topics <= 10
  /\ List.NoDup (map TrendDetector.topic topics)
  /\ Forall (fun t =>
               In (TrendDetector.topic t) words
               /\ TrendDetector.frequency t = occurrences (TrendDetector.topic t) words
               /\ 3 < String.length (TrendDetector.topic t)
               /\ Py.mem (TrendDetector.topic t) TrendDetector.stop_words = false) topics
  /\ StronglySorted
       (fun a b => TrendDetector.frequency b <= TrendDetector.frequency a) topics
  /\ (forall word, In word words -> ~ In word (map TrendDetector.topic topics) ->
      length topics = 10
      /\ Forall (fun t => occurrences word words <= TrendDetector.frequency t) topics)
  /\ TrendDetector.identify_key_topics self [] = [].
Proof.
  intros Hne. cbv zeta. unfold TrendDetector.identify_key_topics.
  destruct texts as [|text rest] eqn:E; [now destruct Hne|]. rewrite <- E. clear Hne.
  fold (counted_words self texts). set (words := counted_words self texts).
  destruct (most_common_spec 10 (Py.Counter words)) as (Hlen & Hin & Hsorted & Hout).
  set (top := Py.most_common 10 (Py.Counter words)) in *.
  set (mk := fun '(word, count) => TrendDetector.mkTopic word count _).
  assert (Htopic : map TrendDetector.topic (map mk top) = map fst top).
  { rewrite map_map. apply map_ext. now intros [word count]. }
  split; [now rewrite length_map|].
  split; [|split; [|split; [|split]]].
  - rewrite Htopic. destruct (Counter_keys words) as [Hn _].
    unfold top, Py.most_common. rewrite <- firstn_map. apply NoDup_take.
    eapply Permutation_NoDup; [|exact Hn].
    apply Permutation_map. symmetry. apply sort_desc_perm.
  - apply List.Forall_forall. intros t Ht.
    apply in_map_iff in Ht as ([word count] & <- & He). cbn.
    destruct (Counter_entry word count words (Hin _ He)) as [Hw ->].
    split; [exact Hw|]. split; [reflexivity|].
    unfold words, counted_words in Hw. apply filter_In in Hw as [_ Hw].
    apply andb_prop in Hw as [Hstop Hlong].
    split; [now apply Nat.ltb_lt in Hlong | now apply negb_true_iff in Hstop].
  - eapply StronglySorted_map; [|exact Hsorted]. now intros [w1 c1] [w2 c2].
  - intros word Hw Hnot. rewrite Htopic in Hnot.
    destruct (Hout (word, occurrences word words)) as [Hten Hle].
    + now apply Counter_complete.
    + intros He. apply Hnot. apply in_map_iff. now exists (word, occurrences word words).
    + split; [now rewrite length_map|].
      apply List.Forall_forall. intros t Ht.
      apply in_map_iff in Ht as ([w1 c1] & <- & He). cbn. exact (Hle _ He).
  - reflexivity.
Qed.

Lemma identify_key_topics_spec_witness :
  map TrendDetector.topic
    (TrendDetector.identify_key_topics (sample_services "analytical")
       ["Great giveaway"; "the giveaway was great fun"])
  = ["great"; "giveaway"]
  /\ List.NoDup
       (map TrendDetector.topic
          (TrendDetector.identify_key_topics (sample_services "analytical")
             ["Great giveaway"; "the giveaway was great fun"])).
Proof.
  split; [vm_compute; reflexivity|].
  destruct (identify_key_topics_spec (sample_services "analytical")
              ["Great giveaway"; "the giveaway was great fun"]) as (_ & Hn & _).
  - discriminate.
  - exact Hn.
Defined.

(** ** The sentiment of a batch *)

Section Sentiments.

Import SentimentAnalyzer.

Lemma sum_counter_add k c :
  list_sum (map snd (Py.counter_add k c)) = S (list_sum (map snd c)).
Proof.
  unfold list_sum.
  induction c as [|[k0 n] c IH]; cbn [Py.counter_add map snd fold_right]; [reflexivity|].
  destruct (PyStr.eqb k k0); cbn [map snd fold_right]; [reflexivity|].
  rewrite IH. lia.
Qed.

Lemma sum_Counter xs : list_sum (map snd (Py.Counter xs)) = length xs.
Proof.
  unfold Py.Counter.
  assert (Hgen : forall c,
             list_sum (map snd (fold_left (fun c x => Py.counter_add x c) xs c))
             = list_sum (map snd c) + length xs).
  { induction xs as [|x xs IH]; intros c; cbn [fold_left length]; [lia|].
    rewrite IH, sum_counter_add. lia. }
  apply Hgen.
Qed.

Lemma occurrences_pos k xs : In k xs -> 0 < occurrences k xs.
Proof.
  intros Hin. unfold occurrences.
  assert (Hf : In k (List.filter (fun x => PyStr.eqb x k) xs)).
  { apply filter_In. split; [exact Hin | apply eqb_refl]. }
  destruct (List.filter _ xs); [destruct Hf | cbn; lia].
Qed.

Lemma analyze_sentiment_label self text : In (label_of self text) sentiment_labels.
Proof.
  unfold label_of, analyze_sentiment. cbn [sentiment].
  repeat match goal with |- context [if ?c then _ else _] => destruct c end;
    cbn; tauto.
Qed.

End Sentiments.

(** X10: the sentiment distribution of a batch partitions it: a result for
    each text, labels pairwise distinct among the five of
    [analyze_sentiment], each with the number of texts it was given, none
    with a count of 0, and the counts add up to the number of texts.  An
    empty batch has an empty distribution, a positive ratio of 0 and the
    overall sentiment "mixed". *)
Theorem analyze_batch_distribution (self : Services) (texts : list string) :
  let batch := SentimentAnalyzer.analyze_batch self texts in
  let distribution := SentimentAnalyzer.sentiment_distribution batch in
  SentimentAnalyzer.individual_results batch
  = map (SentimentAnalyzer.analyze_sentiment self) texts
  /\ list_sum (map snd distribution) = length texts
  /\ List.NoDup (map fst distribution)
  /\ Forall (fun entry =>
               In (fst entry) sentiment_labels
               /\ 0 < snd entry
               /\ snd entry = occurrences (fst entry) (map (label_of self) texts))
       distribution
  /\ (texts = [] ->
      distribution = []
      /\ SentimentAnalyzer.positive_ratio batch = 0%float
      /\ SentimentAnalyzer.overall_sentiment batch = "mixed").
Proof.
  cbv zeta. unfold SentimentAnalyzer.analyze_batch.
  cbn [SentimentAnalyzer.individual_results SentimentAnalyzer.sentiment_distribution
         SentimentAnalyzer.positive_ratio SentimentAnalyzer.overall_sentiment].
  rewrite map_map. fold (label_of self).
  change (map (fun x => SentimentAnalyzer.sentiment
                          (SentimentAnalyzer.analyze_sentiment self x)) texts)
    with (map (label_of self) texts).
  split; [reflexivity|].
  split; [now rewrite sum_Counter, length_map|].
  split; [apply Counter_keys|].
  split.
  - apply List.Forall_forall. intros [label count] He. cbn [fst snd].
    destruct (Counter_entry _ _ _ He) as [Hin ->].
    split; [|split; [now apply occurrences_pos | reflexivity]].
    apply in_map_iff in Hin as (text & <- & _). apply analyze_sentiment_label.
  - intros ->. repeat split; reflexivity.
Qed.

(** ** Loops over positions, and the entries of anomaly detection *)

Section IndexedLoops.

(** A loop over [enumerate(l)] that appends the items [f i a]. *)
Lemma In_concat_imap {A B} (f : nat -> A -> list B) (l : list A) (b : B) :
  In b (concat (imap f l)) <-> exists i a, l !! i = Some a /\ In b (f i a).
Proof.
  revert f. induction l as [|x l IH]; intros f; cbn [imap concat].
  - split; [intros [] | intros (i & a & H & _); discriminate H].
  - rewrite in_app_iff, IH. split.
    + intros [H|(i & a & Hl & H)]; [now exists 0, x | now exists (S i), a].
    + intros ([|i] & a & Hl & H); [injection Hl as <-; now left|].
      right. now exists i, a.
Qed.

(** When a turn appends at most one item, marked by a number that grows
    with the position, the marks come out in ascending order. *)
Lemma concat_imap_sorted {A B} (f : nat -> A -> list B) (key : B -> nat) (g : nat -> nat)
  (l : list A) :
  (forall i j, i < j -> g i < g j) ->
  (forall i a, length (f i a) <= 1) ->
  (forall i a b, In b (f i a) -> key b = g i) ->
  StronglySorted lt (map key (concat (imap f l))).
Proof.
  intros Hg. revert f g Hg. induction l as [|x l IH]; intros f g Hg Hone Hkey;
    cbn [imap concat map]; [constructor|].
  rewrite map_app.
  assert (Htail : StronglySorted lt (map key (concat (imap (f ∘ S) l)))).
  { apply (IH (f ∘ S) (g ∘ S)).
    - intros i j Hij. cbn. apply Hg. lia.
    - intros i a. apply Hone.
    - intros i a b. apply Hkey. }
  specialize (Hone 0 x). destruct (f 0 x) as [|b [|b' rest]] eqn:E;
    [exact Htail | | cbn in Hone; lia].
  cbn [map app]. constructor; [exact Htail|].
  apply List.Forall_forall. intros j Hj.
  apply in_map_iff in Hj as (b' & <- & Hb'). apply In_concat_imap in Hb' as (i & a & _ & Hb').
  rewrite (Hkey 0 x b) by (rewrite E; now left).
  rewrite (Hkey (S i) a b' Hb'). apply Hg. lia.
Qed.

End IndexedLoops.

Section AnomalyEntries.

Import TrendDetector.

Lemma anomaly_at_index mean std i v a : In a (anomaly_at mean std i v) -> index a = i.
Proof.
  unfold anomaly_at. destruct (2 <? _)%float; [|intros []].
  intros [<-|[]]. reflexivity.
Qed.

Lemma anomaly_at_short mean std i v : length (anomaly_at mean std i v) <= 1.
Proof. unfold anomaly_at. destruct (2 <? _)%float; cbn; lia. Qed.

End AnomalyEntries.

(** X11: the entries of [detect_anomalies] come in the order of the series,
    at most one for a position.  An entry names a position of the series
    and the value there; its z-score is that of the value against the mean
    and the population standard deviation of the series, which is positive;
    the magnitude of the z-score is above 2, and the severity is "high"
    when it is above 3 and "medium" otherwise.  Every position whose
    z-score is that far out has its entry. *)
Theorem detect_anomalies_entries (metrics : list float) :
  let mean := PyNum.np_mean metrics in
  let std := PyNum.np_std metrics in
  let z_of := fun v => ((v - mean) / std)%float in
  StronglySorted lt (map TrendDetector.index (TrendDetector.detect_anomalies metrics))
  /\ Forall (fun a =>
               3 <= length metrics
               /\ metrics !! TrendDetector.index a = Some (TrendDetector.value a)
               /\ (0 <? std)%float = true
               /\ TrendDetector.z_score a = z_of (TrendDetector.value a)
               /\ (2 <? PrimFloat.abs (TrendDetector.z_score a))%float = true
               /\ TrendDetector.severity a
                  = if (3 <? PrimFloat.abs (TrendDetector.z_score a))%float
                    then "high" else "medium")
       (TrendDetector.detect_anomalies metrics)
  /\ (forall i v,
        3 <= length metrics -> metrics !! i = Some v ->
        (0 <? std)%float = true -> (2 <? PrimFloat.abs (z_of v))%float = true ->
        exists a, In a (TrendDetector.detect_anomalies metrics)
                  /\ TrendDetector.index a = i /\ TrendDetector.value a = v).
Proof.
  cbv zeta. unfold TrendDetector.detect_anomalies.
  destruct (length metrics <? 3) eqn:Elen.
  - apply Nat.ltb_lt in Elen. split; [constructor|]. split; [constructor|].
    intros i v Hlen. lia.
  - apply Nat.ltb_ge in Elen. split; [|split].
    + apply (concat_imap_sorted _ _ (fun i => i)).
      * intros i j Hij. exact Hij.
      * intros i a. apply anomaly_at_short.
      * intros i a b. apply anomaly_at_index.
    + apply List.Forall_forall. intros a Ha.
      apply In_concat_imap in Ha as (i & v & Hl & Ha).
      unfold TrendDetector.anomaly_at in Ha.
      destruct (0 <? PyNum.np_std metrics)%float eqn:Estd.
      * destruct (2 <? _)%float eqn:Ez; [|destruct Ha].
        destruct Ha as [<-|[]].
        cbn [TrendDetector.index TrendDetector.value TrendDetector.z_score
               TrendDetector.severity].
        repeat split; assumption.
      * destruct (2 <? _)%float eqn:Ez; [|destruct Ha]. vm_compute in Ez. discriminate Ez.
    + intros i v _ Hl Hstd Hz.
      exists (TrendDetector.mkAnomaly i v ((v - PyNum.np_mean metrics) / PyNum.np_std metrics)
                (if (3 <? PrimFloat.abs
                            ((v - PyNum.np_mean metrics) / PyNum.np_std metrics))%float
                 then "high" else "medium")).
      split; [|split; reflexivity].
      apply In_concat_imap. exists i, v. split; [exact Hl|].
      unfold TrendDetector.anomaly_at. rewrite Hstd, Hz. now left.
Qed.

Lemma detect_anomalies_entries_witness :
  exists a,
    In a (TrendDetector.detect_anomalies spiky_series)
    /\ TrendDetector.index a = 9
    /\ TrendDetector.value a = 100%float.
Proof.
  destruct (detect_anomalies_entries spiky_series) as (_ & _ & Hall).
  apply (Hall 9 100%float).
  - vm_compute. lia.
  - reflexivity.
  - vm_compute. reflexivity.
  - vm_compute. reflexivity.
Defined.

(** ** Reversal, stripping and slices of strings *)

Section Reversal.

Lemma rev_app_append (s1 s2 : string) : String.rev_app s1 s2 = String.rev s1 +:+ s2.
Proof.
  unfold String.rev. revert s2. induction s1 as [|a s1 IH]; intros s2; [reflexivity|].
  cbn [String.rev_app]. rewrite (IH (String a s2)), (IH (String a "")), append_assoc.
  reflexivity.
Qed.

Lemma rev_cons (a : ascii) (s : string) : String.rev (String a s) = String.rev s +:+ String a "".
Proof. unfold String.rev at 1. cbn [String.rev_app]. apply rev_app_append. Qed.

Lemma rev_append (a b : string) : String.rev (a +:+ b) = String.rev b +:+ String.rev a.
Proof.
  induction a as [|x a IH]; [now rewrite append_nil_l, append_nil_r|].
  now rewrite append_cons, !rev_cons, IH, append_assoc.
Qed.

Lemma rev_involutive (s : string) : String.rev (String.rev s) = s.
Proof.
  induction s as [|a s IH]; [reflexivity|]. now rewrite rev_cons, rev_append, IH.
Qed.

Lemma length_rev (s : string) : String.length (String.rev s) = String.length s.
Proof.
  induction s as [|a s IH]; [reflexivity|].
  rewrite rev_cons, length_append, IH. cbn [String.length]. lia.
Qed.

Lemma lower_rev (s : string) : PyStr.lower (String.rev s) = String.rev (PyStr.lower s).
Proof.
  induction s as [|a s IH]; [reflexivity|].
  cbn [PyStr.lower]. now rewrite !rev_cons, lower_append, IH.
Qed.

Lemma length_lower (s : string) : String.length (PyStr.lower s) = String.length s.
Proof. induction s as [|a s IH]; [reflexivity|]. cbn. now rewrite IH. Qed.

End Reversal.

Section Stripping.

Context (p : ascii -> bool).

Lemma lstrip_by_suffix (s : string) :
  exists pre, s = pre +:+ PyStr.lstrip_by p s
              /\ String.length (PyStr.lstrip_by p s) <= String.length s.
Proof.
  induction s as [|c s (pre & IH & Hlen)]; [now exists ""|].
  cbn [PyStr.lstrip_by]. destruct (p c).
  - exists (String c pre). rewrite append_cons. split; [now f_equal|].
    cbn [String.length]. lia.
  - exists "". split; [reflexivity | lia].
Qed.

Lemma lstrip_by_head (s : string) : head_fails p (PyStr.lstrip_by p s).
Proof.
  induction s as [|c s IH]; [exact I|].
  cbn [PyStr.lstrip_by]. destruct (p c) eqn:E; [exact IH | exact E].
Qed.

Lemma lstrip_by_fixed (s : string) : head_fails p s -> PyStr.lstrip_by p s = s.
Proof. destruct s as [|c s]; [reflexivity|]. cbn. now intros ->. Qed.

Lemma lstrip_by_fixed_inv (s : string) : PyStr.lstrip_by p s = s -> head_fails p s.
Proof. intros H. rewrite <- H. apply lstrip_by_head. Qed.

Lemma lstrip_by_append (a x : string) :
  x <> "" -> head_fails p x -> PyStr.lstrip_by p (a +:+ x) = PyStr.lstrip_by p a +:+ x.
Proof.
  intros Hne Hx. induction a as [|c a IH]; [now apply lstrip_by_fixed|].
  rewrite append_cons. cbn [PyStr.lstrip_by]. destruct (p c); [exact IH|].
  now rewrite append_cons.
Qed.

Lemma rstrip_by_prefix (s : string) :
  exists post, s = PyStr.rstrip_by p s +:+ post
               /\ String.length (PyStr.rstrip_by p s) <= String.length s.
Proof.
  unfold PyStr.rstrip_by.
  destruct (lstrip_by_suffix (String.rev s)) as (pre & H & Hlen).
  exists (String.rev pre). split.
  - rewrite <- rev_append, <- H. now rewrite rev_involutive.
  - rewrite length_rev. now rewrite length_rev in Hlen.
Qed.

Lemma rstrip_by_fixed (s : string) :
  head_fails p (String.rev s) -> PyStr.rstrip_by p s = s.
Proof.
  intros H. unfold PyStr.rstrip_by. rewrite lstrip_by_fixed by exact H.
  apply rev_involutive.
Qed.

Lemma rstrip_by_append (x b : string) :
  x <> "" -> head_fails p (String.rev x) ->
  PyStr.rstrip_by p (x +:+ b) = x +:+ PyStr.rstrip_by p b.
Proof.
  intros Hne Hx. unfold PyStr.rstrip_by.
  rewrite rev_append, lstrip_by_append, rev_append, rev_involutive; [reflexivity| |exact Hx].
  intros Hrev. apply Hne. rewrite <- (rev_involutive x), Hrev. reflexivity.
Qed.

Lemma head_fails_append (x b : string) : x <> "" -> head_fails p x -> head_fails p (x +:+ b).
Proof. destruct x; [now intros [] | now rewrite append_cons]. Qed.

Lemma head_fails_prefix (x b : string) : head_fails p (x +:+ b) -> x <> "" -> head_fails p x.
Proof. destruct x; [now intros _ [] | now rewrite append_cons]. Qed.

End Stripping.

Section Strip.

(** [strip] cuts white space from both ends and nothing else. *)
Lemma strip_edges (s : string) :
  head_fails PyStr.is_space (PyStr.strip s)
  /\ head_fails PyStr.is_space (String.rev (PyStr.strip s))
  /\ String.length (PyStr.strip s) <= String.length s.
Proof.
  unfold PyStr.strip. set (u := PyStr.lstrip_by PyStr.is_space s).
  destruct (rstrip_by_prefix PyStr.is_space u) as (post & Hu & Hlen).
  destruct (lstrip_by_suffix PyStr.is_space s) as (pre & _ & Hlen').
  split; [|split].
  - destruct (PyStr.rstrip_by PyStr.is_space u) as [|c t] eqn:E; [exact I|].
    pose proof (lstrip_by_head PyStr.is_space s) as Hh. fold u in Hh.
    rewrite Hu, append_cons in Hh. exact Hh.
  - unfold PyStr.rstrip_by. rewrite rev_involutive. apply lstrip_by_head.
  - fold u in Hlen'. lia.
Qed.

Lemma strip_fixed (s : string) :
  head_fails PyStr.is_space s -> head_fails PyStr.is_space (String.rev s) ->
  PyStr.strip s = s.
Proof.
  intros Hh Hr. unfold PyStr.strip. rewrite lstrip_by_fixed by exact Hh.
  now apply rstrip_by_fixed.
Qed.

Lemma strip_idempotent (s : string) : stripped (PyStr.strip s).
Proof. destruct (strip_edges s) as (Hh & Hr & _). now apply strip_fixed. Qed.

Lemma stripped_edges (s : string) :
  stripped s ->
  head_fails PyStr.is_space s /\ head_fails PyStr.is_space (String.rev s).
Proof.
  intros H. destruct (strip_edges s) as (Hh & Hr & _). rewrite H in Hh, Hr. now split.
Qed.

(** Around a part that has no white space at its ends, [strip] works on
    what stands before and behind. *)
Lemma strip_around (a x b : string) :
  x <> "" -> head_fails PyStr.is_space x -> head_fails PyStr.is_space (String.rev x) ->
  PyStr.strip (a +:+ x +:+ b)
  = PyStr.lstrip_by PyStr.is_space a +:+ x +:+ PyStr.rstrip_by PyStr.is_space b.
Proof.
  intros Hne Hh Hr. unfold PyStr.strip.
  rewrite lstrip_by_append;
    [| destruct x; [now destruct Hne | rewrite append_cons; discriminate]
     | now apply head_fails_append].
  rewrite <- append_assoc. rewrite rstrip_by_append.
  - now rewrite append_assoc.
  - destruct x; [now destruct Hne|]. destruct (PyStr.lstrip_by _ a); discriminate.
  - rewrite rev_append. apply head_fails_append; [|exact Hr].
    intros Hrev. apply Hne. rewrite <- (rev_involutive x), Hrev. reflexivity.
Qed.

Lemma is_space_lower_char (c : ascii) :
  PyStr.is_space (PyStr.lower_char c) = PyStr.is_space c.
Proof.
  destruct c as [[] [] [] [] [] [] [] []]; vm_compute; reflexivity.
Qed.

Lemma head_fails_lower (s : string) :
  head_fails PyStr.is_space (PyStr.lower s) <-> head_fails PyStr.is_space s.
Proof.
  destruct s as [|c s]; [reflexivity|]. cbn [PyStr.lower head_fails].
  now rewrite is_space_lower_char.
Qed.

End Strip.

Section Slices.

Lemma length_str_take (n : nat) (s : string) :
  String.length (PyStr.take n s) = Nat.min n (String.length s).
Proof.
  revert s. induction n as [|n IH]; intros [|c s]; cbn; try reflexivity. now rewrite IH.
Qed.

Lemma drop_append_length (a b : string) : PyStr.drop (String.length a) (a +:+ b) = b.
Proof. induction a as [|c a IH]; [now destruct b | exact IH]. Qed.

Lemma drop_append_le (n : nat) (a b : string) :
  n <= String.length a -> PyStr.drop n (a +:+ b) = PyStr.drop n a +:+ b.
Proof.
  revert a. induction n as [|n IH]; intros a Hn; [now destruct a, b|].
  destruct a as [|c a]; [cbn in Hn; lia|]. rewrite append_cons. cbn [PyStr.drop].
  apply IH. cbn in Hn. lia.
Qed.

Lemma take_append_ge (n : nat) (a b : string) :
  String.length a <= n ->
  PyStr.take n (a +:+ b) = a +:+ PyStr.take (n - String.length a) b.
Proof.
  revert n. induction a as [|c a IH]; intros n Hn.
  - rewrite !append_nil_l. cbn [String.length]. now rewrite Nat.sub_0_r.
  - destruct n as [|n]; [cbn in Hn; lia|]. rewrite !append_cons. cbn [PyStr.take String.length].
    rewrite IH by (cbn in Hn; lia). reflexivity.
Qed.

Lemma drop_suffix (n : nat) (s : string) :
  exists pre, s = pre +:+ PyStr.drop n s /\ String.length pre = Nat.min n (String.length s).
Proof.
  revert s. induction n as [|n IH]; intros s.
  - exists "". split; [now destruct s | reflexivity].
  - destruct s as [|c s]; [now exists ""|].
    destruct (IH s) as (pre & H & Hlen). exists (String c pre).
    cbn [PyStr.drop String.length]. rewrite append_cons, <- H, Hlen. now split.
Qed.

(** What [find] returns: the position of the first match. *)
Lemma find_spec (sub s : string) :
  match PyStr.find sub s with
  | Some i =>
      exists pre rest,
        s = pre +:+ rest /\ String.length pre = i /\ PyStr.startswith sub rest = true
  | None => PyStr.contains sub s = false
  end.
Proof.
  induction s as [|c s IH]; cbn [PyStr.find PyStr.contains].
  - destruct (PyStr.startswith sub "") eqn:E; [|reflexivity].
    now exists "", "".
  - destruct (PyStr.startswith sub (String c s)) eqn:E.
    + now exists "", (String c s).
    + destruct (PyStr.find sub s) as [i|]; cbn [option_map orb].
      * destruct IH as (pre & rest & -> & Hlen & Hs).
        exists (String c pre), rest. cbn [String.length]. now rewrite Hlen.
      * exact IH.
Qed.

End Slices.

Section ContextWindow.

Import MetricsExtractor.

(** The text around the first occurrence of the term, as [_get_context]
    cuts it before stripping. *)
Lemma get_context_window (text term : string) (index : nat) :
  PyStr.find (PyStr.lower term) (PyStr.lower text) = Some index ->
  exists before occurrence behind,
    PyStr.slice (index - 50)
      (Nat.min (String.length text) (index + String.length term + 50)) text
    = before +:+ occurrence +:+ behind
    /\ PyStr.lower occurrence = PyStr.lower term
    /\ String.length before <= 50
    /\ String.length behind <= 50.
Proof.
  intros Hfind. pose proof (find_spec (PyStr.lower term) (PyStr.lower text)) as Hs.
  rewrite Hfind in Hs. clear Hfind. destruct Hs as (pre' & rest' & Hsplit & Hlen & Hstart).
  apply startswith_iff in Hstart as (post' & ->).
  destruct (lower_split _ _ _ Hsplit) as (pre & rest & -> & Hpre & Hrest).
  destruct (lower_split _ _ _ Hrest) as (occurrence & post & -> & Hocc & _).
  assert (Hi : String.length pre = index) by now rewrite <- Hlen, <- Hpre, length_lower.
  assert (Ho : String.length occurrence = String.length term).
  { now rewrite <- (length_lower occurrence), Hocc, length_lower. }
  destruct (drop_suffix (index - 50) pre) as (cut & Hcut & Hcutlen).
  assert (Hd : String.length (PyStr.drop (index - 50) pre) = index - (index - 50)).
  { apply (f_equal String.length) in Hcut. rewrite length_append in Hcut. lia. }
  exists (PyStr.drop (index - 50) pre), occurrence,
    (PyStr.take (Nat.min (String.length post) 50) post).
  split; [|split; [exact Hocc|split]].
  - unfold PyStr.slice. rewrite drop_append_le by lia.
    rewrite !length_append, Hi, Ho.
    replace (Nat.min (index + (String.length term + String.length post))
               (index + String.length term + 50) - (index - 50))
      with (String.length (PyStr.drop (index - 50) pre)
            + (String.length occurrence + Nat.min (String.length post) 50)) by lia.
    rewrite take_append_ge by lia. f_equal.
    rewrite Nat.add_comm, Nat.add_sub.
    rewrite take_append_ge by lia. f_equal.
    now rewrite Nat.add_comm, Nat.add_sub.
  - lia.
  - rewrite length_str_take. lia.
Qed.

End ContextWindow.

(** ** The context of a term and the trends of a text *)

Section Passages.

Lemma take_drop_string (n : nat) (s : string) : s = PyStr.take n s +:+ PyStr.drop n s.
Proof.
  revert s. induction n as [|n IH]; intros [|c s]; try reflexivity.
  cbn [PyStr.take PyStr.drop]. rewrite append_cons. f_equal. apply IH.
Qed.

Lemma contains_refl (s : string) : PyStr.contains s s = true.
Proof. apply contains_iff. exists "", "". now rewrite append_nil_r. Qed.

Lemma contains_trans (a b c : string) :
  PyStr.contains a b = true -> PyStr.contains b c = true -> PyStr.contains a c = true.
Proof.
  rewrite !contains_iff. intros (p1 & q1 & ->) (p2 & q2 & ->).
  exists (p2 +:+ p1), (q1 +:+ q2). now rewrite !append_assoc.
Qed.

Lemma contains_slice (a b : nat) (s : string) : PyStr.contains (PyStr.slice a b s) s = true.
Proof.
  apply contains_iff. unfold PyStr.slice.
  destruct (drop_suffix a s) as (pre & H & _).
  exists pre, (PyStr.drop (b - a) (PyStr.drop a s)).
  now rewrite <- take_drop_string.
Qed.

Lemma contains_strip (s : string) : PyStr.contains (PyStr.strip s) s = true.
Proof.
  apply contains_iff. unfold PyStr.strip.
  destruct (lstrip_by_suffix PyStr.is_space s) as (pre & H & _).
  destruct (rstrip_by_prefix PyStr.is_space (PyStr.lstrip_by PyStr.is_space s))
    as (post & H' & _).
  exists pre, post. now rewrite <- H'.
Qed.

Lemma contains_empty (s : string) : PyStr.contains "" s = true.
Proof. now destruct s. Qed.

End Passages.

Section GetContext.

Import MetricsExtractor.

Lemma get_context_found (text term : string) (index : nat) :
  PyStr.find (PyStr.lower term) (PyStr.lower text) = Some index ->
  String.length (_get_context text term) <= String.length term + 100
  /\ (stripped term ->
      PyStr.contains (PyStr.lower term) (PyStr.lower (_get_context text term)) = true).
Proof.
  intros Hfind. unfold _get_context. rewrite Hfind.
  destruct (get_context_window text term index Hfind)
    as (before & occurrence & behind & -> & Hocc & Hb & Ha).
  assert (Ho : String.length occurrence = String.length term).
  { now rewrite <- (length_lower occurrence), Hocc, length_lower. }
  split.
  - destruct (strip_edges (before +:+ occurrence +:+ behind)) as (_ & _ & Hlen).
    rewrite !length_append in Hlen. lia.
  - intros Hterm. destruct term as [|c term]; [apply contains_empty|].
    destruct (stripped_edges _ Hterm) as [Hh Hr].
    assert (Hne : occurrence <> "") by (intros ->; discriminate Ho).
    rewrite strip_around.
    + apply contains_iff.
      exists (PyStr.lower (PyStr.lstrip_by PyStr.is_space before)),
        (PyStr.lower (PyStr.rstrip_by PyStr.is_space behind)).
      now rewrite !lower_append, Hocc.
    + exact Hne.
    + apply head_fails_lower. rewrite Hocc. now apply head_fails_lower.
    + apply head_fails_lower. rewrite lower_rev, Hocc, <- lower_rev.
      now apply head_fails_lower.
Qed.

Lemma get_context_length (text term : string) :
  String.length (_get_context text term) <= String.length term + 100.
Proof.
  destruct (PyStr.find (PyStr.lower term) (PyStr.lower text)) as [index|] eqn:Hfind.
  - exact (proj1 (get_context_found text term index Hfind)).
  - unfold _get_context. rewrite Hfind. cbn. lia.
Qed.

Lemma get_context_passage (text term : string) :
  PyStr.contains (_get_context text term) text = true.
Proof.
  unfold _get_context.
  destruct (PyStr.find (PyStr.lower term) (PyStr.lower text)); [|apply contains_empty].
  eapply contains_trans; [apply contains_strip | apply contains_slice].
Qed.

Lemma get_context_quotes (text term : string) :
  PyStr.contains (PyStr.lower term) (PyStr.lower text) = true -> stripped term ->
  PyStr.contains (PyStr.lower term) (PyStr.lower (_get_context text term)) = true.
Proof.
  intros Hyes Hterm. pose proof (find_spec (PyStr.lower term) (PyStr.lower text)) as Hs.
  destruct (PyStr.find (PyStr.lower term) (PyStr.lower text)) as [index|] eqn:Hfind.
  - exact (proj2 (get_context_found text term index Hfind) Hterm).
  - rewrite Hs in Hyes. discriminate Hyes.
Qed.

End GetContext.

(** X12: the context that [_get_context] cuts around a term is a passage of
    the text, without white space at its ends, of at most 100 characters
    more than the term.  It is empty when the text does not contain the term,
    whatever the case of the letters; when it does, and the term has no white
    space at its ends, the context contains the term, again whatever the
    case. *)
Theorem get_context_spec (text term : string) :
  let found := MetricsExtractor._get_context text term in
  String.length found <= String.length term + 100
  /\ stripped found
  /\ PyStr.contains found text = true
  /\ (PyStr.contains (PyStr.lower term) (PyStr.lower text) = false -> found = "")
  /\ (PyStr.contains (PyStr.lower term) (PyStr.lower text) = true -> stripped term ->
      PyStr.contains (PyStr.lower term) (PyStr.lower found) = true).
Proof.
  cbv zeta.
  split; [apply get_context_length|].
  split.
  { unfold MetricsExtractor._get_context.
    destruct (PyStr.find (PyStr.lower term) (PyStr.lower text));
      [apply strip_idempotent | reflexivity]. }
  split; [apply get_context_passage|].
  split; [|apply get_context_quotes].
  intros Hno. pose proof (find_spec (PyStr.lower term) (PyStr.lower text)) as Hs.
  unfold MetricsExtractor._get_context.
  destruct (PyStr.find (PyStr.lower term) (PyStr.lower text)) as [index|]; [|reflexivity].
  destruct Hs as (pre & rest & Hsplit & _ & Hstart).
  apply startswith_iff in Hstart as (post & ->).
  assert (Hyes : PyStr.contains (PyStr.lower term) (PyStr.lower text) = true).
  { apply contains_iff. now exists pre, post. }
  rewrite Hyes in Hno. discriminate Hno.
Qed.

Lemma get_context_spec_witness :
  MetricsExtractor._get_context "Engagement saw strong Growth this quarter" "growth"
  = "Engagement saw strong Growth this quarter"
  /\ PyStr.contains "growth"
       (PyStr.lower
          (MetricsExtractor._get_context "Engagement saw strong Growth this quarter" "growth"))
     = true.
Proof.
  split; [vm_compute; reflexivity|].
  destruct (get_context_spec "Engagement saw strong Growth this quarter" "growth")
    as (_ & _ & _ & _ & Hin).
  apply Hin; vm_compute; reflexivity.
Defined.

Section Trends.

Import MetricsExtractor.








End Trends.


(** ** The comment parser *)

Section Counting.

Lemma count_char_append c (a b : string) :
  PyStr.count_char c (a +:+ b) = PyStr.count_char c a + PyStr.count_char c b.
Proof.
  induction a as [|x a IH]; [reflexivity|].
  rewrite append_cons. cbn [PyStr.count_char]. rewrite IH. lia.
Qed.

Lemma free_of_part c (part s : string) :
  PyStr.contains part s = true -> free_of c s -> free_of c part.
Proof.
  rewrite contains_iff. intros (pre & post & ->). unfold free_of.
  rewrite !count_char_append. lia.
Qed.

Lemma free_of_cons c x (s : string) :
  free_of c (String x s) <-> Ascii.eqb x c = false /\ free_of c s.
Proof.
  unfold free_of. cbn [PyStr.count_char]. destruct (Ascii.eqb x c).
  - split; [discriminate | now intros [H _]].
  - split; [now intros H | now intros [_ H]].
Qed.

Lemma free_of_rev c (s : string) : free_of c s -> free_of c (String.rev s).
Proof.
  induction s as [|x s IH]; [easy|].
  rewrite free_of_cons, rev_cons. intros [Hx Hs]. unfold free_of.
  rewrite count_char_append. rewrite (IH Hs). cbn. now rewrite Hx.
Qed.

End Counting.

Section Splitting.

Context (sep : ascii).

Lemma split_char_nonempty (s : string) : PyStr.split_char sep s <> [].
Proof.
  destruct s as [|c s]; cbn [PyStr.split_char]; [discriminate|].
  destruct (Ascii.eqb c sep); [discriminate|].
  destruct (PyStr.split_char sep s); discriminate.
Qed.

Lemma split_char_free (s : string) : Forall (free_of sep) (PyStr.split_char sep s).
Proof.
  induction s as [|c s IH]; cbn [PyStr.split_char]; [repeat constructor|].
  destruct (Ascii.eqb c sep) eqn:E; [constructor; [reflexivity | exact IH]|].
  destruct (PyStr.split_char sep s) as [|w ws].
  - constructor; [|constructor]. now apply free_of_cons.
  - apply Forall_cons in IH as [Hw Hws]. constructor; [|exact Hws].
    now apply free_of_cons.
Qed.

(** [sep.join(s.split(sep)) == s] *)
Lemma join_split_char (s : string) :
  PyStr.join (String sep "") (PyStr.split_char sep s) = s.
Proof.
  induction s as [|c s IH]; cbn [PyStr.split_char]; [reflexivity|].
  pose proof (split_char_nonempty s) as Hne.
  destruct (Ascii.eqb c sep) eqn:E.
  - apply Ascii.eqb_eq in E. subst c.
    destruct (PyStr.split_char sep s) as [|w ws]; [now destruct Hne|].
    rewrite join_cons, IH. reflexivity.
  - destruct (PyStr.split_char sep s) as [|w ws]; [now destruct Hne|].
    destruct ws as [|w' ws].
    + cbn [PyStr.join] in *. now rewrite IH.
    + rewrite join_cons in *. rewrite append_cons. now rewrite IH.
Qed.

Lemma split_char_single (s : string) : free_of sep s -> PyStr.split_char sep s = [s].
Proof.
  induction s as [|c s IH]; [reflexivity|].
  rewrite free_of_cons. intros [Hc Hs]. cbn [PyStr.split_char]. now rewrite Hc, (IH Hs).
Qed.

Lemma split_char_append (p t : string) :
  free_of sep p ->
  PyStr.split_char sep (p +:+ String sep t) = p :: PyStr.split_char sep t.
Proof.
  induction p as [|c p IH].
  - intros _. rewrite append_nil_l. cbn [PyStr.split_char]. now rewrite Ascii.eqb_refl.
  - rewrite free_of_cons. intros [Hc Hp]. rewrite append_cons. cbn [PyStr.split_char].
    now rewrite Hc, (IH Hp).
Qed.

(** [sep.join(parts).split(sep) == parts] when no part holds the
    separator. *)
Lemma split_char_join (parts : list string) :
  parts <> [] -> Forall (free_of sep) parts ->
  PyStr.split_char sep (PyStr.join (String sep "") parts) = parts.
Proof.
  induction parts as [|p parts IH]; [now intros []|].
  intros _ Hfree. apply Forall_cons in Hfree as [Hp Hparts].
  destruct parts as [|q parts]; [now apply split_char_single|].
  rewrite join_cons, append_cons, append_nil_l, split_char_append by exact Hp.
  f_equal. now apply IH.
Qed.

End Splitting.

Lemma In_join_contains sep (parts : list string) part :
  In part parts -> PyStr.contains part (PyStr.join sep parts) = true.
Proof.
  induction parts as [|p parts IH]; [intros []|].
  intros Hin. destruct parts as [|q parts].
  - destruct Hin as [->|[]]. apply contains_refl.
  - rewrite join_cons. apply contains_iff. destruct Hin as [->|Hin].
    + exists "", (sep +:+ PyStr.join sep (q :: parts)). reflexivity.
    + apply IH, contains_iff in Hin as (pre & post & ->).
      exists (p +:+ sep +:+ pre), post. now rewrite !append_assoc.
Qed.

Section QuotedComments.

Import CommentParser.

(** What [findall_quoted] yields, with [read] read since the opening mark:
    a match is free of the mark and is a passage of the text, the first one
    starting with what was read. *)
Lemma findall_quoted_parts (s : string) :
  (Forall (fun found => free_of quote found /\ PyStr.contains found s = true)
     (findall_quoted None s))
  /\ forall read,
       free_of quote read ->
       Forall (fun found =>
                 free_of quote found
                 /\ (PyStr.contains found s = true
                     \/ exists p rest,
                          s = p +:+ String quote rest /\ found = String.rev read +:+ p))
         (findall_quoted (Some read) s).
Proof.
  induction s as [|c s [IHn IHs]]; [split; [constructor | intros; constructor]|].
  assert (Htail : forall part, PyStr.contains part s = true ->
                               PyStr.contains part (String c s) = true).
  { intros part Hp. cbn [PyStr.contains]. rewrite Hp. apply orb_true_r. }
  split.
  - cbn [findall_quoted]. destruct (Ascii.eqb c quote) eqn:E.
    + specialize (IHs "" eq_refl). eapply Forall_impl; [exact IHs|]. cbv beta.
      intros found [Hf [Hp|(p & rest & -> & ->)]]; (split; [exact Hf|]); [auto|].
      change (String.rev "" +:+ p) with p. apply contains_iff.
      exists (String c ""), (String quote rest). reflexivity.
    + eapply Forall_impl; [exact IHn|]. cbv beta. intros found [Hf Hp]. auto.
  - intros read Hread. cbn [findall_quoted]. destruct (Ascii.eqb c quote) eqn:E.
    + apply Ascii.eqb_eq in E. subst c. constructor.
      * split; [now apply free_of_rev|]. right. exists "", s.
        split; [reflexivity | now rewrite append_nil_r].
      * eapply Forall_impl; [exact IHn|]. cbv beta. intros found [Hf Hp]. auto.
    + assert (Hread' : free_of quote (String c read)) by now apply free_of_cons.
      specialize (IHs _ Hread'). eapply Forall_impl; [exact IHs|]. cbv beta.
      intros found [Hf [Hp|(p & rest & -> & ->)]]; (split; [exact Hf|]); [auto|].
      right. exists (String c p), rest. split; [reflexivity|].
      now rewrite rev_cons, append_assoc.
Qed.

Lemma keep_comments_spec (candidates : list string) :
  StronglySorted lt (map id (keep_comments candidates))
  /\ Forall (fun comment =>
               text comment <> ""
               /\ stripped (text comment)
               /\ length comment = String.length (text comment)
               /\ exists candidate,
                    candidates !! (id comment - 1) = Some candidate
                    /\ 1 <= id comment
                    /\ text comment = PyStr.strip candidate)
       (keep_comments candidates).
Proof.
  unfold keep_comments. split.
  - apply (concat_imap_sorted _ _ (fun i => i + 1)).
    + intros i j Hij. lia.
    + intros i a. destruct (PyStr.strip a); cbn; lia.
    + intros i a b. destruct (PyStr.strip a); [intros [] | intros [<-|[]]; reflexivity].
  - apply List.Forall_forall. intros comment Hc.
    apply In_concat_imap in Hc as (i & candidate & Hl & Hc).
    destruct (PyStr.strip candidate) as [|c s] eqn:E; [destruct Hc|].
    destruct Hc as [<-|[]]. cbn [id text length].
    split; [discriminate|]. split; [rewrite <- E; apply strip_idempotent|].
    split; [reflexivity|]. exists candidate.
    rewrite Nat.add_sub. split; [exact Hl|]. split; [lia | now rewrite E].
Qed.

End QuotedComments.

(** X14: every comment that [parse_comments] returns has a text that is not
    empty, has no white space at its ends and is a passage of the input;
    its length is that of the text; the numbers of the comments start at 1
    or above and grow.  Read as quoted comments, no text holds a quotation
    mark; read line by line, no text holds a line feed. *)
Theorem parse_comments_spec (input : string) :
  let comments := CommentParser.parse_comments input in
  StronglySorted lt (map CommentParser.id comments)
  /\ Forall (fun comment =>
               CommentParser.text comment <> ""
               /\ stripped (CommentParser.text comment)
               /\ CommentParser.length comment = String.length (CommentParser.text comment)
               /\ 1 <= CommentParser.id comment
               /\ PyStr.contains (CommentParser.text comment) input = true
               /\ free_of (if quoted_mode input then CommentParser.quote else ascii_of_N 10)
                    (CommentParser.text comment))
       comments.
Proof.
  cbv zeta. unfold CommentParser.parse_comments. fold (quoted_mode input).
  destruct (quoted_mode input).
  - destruct (keep_comments_spec (CommentParser.findall_quoted None input)) as [Hs Hf].
    split; [exact Hs|]. eapply Forall_impl; [exact Hf|]. cbv beta.
    intros comment (Hne & Hstr & Hlen & candidate & Hl & Hid & Htext).
    repeat (split; [assumption|]).
    destruct (findall_quoted_parts input) as [Hparts _].
    rewrite List.Forall_forall in Hparts.
    destruct (Hparts candidate) as [Hfree Hpass].
    { apply list_elem_of_In. eapply list_elem_of_lookup_2. exact Hl. }
    assert (Hin : PyStr.contains (CommentParser.text comment) candidate = true)
      by (rewrite Htext; apply contains_strip).
    split; [now apply (contains_trans _ candidate) | now apply (free_of_part _ _ candidate)].
  - destruct (keep_comments_spec (PyStr.split_char (ascii_of_N 10) (PyStr.strip input)))
      as [Hs Hf].
    split; [exact Hs|]. eapply Forall_impl; [exact Hf|]. cbv beta.
    intros comment (Hne & Hstr & Hlen & candidate & Hl & Hid & Htext).
    repeat (split; [assumption|]).
    assert (Hc : In candidate (PyStr.split_char (ascii_of_N 10) (PyStr.strip input))).
    { apply list_elem_of_In. eapply list_elem_of_lookup_2. exact Hl. }
    assert (Hin : PyStr.contains (CommentParser.text comment) candidate = true)
      by (rewrite Htext; apply contains_strip).
    split.
    + apply (contains_trans _ candidate); [exact Hin|].
      apply (contains_trans _ (PyStr.strip input)); [|apply contains_strip].
      pose proof (In_join_contains (String (ascii_of_N 10) "") _ _ Hc) as Hj.
      now rewrite join_split_char in Hj.
    + apply (free_of_part _ _ candidate); [exact Hin|].
      pose proof (split_char_free (ascii_of_N 10) (PyStr.strip input)) as Hfree.
      rewrite List.Forall_forall in Hfree. now apply Hfree.
Qed.

(** ** The insights asked of the language model *)



(** ** Batches *)

Section Batches.

Import EmbeddingGenerator.

Lemma concat_slices {A} (n : nat) (l : list A) (k : nat) :
  concat (map (fun i => take n (drop i l)) (map (fun j => j * n) (seq 0 k)))
  = take (k * n) l.
Proof.
  induction k as [|k IH]; [reflexivity|].
  rewrite seq_S, !map_app, concat_app, IH. cbn [map concat plus].
  rewrite app_nil_r, take_take_drop. f_equal. lia.
Qed.

Lemma batch_count (n : nat) :
  (n + batch_size - 1) / batch_size * batch_size >= n
  /\ ((n + batch_size - 1) / batch_size - 1) * batch_size < n + (if n =? 0 then 1 else 0).
Proof.
  unfold batch_size.
  pose proof (Nat.div_mod_eq (n + 20 - 1) 20) as H.
  pose proof (Nat.mod_upper_bound (n + 20 - 1) 20) as Hm.
  destruct (n =? 0) eqn:E; [apply Nat.eqb_eq in E; subst; cbn; lia|].
  apply Nat.eqb_neq in E. lia.
Qed.

Lemma In_range_step (n i : nat) :
  In i (range_step n batch_size) <-> i < n /\ exists j, i = j * batch_size.
Proof.
  unfold range_step. rewrite in_map_iff. destruct (batch_count n) as [Hup Hlow].
  split.
  - intros (j & <- & Hj). apply in_seq in Hj. split; [|now exists j].
    destruct (n =? 0) eqn:E.
    + apply Nat.eqb_eq in E. subst n. cbn in Hj. lia.
    + unfold batch_size in *. nia.
  - intros (Hi & j & ->). exists j. split; [reflexivity|]. apply in_seq.
    unfold batch_size in *. lia.
Qed.

End Batches.

(** X16: the batches of [add_to_existing_index] cut the texts into runs of
    20: joined in order they give back the texts, none is empty, none holds
    more than 20 texts, and their number is the one announced.  When there
    is a metadata for each text, the batches of metadata are cut at the same
    places, so each text is embedded with its own metadata. *)
Theorem batches_partition (texts : list string) (metadatas : list (gmap string MetaValue)) :
  length metadatas = length texts ->
  let starts := EmbeddingGenerator.range_step (length texts) EmbeddingGenerator.batch_size in
  concat (map (EmbeddingGenerator.batch_texts texts) starts) = texts
  /\ length starts = (length texts + 19) / 20
  /\ Forall (fun i =>
               0 < length (EmbeddingGenerator.batch_texts texts i) <= 20
               /\ exists batch,
                    EmbeddingGenerator.batch_metadatas (Some metadatas) i = Some batch
                    /\ zip (EmbeddingGenerator.batch_texts texts i) batch
                       = take 20 (drop i (zip texts metadatas))) starts.
Proof.
  intros Hlen. cbv zeta. split; [|split].
  - unfold EmbeddingGenerator.range_step, EmbeddingGenerator.batch_texts.
    rewrite concat_slices. apply take_ge.
    destruct (batch_count (length texts)) as [Hup _]. lia.
  - unfold EmbeddingGenerator.range_step. rewrite length_map, length_seq.
    unfold EmbeddingGenerator.batch_size. f_equal. lia.
  - apply List.Forall_forall. intros i Hi.
    apply In_range_step in Hi as (Hi & _).
    unfold EmbeddingGenerator.batch_texts, EmbeddingGenerator.batch_metadatas,
      EmbeddingGenerator.batch_size.
    split; [rewrite length_take, length_drop; lia|].
    destruct metadatas as [|m ms]; [cbn in Hlen; lia|].
    eexists. split; [reflexivity|].
    now rewrite zip_with_drop, zip_with_take.
Qed.

Lemma batches_partition_witness :
  map (fun i => length (EmbeddingGenerator.batch_texts many_comments i))
    (EmbeddingGenerator.range_step (length many_comments) EmbeddingGenerator.batch_size)
  = [20; 20; 5]
  /\ concat (map (EmbeddingGenerator.batch_texts many_comments)
               (EmbeddingGenerator.range_step (length many_comments)
                  EmbeddingGenerator.batch_size))
     = many_comments.
Proof.
  split; [vm_compute; reflexivity|].
  destruct (batches_partition many_comments (replicate 45 ∅)) as (Hall & _).
  - vm_compute. reflexivity.
  - exact Hall.
Defined.

(** ** Adding to an index *)

Section IndexBuilding.

Import EmbeddingGenerator.

Context (self : Embedder).

Lemma world_eta (w : World) : mkWorld (fs w) (calls w) = w.
Proof. now destruct w. Qed.

(** The first step of [add_to_existing_index]: the store of the index if
    it loads; a directory that does not load is removed. *)
Lemma open_existing_index (index_name : string) (w : World) :
  exists events,
    bind (path_exists index_name)
      (fun found : bool =>
         if found
         then try_except_FileNotFoundError
                (bind (load_index index_name) (fun vectorstore => ret (Some vectorstore)))
                (ret None)
         else ret None) w
    = (mkWorld (without_unloadable w index_name) (calls w ++ events),
       Returned (loadable w index_name)).
Proof.
  unfold bind at 1, path_exists, without_unloadable, loadable.
  destruct (fs w !! index_name) as [[| |vs]|] eqn:E.
  - exists [EvLoadIndex index_name].
    unfold try_except_FileNotFoundError, bind, load_index, bind. rewrite log_logged.
    cbn [fs logged]. rewrite E. reflexivity.
  - exists [EvLoadIndex index_name].
    unfold try_except_FileNotFoundError, bind, load_index, bind. rewrite log_logged.
    cbn [fs logged]. rewrite E. reflexivity.
  - exists [EvLoadIndex index_name].
    unfold try_except_FileNotFoundError, bind, load_index, bind. rewrite log_logged.
    cbn [fs logged]. rewrite E. reflexivity.
  - exists []. cbn [ret]. rewrite app_nil_r, (delete_id _ _ E), world_eta. reflexivity.
Qed.

(** A turn of the loop changes nothing outside; it fails with the error
    of a service or hands on a store. *)
Lemma add_batch_outcome texts metadatas vectorstore i w w' r :
  add_batch self texts metadatas vectorstore i w = (w', r) ->
  w' = w /\ (r = Raised ServiceError \/ exists vs, r = Returned (Some vs)).
Proof.
  unfold add_batch, bind, call.
  destruct (create_documents self _ _) as [documents|]; cbn [ret raise];
    [|intros H; injection H as <- <-; auto].
  destruct vectorstore as [vs|].
  - destruct (add_documents self vs documents) as [vs'|]; cbn [ret raise];
      intros H; injection H as <- <-; eauto.
  - destruct (from_documents self documents) as [vs'|]; cbn [ret raise];
      intros H; injection H as <- <-; eauto.
Qed.

Lemma add_batches_outcome texts metadatas starts vectorstore w w' r :
  for_each starts (add_batch self texts metadatas) vectorstore w = (w', r) ->
  w' = w
  /\ match r with
     | Returned None => starts = [] /\ vectorstore = None
     | Returned (Some vs) => starts = [] -> vectorstore = Some vs
     | Raised e => e = ServiceError /\ starts <> []
     end.
Proof.
  revert vectorstore w. induction starts as [|i starts IH]; intros vectorstore w;
    cbn [for_each].
  - intros H. injection H as <- <-. split; [reflexivity|]. now destruct vectorstore.
  - unfold bind. destruct (add_batch self texts metadatas vectorstore i w) as [w1 r1] eqn:E.
    apply add_batch_outcome in E as [-> [->|(vs & ->)]].
    + intros H. injection H as <- <-. split; [reflexivity|]. split; [reflexivity|discriminate].
    + intros H. apply IH in H as [-> Hr]. split; [reflexivity|].
      destruct r as [[vs'|]|e].
      * discriminate.
      * destruct Hr as [_ Hr]. discriminate Hr.
      * destruct Hr as [-> _]. split; [reflexivity | discriminate].
Qed.

Lemma add_batches_total texts metadatas starts vectorstore w :
  embedder_answers self ->
  exists r,
    for_each starts (add_batch self texts metadatas) vectorstore w = (w, Returned r)
    /\ (starts <> [] -> r <> None).
Proof.
  intros (Hsplit & Hfrom & Hadd). revert vectorstore.
  induction starts as [|i starts IH]; intros vectorstore; cbn [for_each].
  - exists vectorstore. split; [reflexivity | now intros []].
  - unfold bind at 1, add_batch, bind at 1, call at 1.
    destruct (create_documents self _ _) as [documents|] eqn:E; [|now destruct (Hsplit _ _ E)].
    cbn [ret]. destruct vectorstore as [vs|].
    + unfold bind at 1, call. destruct (add_documents self vs documents) as [vs'|] eqn:Ea;
        [|now destruct (Hadd _ _ Ea)].
      cbn [ret]. destruct (IH (Some vs')) as (r & Hr & Hne). exists r. split; [exact Hr|].
      intros _. destruct starts as [|j starts]; [|apply Hne; discriminate].
      cbn in Hr. injection Hr as <-. discriminate.
    + unfold bind at 1, call. destruct (from_documents self documents) as [vs'|] eqn:Ea;
        [|now destruct (Hfrom _ Ea)].
      cbn [ret]. destruct (IH (Some vs')) as (r & Hr & Hne). exists r. split; [exact Hr|].
      intros _. destruct starts as [|j starts]; [|apply Hne; discriminate].
      cbn in Hr. injection Hr as <-. discriminate.
Qed.

Lemma range_step_nil (texts : list string) :
  range_step (length texts) batch_size = [] <-> texts = [].
Proof.
  split; [|now intros ->].
  destruct texts as [|t texts]; [reflexivity|]. intros H.
  assert (Hin : In 0 (range_step (length (t :: texts)) batch_size)).
  { apply In_range_step. cbn [length]. split; [lia | now exists 0]. }
  rewrite H in Hin. destruct Hin.
Qed.

Lemma bind_assoc {A B C} (m : M A) (f : A -> M B) (g : B -> M C) (w : World) :
  bind m (fun a => bind (f a) g) w = bind (bind m f) g w.
Proof. unfold bind. now destruct (m w) as [w1 [a|e]]. Qed.

(** The loop over the batches and the final save, from the store [start]. *)
Lemma add_and_save index_name texts metadatas (start : option VectorStore) w w' r :
  bind (for_each (range_step (length texts) batch_size) (add_batch self texts metadatas) start)
    (fun vectorstore =>
       match vectorstore with
       | Some vectorstore =>
           bind (save_index vectorstore index_name) (fun _ => ret (Some vectorstore))
       | None => ret None
       end) w = (w', r) ->
  match r with
  | Returned (Some vectorstore) =>
      w' = mkWorld (<[index_name := Loadable vectorstore]> (fs w)) (calls w)
      /\ (texts = [] -> start = Some vectorstore)
  | Returned None => texts = [] /\ start = None /\ w' = w
  | Raised e => e = ServiceError /\ texts <> [] /\ w' = w
  end.
Proof.
  unfold bind at 1.
  destruct (for_each _ _ start w) as [w1 r1] eqn:E.
  apply add_batches_outcome in E as [-> Hr].
  destruct r1 as [[vs|]|e].
  - unfold bind, save_index. intros H. injection H as <- <-. split; [reflexivity|].
    intros Hnil. apply Hr. now apply range_step_nil.
  - intros H. injection H as <- <-. destruct Hr as [Hnil ->].
    apply range_step_nil in Hnil. now repeat split.
  - intros H. injection H as <- <-. destruct Hr as [-> Hne]. repeat split; try reflexivity.
    intros Hnil. apply Hne. now apply range_step_nil.
Qed.

(** The three outcomes of [add_to_existing_index]. *)
Lemma add_to_existing_index_cases index_name texts metadatas w w' r :
  add_to_existing_index self index_name texts metadatas w = (w', r) ->
  match r with
  | Returned (Some vectorstore) =>
      fs w' = <[index_name := Loadable vectorstore]> (fs w)
      /\ (texts = [] -> loadable w index_name = Some vectorstore)
  | Returned None =>
      texts = [] /\ loadable w index_name = None /\ fs w' = delete index_name (fs w)
  | Raised e =>
      e = ServiceError /\ texts <> [] /\ fs w' = without_unloadable w index_name
  end.
Proof.
  unfold add_to_existing_index. rewrite bind_assoc.
  destruct (open_existing_index index_name w) as (events & Hopen).
  unfold bind at 1. rewrite Hopen. intros H.
  apply add_and_save in H. destruct r as [[vs|]|e].
  - destruct H as [-> Hstart]. cbn [fs]. split; [|exact Hstart].
    unfold without_unloadable. destruct (loadable w index_name); [reflexivity|].
    apply insert_delete_eq.
  - destruct H as (-> & Hstart & ->). cbn [fs]. unfold without_unloadable.
    now rewrite Hstart.
  - destruct H as (-> & Hne & ->). now repeat split.
Qed.

Lemma add_to_existing_index_total index_name texts metadatas w :
  embedder_answers self -> texts <> [] ->
  exists w' vectorstore,
    add_to_existing_index self index_name texts metadatas w
    = (w', Returned (Some vectorstore)).
Proof.
  intros Hans Hne. unfold add_to_existing_index. rewrite bind_assoc.
  destruct (open_existing_index index_name w) as (events & Hopen).
  unfold bind at 1. rewrite Hopen. unfold bind at 1.
  match goal with |- context [for_each ?starts ?body ?start ?w0] =>
    destruct (add_batches_total texts metadatas starts start w0 Hans) as (r & Hr & Hsome)
  end.
  rewrite Hr. destruct r as [vs|].
  - unfold bind, save_index. eauto.
  - destruct Hsome; [|reflexivity]. now rewrite range_step_nil.
Qed.

End IndexBuilding.

(** X17: whatever [add_to_existing_index] does, it leaves every other index
    alone.  When it returns a store, the index holds that store.  It returns
    no store only when there was no text and no index that loads, and then
    there is no directory.  When it fails, it fails with the error of a
    service and nothing was written: an index that loaded is what it was,
    and a directory that did not load is gone. *)
Theorem add_to_existing_index_safe (self : EmbeddingGenerator.Embedder) (index_name : string)
  (texts : list string) (metadatas : option (list (gmap string MetaValue)))
  (w w' : World) (r : Outcome (option VectorStore)) :
  EmbeddingGenerator.add_to_existing_index self index_name texts metadatas w = (w', r) ->
  (forall other, other <> index_name -> fs w' !! other = fs w !! other)
  /\ match r with
     | Returned (Some vectorstore) =>
         loadable w' index_name = Some vectorstore
         /\ (texts = [] -> loadable w index_name = Some vectorstore)
     | Returned None =>
         texts = [] /\ loadable w index_name = None /\ fs w' !! index_name = None
     | Raised e =>
         e = ServiceError /\ texts <> []
         /\ fs w' !! index_name = option_map Loadable (loadable w index_name)
     end.
Proof.
  intros H. apply add_to_existing_index_cases in H.
  destruct r as [[vs|]|e].
  - destruct H as [Hfs Hnil]. split.
    + intros other Hne. rewrite Hfs. now apply lookup_insert_ne.
    + split; [|exact Hnil]. unfold loadable. now rewrite Hfs, lookup_insert_eq.
  - destruct H as (Hnil & Hload & Hfs). split.
    + intros other Hne. rewrite Hfs. now apply lookup_delete_ne.
    + repeat split; try assumption. rewrite Hfs. apply lookup_delete_eq.
  - destruct H as (He & Hne & Hfs). split.
    + intros other Hother. rewrite Hfs. unfold without_unloadable.
      destruct (loadable w index_name); [reflexivity | now apply lookup_delete_ne].
    + repeat split; try assumption. rewrite Hfs. unfold without_unloadable, loadable.
      destruct (fs w !! index_name) as [[| |vs]|] eqn:E; cbn [option_map];
        rewrite ?lookup_delete_eq; try reflexivity. exact E.
Qed.

Lemma add_to_existing_index_safe_witness :
  exists w',
    EmbeddingGenerator.add_to_existing_index failing_embedder "brandbastion_comments"
      ["Too many ads lately"] None one_comment_world = (w', Raised ServiceError)
    /\ loadable w' "brandbastion_comments" = loadable one_comment_world "brandbastion_comments".
Proof.
  eexists. split; [vm_compute; reflexivity|].
  destruct (add_to_existing_index_safe failing_embedder "brandbastion_comments"
              ["Too many ads lately"] None one_comment_world _ _ eq_refl)
    as (_ & _ & _ & Hfs).
  exact (f_equal (fun dir => match dir with
                             | Some (Loadable vectorstore) => Some vectorstore
                             | _ => None
                             end) Hfs).
Defined.

(** X18: when the collaborators of the generator answer, adding texts to an
    index succeeds whatever the state of its directory, and the index then
    loads: [load_index] returns the store that was returned, without
    changing a directory, and [search_similar] answers from that store. *)
Theorem add_to_existing_index_round_trip (self : EmbeddingGenerator.Embedder)
  (index_name : string) (texts : list string)
  (metadatas : option (list (gmap string MetaValue))) (w : World) :
  embedder_answers self -> texts <> [] ->
  exists w' vectorstore,
    EmbeddingGenerator.add_to_existing_index self index_name texts metadatas w
    = (w', Returned (Some vectorstore))
    /\ EmbeddingGenerator.load_index index_name w'
       = (logged w' [EvLoadIndex index_name], Returned vectorstore)
    /\ forall query k hits,
         vectorstore query k = Some hits ->
         EmbeddingGenerator.search_similar index_name query k w'
         = (logged w' [EvLoadIndex index_name; EvSearch index_name query k],
            Returned (map (fun '(doc, score) =>
                             mkEvidence (page_content doc) (doc_metadata doc) score None None)
                        hits)).
Proof.
  intros Hans Hne.
  destruct (add_to_existing_index_total self index_name texts metadatas w Hans Hne)
    as (w' & vs & H).
  exists w', vs. split; [exact H|].
  apply add_to_existing_index_cases in H as [Hfs _].
  assert (Hload : EmbeddingGenerator.load_index index_name w'
                  = (logged w' [EvLoadIndex index_name], Returned vs)).
  { unfold EmbeddingGenerator.load_index, bind. rewrite log_logged. cbn [fs logged].
    now rewrite Hfs, lookup_insert_eq. }
  split; [exact Hload|].
  intros query k hits Hhits. unfold EmbeddingGenerator.search_similar, bind at 1.
  rewrite Hload. unfold bind. rewrite log_logged, logged_logged, Hhits. reflexivity.
Qed.

Lemma add_to_existing_index_round_trip_witness :
  exists w' vectorstore,
    EmbeddingGenerator.add_to_existing_index sample_embedder "brandbastion_comments"
      many_comments None corrupt_charts_world = (w', Returned (Some vectorstore))
    /\ EmbeddingGenerator.load_index "brandbastion_comments" w'
       = (logged w' [EvLoadIndex "brandbastion_comments"], Returned vectorstore).
Proof.
  destruct (add_to_existing_index_round_trip sample_embedder "brandbastion_comments"
              many_comments None corrupt_charts_world)
    as (w' & vs & H & Hload & _).
  - repeat split; intros; discriminate.
  - discriminate.
  - now exists w', vs.
Defined.

Section Extending.

Import EmbeddingGenerator.

Lemma add_batches_from_store (self other : Embedder) texts metadatas starts vs w :
  create_documents other = create_documents self ->
  add_documents other = add_documents self ->
  for_each starts (add_batch other texts metadatas) (Some vs) w
  = for_each starts (add_batch self texts metadatas) (Some vs) w.
Proof.
  intros Hsplit Hadd. revert vs w. induction starts as [|i starts IH]; intros vs w;
    [reflexivity|].
  cbn [for_each].
  assert (Hstep : add_batch other texts metadatas (Some vs) i
                  = add_batch self texts metadatas (Some vs) i).
  { unfold add_batch. now rewrite Hsplit, Hadd. }
  rewrite Hstep. unfold bind.
  destruct (add_batch self texts metadatas (Some vs) i w) as [w1 r] eqn:E.
  destruct (add_batch_outcome self _ _ _ _ _ _ _ E) as [_ [->|(vs' & ->)]]; [reflexivity|].
  apply IH.
Qed.

(** The loop reads nothing of the world. *)
Lemma add_batches_pure (self : Embedder) texts metadatas starts vectorstore :
  exists r, forall w,
    for_each starts (add_batch self texts metadatas) vectorstore w = (w, r).
Proof.
  revert vectorstore. induction starts as [|i starts IH]; intros vectorstore.
  - exists (Returned vectorstore). reflexivity.
  - assert (Hstep : exists r1, forall w,
                      add_batch self texts metadatas vectorstore i w = (w, r1)).
    { unfold add_batch, bind, call.
      destruct (create_documents self _ _) as [documents|]; [|now eexists].
      destruct vectorstore as [vs|]; cbn [ret].
      - destruct (add_documents self vs documents); now eexists.
      - destruct (from_documents self documents); now eexists. }
    destruct Hstep as ([next|e] & Hstep).
    + destruct (IH next) as (r & Hr). exists r. intros w.
      cbn [for_each]. unfold bind. now rewrite Hstep.
    + exists (Raised e). intros w. cbn [for_each]. unfold bind. now rewrite Hstep.
Qed.

(** [add_to_existing_index] once the directory has been looked at. *)
Lemma add_to_existing_index_phased index_name w :
  exists events,
    forall (self : Embedder) texts metadatas,
      add_to_existing_index self index_name texts metadatas w
      = bind (for_each (range_step (length texts) batch_size)
                (add_batch self texts metadatas) (loadable w index_name))
          (fun vectorstore =>
             match vectorstore with
             | Some vectorstore =>
                 bind (save_index vectorstore index_name) (fun _ => ret (Some vectorstore))
             | None => ret None
             end)
          (mkWorld (without_unloadable w index_name) (calls w ++ events)).
Proof.
  destruct (open_existing_index index_name w) as (events & Hopen).
  exists events. intros self texts metadatas.
  unfold add_to_existing_index. rewrite bind_assoc. unfold bind at 1. now rewrite Hopen.
Qed.

End Extending.

(** X19: texts added to an index that loads extend its store: no new index
    is built, so the outcome does not depend on the service that builds
    one.  A directory that does not load counts for nothing: the outcome and
    the directories left are those of the same call without that
    directory. *)
Theorem add_to_existing_index_extends (self other : EmbeddingGenerator.Embedder)
  (index_name : string) (texts : list string)
  (metadatas : option (list (gmap string MetaValue))) (w : World) :
  (loadable w index_name <> None ->
   EmbeddingGenerator.create_documents other = EmbeddingGenerator.create_documents self ->
   EmbeddingGenerator.add_documents other = EmbeddingGenerator.add_documents self ->
   EmbeddingGenerator.add_to_existing_index other index_name texts metadatas w
   = EmbeddingGenerator.add_to_existing_index self index_name texts metadatas w)
  /\ (loadable w index_name = None ->
      let here := EmbeddingGenerator.add_to_existing_index self index_name texts metadatas w in
      let fresh :=
        EmbeddingGenerator.add_to_existing_index self index_name texts metadatas
          (without_index w index_name) in
      snd here = snd fresh /\ fs (fst here) = fs (fst fresh)).
Proof.
  split.
  - intros Hload Hsplit Hadd.
    destruct (add_to_existing_index_phased index_name w) as (events & Hphase).
    rewrite !Hphase.
    destruct (loadable w index_name) as [vs|]; [|now destruct Hload].
    unfold bind. now rewrite (add_batches_from_store self other).
  - intros Hload. cbv zeta.
    destruct (add_to_existing_index_phased index_name w) as (events & Hphase).
    destruct (add_to_existing_index_phased index_name (without_index w index_name))
      as (events' & Hphase').
    rewrite Hphase, Hphase'.
    assert (Hfresh : loadable (without_index w index_name) index_name = None).
    { unfold loadable, without_index. cbn [fs]. now rewrite lookup_delete_eq. }
    assert (Hfs : without_unloadable (without_index w index_name) index_name
                  = without_unloadable w index_name).
    { unfold without_unloadable. rewrite Hfresh, Hload. unfold without_index. cbn [fs].
      apply delete_id, lookup_delete_eq. }
    rewrite Hfresh, Hload, Hfs. unfold bind.
    destruct (add_batches_pure self texts metadatas
                (EmbeddingGenerator.range_step (length texts) EmbeddingGenerator.batch_size)
                None) as (r & Hr).
    rewrite !Hr. destruct r as [[vs|]|e]; cbn; split; reflexivity.
Qed.

Lemma add_to_existing_index_extends_witness :
  snd (EmbeddingGenerator.add_to_existing_index sample_embedder "brandbastion"
         ["Engagement rate: 4.2%"] None corrupt_charts_world)
  = snd (EmbeddingGenerator.add_to_existing_index sample_embedder "brandbastion"
           ["Engagement rate: 4.2%"] None (fresh_world ∅)).
Proof.
  destruct (add_to_existing_index_extends sample_embedder sample_embedder "brandbastion"
              ["Engagement rate: 4.2%"] None corrupt_charts_world) as [_ Hfresh].
  destruct (Hfresh eq_refl) as [Hsnd _]. exact Hsnd.
Defined.

(** ** Tables as text *)

Section Tables.

Import EmbeddingGenerator.

Lemma row_cells_spec (row : list (option string)) (cell : string) :
  In cell (row_cells row) <-> In (Some cell) row /\ cell <> "".
Proof.
  unfold row_cells. rewrite in_flat_map. split.
  - intros ([[|c s]|] & Hin & Hc); [destruct Hc | | destruct Hc].
    destruct Hc as [<-|[]]. split; [exact Hin | discriminate].
  - intros [Hin Hne]. exists (Some cell). split; [exact Hin|].
    destruct cell; [now destruct Hne | now left].
Qed.

Lemma free_of_join c sep (parts : list string) :
  free_of c sep -> Forall (free_of c) parts -> free_of c (PyStr.join sep parts).
Proof.
  intros Hsep. induction 1 as [|p parts Hp Hparts IH]; [reflexivity|].
  destruct parts as [|q parts]; [exact Hp|].
  rewrite join_cons. unfold free_of in *. rewrite !count_char_append. lia.
Qed.

Lemma row_text_single_line (row : list (option string)) :
  Forall (fun cell => forall s, cell = Some s -> single_line s) row ->
  single_line (row_text row).
Proof.
  intros Hrow. apply free_of_join; [reflexivity|].
  apply List.Forall_forall. intros cell Hc. apply row_cells_spec in Hc as [Hin _].
  rewrite List.Forall_forall in Hrow. exact (Hrow _ Hin cell eq_refl).
Qed.

End Tables.

(** X20: the text of a table has one line for each row, in order: the cells
    of the row that are neither absent nor empty, separated by " | ".
    When no cell holds a line feed, splitting the text of a table that has
    rows at the line feeds gives back those lines.  A table without rows has
    the empty text, as has a table of one row without cells. *)
Theorem table_to_text_lines (table_data : EmbeddingGenerator.Table) :
  (table_data <> [] ->
   Forall (Forall (fun cell => forall s, cell = Some s -> single_line s)) table_data ->
   PyStr.split_char (ascii_of_N 10) (EmbeddingGenerator._table_to_text table_data)
   = map row_text table_data)
  /\ EmbeddingGenerator._table_to_text table_data = PyStr.join PyStr.nl (map row_text table_data)
  /\ (forall row cell, In row table_data ->
        (In cell (EmbeddingGenerator.row_cells row) <-> In (Some cell) row /\ cell <> ""))
  /\ EmbeddingGenerator._table_to_text [] = EmbeddingGenerator._table_to_text [[]].
Proof.
  assert (Htext : EmbeddingGenerator._table_to_text table_data
                  = PyStr.join PyStr.nl (map row_text table_data)).
  { unfold EmbeddingGenerator._table_to_text. now destruct table_data. }
  split; [|split; [exact Htext|split; [|reflexivity]]].
  - intros Hne Hcells. rewrite Htext. apply split_char_join.
    + destruct table_data; [now destruct Hne | discriminate].
    + apply List.Forall_forall. intros line Hline.
      apply in_map_iff in Hline as (row & <- & Hrow).
      apply row_text_single_line. rewrite List.Forall_forall in Hcells. now apply Hcells.
  - intros row cell _. apply row_cells_spec.
Qed.

Lemma table_to_text_lines_witness :
  PyStr.split_char (ascii_of_N 10) (EmbeddingGenerator._table_to_text sample_table)
  = ["Metric | March"; "Engagement | 4.2%"; ""].
Proof.
  destruct (table_to_text_lines sample_table) as [Hlines _].
  rewrite Hlines; [reflexivity | discriminate |].
  unfold sample_table.
  repeat first [apply List.Forall_nil | apply List.Forall_cons];
    intros s H; first [discriminate H | injection H as <-; reflexivity].
Defined.

(** ** Indexing the data of a request *)

Section RequestIndexing.

Context (embedding_generator : EmbeddingGenerator.Embedder).

Lemma index_collection_cases logical_name item_metadata items w :
  exists w' done,
    index_collection embedding_generator logical_name item_metadata items w
    = (w', Returned done)
    /\ (forall other, other <> _get_actual_index_name logical_name ->
                      fs w' !! other = fs w !! other)
    /\ collection_indexed logical_name items done w w'
    /\ (embedder_answers embedding_generator -> provided items <> None -> done = true).
Proof.
  unfold index_collection, collection_indexed.
  destruct items as [[|item rest]|].
  - exists w, false. cbn. repeat split; try reflexivity. now intros _ [].
  - cbn [provided]. unfold try_except_Exception, bind.
    destruct (EmbeddingGenerator.add_to_existing_index embedding_generator
                (_get_actual_index_name logical_name) (item :: rest) _ w)
      as [w1 r] eqn:E.
    pose proof (add_to_existing_index_cases _ _ _ _ _ _ _ E) as Hcases.
    destruct r as [[vs|]|e].
    + exists w1, true. destruct Hcases as [Hfs _]. cbn [ret].
      split; [reflexivity|]. split; [intros other Hne; rewrite Hfs;
                                     now apply lookup_insert_ne|].
      split; [|reflexivity]. exists vs. unfold index_dir. now rewrite Hfs, lookup_insert_eq.
    + destruct Hcases as (Hnil & _). discriminate Hnil.
    + exists w1, false. destruct Hcases as (_ & _ & Hfs). cbn [ret].
      split; [reflexivity|]. split; [|split].
      * intros other Hne. rewrite Hfs. unfold without_unloadable.
        destruct (loadable w _); [reflexivity | now apply lookup_delete_ne].
      * unfold index_dir. rewrite Hfs. unfold without_unloadable, loadable.
        destruct (fs w !! _get_actual_index_name logical_name) as [[| |vs]|] eqn:El;
          cbn [option_map]; rewrite ?lookup_delete_eq; try reflexivity. exact El.
      * intros Hans _.
        destruct (add_to_existing_index_total embedding_generator
                    (_get_actual_index_name logical_name) (item :: rest)
                    (Some (imap (fun idx _ => item_metadata idx) (item :: rest))) w Hans)
          as (w2 & vs & Hok); [discriminate|].
        rewrite Hok in E. discriminate E.
  - exists w, false. cbn. repeat split; try reflexivity. now intros _ [].
Qed.

Lemma collection_indexed_not_corrupt logical_name items done w w' :
  collection_indexed logical_name items done w w' ->
  provided items <> None -> corrupt w' logical_name = false.
Proof.
  unfold collection_indexed, corrupt. destruct (provided items); [|now intros _ []].
  intros H _. destruct done.
  - destruct H as (vs & ->). reflexivity.
  - rewrite H. now destruct (loadable w _).
Qed.

Lemma collection_indexed_later logical_name items done w w1 w2 :
  collection_indexed logical_name items done w w1 ->
  index_dir w2 logical_name = index_dir w1 logical_name ->
  collection_indexed logical_name items done w w2.
Proof.
  unfold collection_indexed. intros H Heq. rewrite Heq. exact H.
Qed.

Lemma collection_indexed_earlier logical_name items done w0 w w' :
  collection_indexed logical_name items done w w' ->
  fs w !! _get_actual_index_name logical_name = fs w0 !! _get_actual_index_name logical_name ->
  collection_indexed logical_name items done w0 w'.
Proof.
  unfold collection_indexed, index_dir, loadable. intros H Heq. now rewrite <- Heq.
Qed.

(** Once [create_indices_from_data] has run, the index of a collection
    that came with items is not corrupt. *)
Lemma create_indices_not_corrupt charts comments w w' r :
  create_indices_from_data embedding_generator charts comments w = (w', r) ->
  (provided charts <> None -> corrupt w' "charts" = false)
  /\ (provided comments <> None -> corrupt w' "comments" = false).
Proof.
  unfold create_indices_from_data, bind.
  destruct (index_collection_cases "charts" chart_metadata charts w)
    as (w1 & done1 & -> & _ & Hdone1 & _).
  destruct (index_collection_cases "comments" comment_metadata comments w1)
    as (w2 & done2 & -> & Hother2 & Hdone2 & _).
  cbn [ret]. intros H. injection H as <- _.
  change (_get_actual_index_name "comments") with "brandbastion_comments" in *.
  split.
  - intros Hp.
    apply (collection_indexed_not_corrupt "charts" charts done1 w); [|exact Hp].
    apply (collection_indexed_later _ _ _ _ w1); [exact Hdone1|].
    unfold index_dir. apply Hother2. discriminate.
  - intros Hp. exact (collection_indexed_not_corrupt _ _ _ _ _ Hdone2 Hp).
Qed.

End RequestIndexing.

(** X21: [create_indices_from_data] never raises.  It touches no index but
    those of the two collections.  For a collection without items in the
    request it does nothing and leaves the flag unset; for a collection with
    items, the index loads afterwards when the flag is set, and when the
    flag is unset (the embedding failed) an index that loaded is what it
    was and no unusable directory is left.  A failure for the charts does
    not keep the comments from being indexed; when the collaborators of the
    generator answer, the flag of every collection with items is set. *)
Theorem create_indices_from_data_spec (embedding_generator : EmbeddingGenerator.Embedder)
  (charts comments : option (list string)) (w : World) :
  exists w' done,
    create_indices_from_data embedding_generator charts comments w = (w', Returned done)
    /\ (forall name, name <> "brandbastion" -> name <> "brandbastion_comments" ->
                     fs w' !! name = fs w !! name)
    /\ collection_indexed "charts" charts (charts_indexed done) w w'
    /\ collection_indexed "comments" comments (comments_indexed done) w w'
    /\ (embedder_answers embedding_generator ->
        (provided charts <> None -> charts_indexed done = true)
        /\ (provided comments <> None -> comments_indexed done = true)).
Proof.
  unfold create_indices_from_data, bind.
  destruct (index_collection_cases embedding_generator "charts" chart_metadata charts w)
    as (w1 & done1 & -> & Hother1 & Hdone1 & Hans1).
  destruct (index_collection_cases embedding_generator "comments" comment_metadata comments w1)
    as (w2 & done2 & -> & Hother2 & Hdone2 & Hans2).
  exists w2, (mkIndexed done1 done2). cbn [ret charts_indexed comments_indexed].
  change (_get_actual_index_name "charts") with "brandbastion" in *.
  change (_get_actual_index_name "comments") with "brandbastion_comments" in *.
  split; [reflexivity|]. split; [|split; [|split]].
  - intros name Hc Hm. now rewrite Hother2, Hother1.
  - apply (collection_indexed_later _ _ _ _ w1); [exact Hdone1|].
    unfold index_dir. apply Hother2. discriminate.
  - apply (collection_indexed_earlier _ _ _ _ w1); [exact Hdone2|].
    apply Hother1. discriminate.
  - intros Hans. split; [now apply Hans1 | now apply Hans2].
Qed.

(** X22: once [create_indices_from_data] has run on the charts and the
    comments of a request, no index of a collection that came with items is
    corrupt, so [extract_context] has no note to write for that request:
    when it gathers no source, the context is the sentinel and nothing
    else. *)
Theorem no_note_after_indexing (embedding_generator : EmbeddingGenerator.Embedder)
  (self : Services) (state : AgentState) (w w1 w2 : World) (done : Indexed)
  (state' : AgentState) :
  create_indices_from_data embedding_generator (charts state) (comments state) w
  = (w1, Returned done) ->
  extract_context self state w1 = (w2, Returned state') ->
  index_notes state w1 = []
  /\ (context_sources state' = [] -> context state' = no_indexed_data).
Proof.
  intros Hindex Hx.
  destruct (create_indices_not_corrupt embedding_generator _ _ _ _ _ Hindex) as [Hc Hm].
  assert (Hnotes : index_notes state w1 = []).
  { unfold index_notes, charts_note, comments_note.
    destruct (provided (charts state)) eqn:Ec.
    - rewrite Hc by discriminate.
      destruct (provided (comments state)) eqn:Em.
      + now rewrite Hm by discriminate.
      + now destruct (corrupt w1 "comments").
    - destruct (provided (comments state)) eqn:Em.
      + rewrite Hm by discriminate. now destruct (corrupt w1 "charts").
      + now destruct (corrupt w1 "charts"), (corrupt w1 "comments"). }
  split; [exact Hnotes|]. intros Hempty.
  assert (Hr : returned (extract_context self state w1) = Some state') by now rewrite Hx.
  apply extract_context_spec in Hr as (_ & _ & Hs).
  pose proof (extracted_empty state w1) as He. unfold extracted in He.
  rewrite <- Hs in He. rewrite (He Hempty), Hnotes. reflexivity.
Qed.

Lemma no_note_after_indexing_witness :
  exists w1 done w2 state',
    create_indices_from_data failing_embedder (charts chart_request) (comments chart_request)
      corrupt_charts_world = (w1, Returned done)
    /\ extract_context (sample_services "analytical") chart_request w1
       = (w2, Returned state')
    /\ charts_indexed done = false
    /\ context state' = no_indexed_data.
Proof.
  eexists. eexists. eexists. eexists.
  split; [vm_compute; reflexivity|]. split; [vm_compute; reflexivity|].
  split; [reflexivity|].
  destruct (no_note_after_indexing failing_embedder (sample_services "analytical")
              chart_request corrupt_charts_world _ _ _ _ eq_refl eq_refl) as [_ Hs].
  apply Hs. reflexivity.
Defined.

(** ** Building an index from parsed comments *)

Section Replacing.

Import EmbeddingGenerator.

Context (self : Embedder).

Lemma range_step_single (n : nat) : 0 < n <= batch_size -> range_step n batch_size = [0].
Proof.
  unfold range_step, batch_size. intros Hn.
  replace ((n + 20 - 1) / 20) with 1; [reflexivity|].
  apply Nat.div_unique with (r := n - 1); lia.
Qed.

Lemma create_index_from_comments_cases comments index_name w :
  create_index_from_comments self comments index_name w
  = match comments with
    | [] => (w, Returned false)
    | _ =>
        match create_documents self (comment_texts comments)
                (Some (comment_metadatas comments)) with
        | None => (w, Raised ServiceError)
        | Some documents =>
            match from_documents self documents with
            | None => (w, Raised ServiceError)
            | Some vectorstore =>
                (mkWorld (<[index_name := Loadable vectorstore]> (fs w)) (calls w),
                 Returned true)
            end
        end
    end.
Proof.
  unfold create_index_from_comments. fold (comment_texts comments).
  fold (comment_metadatas comments).
  destruct comments as [|comment rest]; [reflexivity|].
  change (comment_texts (comment :: rest))
    with (CommentParser.text comment :: comment_texts rest) at 1.
  cbv iota. unfold bind at 1, create_embeddings_from_texts, bind at 1, call.
  destruct (create_documents self _ _) as [documents|]; [|reflexivity].
  cbn [ret]. destruct (from_documents self documents) as [vs|]; reflexivity.
Qed.

(** One batch added where no index loads. *)
Lemma add_to_existing_index_single comments index_name w :
  0 < length comments <= 20 -> loadable w index_name = None ->
  exists events,
    add_to_existing_index self index_name (comment_texts comments)
      (Some (comment_metadatas comments)) w
    = let w1 := mkWorld (without_unloadable w index_name) (calls w ++ events) in
      match create_documents self (comment_texts comments)
              (Some (comment_metadatas comments)) with
      | None => (w1, Raised ServiceError)
      | Some documents =>
          match from_documents self documents with
          | None => (w1, Raised ServiceError)
          | Some vectorstore =>
              (mkWorld (<[index_name := Loadable vectorstore]> (fs w1)) (calls w1),
               Returned (Some vectorstore))
          end
      end.
Proof.
  intros Hlen Hload.
  destruct (add_to_existing_index_phased index_name w) as (events & Hphase).
  exists events. rewrite Hphase, Hload.
  assert (Hn : 0 < length (comment_texts comments) <= batch_size).
  { unfold comment_texts, batch_size. rewrite length_map. exact Hlen. }
  rewrite (range_step_single _ Hn). cbn [for_each].
  assert (Htexts : batch_texts (comment_texts comments) 0 = comment_texts comments).
  { unfold batch_texts. rewrite drop_0. apply take_ge. unfold batch_size in *. lia. }
  assert (Hmetas : batch_metadatas (Some (comment_metadatas comments)) 0
                   = Some (comment_metadatas comments)).
  { unfold batch_metadatas.
    destruct comments as [|comment rest]; [cbn in Hlen; lia|].
    change (comment_metadatas (comment :: rest))
      with (<["source" := MStr "user_comment"]>
              {["comment_id" := MInt (Z.of_nat (CommentParser.id comment))]}
            :: comment_metadatas rest).
    cbv beta iota. cbn [drop]. f_equal. apply take_ge. cbn [length].
    unfold comment_metadatas, batch_size. rewrite length_map.
    cbn [length] in Hlen. lia. }
  unfold add_batch. rewrite Htexts, Hmetas. unfold bind, call, save_index.
  destruct (create_documents self _ _) as [documents|]; [|reflexivity].
  cbn [ret]. destruct (from_documents self documents) as [vs|]; reflexivity.
Qed.

End Replacing.

(** X23: [create_index_from_comments] builds the index from the comments
    alone and puts it in the place of whatever was there: it returns
    [False] and changes nothing when there is no comment, fails with the
    error of a service and changes nothing when the embedding fails, and
    otherwise leaves an index that loads.  What it returns, and the store
    it leaves, do not depend on the directory it finds.  For at most 20
    comments and no index that loads, [add_to_existing_index] succeeds or
    fails on the same texts and metadata as it does, and leaves the same
    store. *)
Theorem create_index_from_comments_spec (self : EmbeddingGenerator.Embedder)
  (comments : list CommentParser.Comment) (index_name : string) (w : World) :
  let made := EmbeddingGenerator.create_index_from_comments self comments index_name w in
  (forall other, other <> index_name -> fs (fst made) !! other = fs w !! other)
  /\ match snd made with
     | Returned true => comments <> [] /\ loadable (fst made) index_name <> None
     | Returned false => comments = [] /\ fst made = w
     | Raised e => e = ServiceError /\ comments <> [] /\ fst made = w
     end
  /\ (forall w0,
        let made0 := EmbeddingGenerator.create_index_from_comments self comments index_name w0 in
        snd made0 = snd made
        /\ (snd made = Returned true ->
            loadable (fst made0) index_name = loadable (fst made) index_name))
  /\ (0 < length comments <= 20 -> loadable w index_name = None ->
      let added :=
        EmbeddingGenerator.add_to_existing_index self index_name (comment_texts comments)
          (Some (comment_metadatas comments)) w in
      built (snd added) = built (snd made)
      /\ (snd made = Returned true ->
          loadable (fst added) index_name = loadable (fst made) index_name)).
Proof.
  cbv zeta. rewrite !create_index_from_comments_cases.
  split; [|split; [|split]].
  - intros other Hne. destruct comments as [|comment rest]; [reflexivity|].
    destruct (EmbeddingGenerator.create_documents self _ _) as [documents|]; [|reflexivity].
    destruct (EmbeddingGenerator.from_documents self documents) as [vs|]; [|reflexivity].
    cbn [fst fs]. now apply lookup_insert_ne.
  - destruct comments as [|comment rest]; [now split|].
    destruct (EmbeddingGenerator.create_documents self _ _) as [documents|];
      [|now repeat split].
    destruct (EmbeddingGenerator.from_documents self documents) as [vs|]; [|now repeat split].
    cbn [fst snd]. split; [discriminate|]. unfold loadable. cbn [fs].
    now rewrite lookup_insert_eq.
  - intros w0. rewrite create_index_from_comments_cases.
    destruct comments as [|comment rest]; [now split|].
    destruct (EmbeddingGenerator.create_documents self _ _) as [documents|]; [|now split].
    destruct (EmbeddingGenerator.from_documents self documents) as [vs|]; [|now split].
    cbn [fst snd]. split; [reflexivity|]. intros _. unfold loadable. cbn [fs].
    now rewrite !lookup_insert_eq.
  - intros Hlen Hload.
    destruct (add_to_existing_index_single self comments index_name w Hlen Hload)
      as (events & ->). cbv zeta.
    destruct comments as [|comment rest]; [cbn in Hlen; lia|].
    destruct (EmbeddingGenerator.create_documents self _ _) as [documents|];
      [|split; [reflexivity | discriminate]].
    destruct (EmbeddingGenerator.from_documents self documents) as [vs|];
      [|split; [reflexivity | discriminate]].
    cbn [fst snd built]. split; [reflexivity|]. intros _. unfold loadable. cbn [fs].
    now rewrite !lookup_insert_eq.
Qed.

Lemma create_index_from_comments_spec_witness :
  snd (EmbeddingGenerator.create_index_from_comments sample_embedder
         (CommentParser.parse_comments "Too many ads lately") "comments" corrupt_charts_world)
  = Returned true
  /\ built (snd (EmbeddingGenerator.add_to_existing_index sample_embedder "comments"
                   (comment_texts (CommentParser.parse_comments "Too many ads lately"))
                   (Some (comment_metadatas (CommentParser.parse_comments "Too many ads lately")))
                   corrupt_charts_world))
     = Returned tt.
Proof.
  split; [vm_compute; reflexivity|].
  destruct (create_index_from_comments_spec sample_embedder
              (CommentParser.parse_comments "Too many ads lately") "comments"
              corrupt_charts_world) as (_ & _ & _ & Hadd).
  destruct Hadd as [Hbuilt _].
  - vm_compute. lia.
  - reflexivity.
  - rewrite Hbuilt. vm_compute. reflexivity.
Defined.

(** ** The two modes side by side *)

Section Modes.

Context (self : Services).

Lemma extracted_same_directories state w w' :
  fs w = fs w' -> extracted state w = extracted state w'.
Proof.
  intros Hfs. unfold extracted, retrieved_sources, retrieved_parts, hits_of, corrupt, index_dir.
  now rewrite Hfs.
Qed.

Lemma extract_context_extracted state w w' state' :
  extract_context self state w = (w', Returned state') ->
  state' = extracted state w /\ fs w' = discard_corrupt w.
Proof.
  intros H.
  assert (Hr : returned (extract_context self state w) = Some state') by now rewrite H.
  apply extract_context_spec in Hr as (Hc & Hm & Hs).
  destruct (extract_context_returns self state w Hc Hm) as (events & Hx).
  rewrite Hx in H. injection H as <- _. split; [exact Hs | reflexivity].
Qed.

Lemma discard_corrupt_same w w' : fs w = fs w' -> discard_corrupt w = discard_corrupt w'.
Proof. intros Hfs. unfold discard_corrupt, corrupt, index_dir. now rewrite Hfs. Qed.

Lemma validate_query_same state w1 w2 w1' w2' st1 st2 :
  validate_query self state w1 = (w1', Returned st1) ->
  validate_query self state w2 = (w2', Returned st2) ->
  st1 = st2 /\ fs w1' = fs w1 /\ fs w2' = fs w2.
Proof.
  unfold validate_query, llm_call, bind. rewrite !log_logged.
  destruct (llm_invoke self _) as [text|]; [|discriminate].
  cbn [ret]. intros H1 H2. injection H1 as <- <-. injection H2 as <- <-. now repeat split.
Qed.

Lemma generate_response_context state w w' final :
  generate_response self state w = (w', Returned final) -> context final = context state.
Proof.
  unfold generate_response. intros H. injection H as _ <-.
  destruct (insights state); reflexivity.
Qed.

End Modes.

(** X24: the two execution modes agree on what they retrieve.  When the
    graph and the streaming mode both return for a request, from worlds with
    the same index directories, their states have the same classification,
    the same bundle of sources, the same context text and the same
    suggested questions, and they leave the same directories.  (The
    response, the insights and the clarification flag are those of the
    mode.) *)
Theorem modes_agree (self : Services) (q : string) (charts comments : option (list string))
  (w1 w2 w1' w2' : World) (final1 final2 : AgentState) :
  fs w1 = fs w2 ->
  execute Graph self q charts comments w1 = (w1', Returned final1) ->
  execute Streaming self q charts comments w2 = (w2', Returned final2) ->
  is_analytical final1 = is_analytical final2
  /\ context_sources final1 = context_sources final2
  /\ context final1 = context final2
  /\ suggested_questions final1 = suggested_questions final2
  /\ fs w1' = fs w2'.
Proof.
  intros Hfs Hg Hs. cbn [execute] in Hg, Hs.
  destruct (validate_query self (initial_state q charts comments)
              (logged w1 [EvNode "validate_query"])) as [v1 [st1|e]] eqn:Hv1.
  2:{ rewrite (run_validate_raises _ _ _ _ _ _ _ Hv1) in Hg. discriminate Hg. }
  rewrite (run_two_arms self q charts comments w1 v1 st1 Hv1) in Hg.
  unfold arun_with_streaming in Hs. apply bind_returned in Hs as (v2 & st2 & Hv2 & Hs).
  destruct (validate_query_same self _ _ _ _ _ _ _ Hv1 Hv2) as (<- & Hf1 & Hf2).
  cbn [fs logged] in Hf1.
  assert (Hv : fs v1 = fs v2) by congruence.
  destruct (is_analytical st1) eqn:Ha.
  - pose proof (analytical_branch_questions self st1 v1 w1' final1 Ha Hg) as Hq1.
    pose proof (streaming_branch_questions self st1 v2 w2' final2 Ha Hs) as Hq2.
    unfold analytical_branch in Hg.
    apply bind_returned in Hg as (u1 & [] & Hl1 & Hg).
    apply bind_returned in Hg as (u2 & x1 & Hx1 & Hg).
    apply bind_returned in Hg as (u3 & [] & Hl3 & Hg).
    apply bind_returned in Hg as (u4 & d1 & Hd1 & Hg).
    apply bind_returned in Hg as (u5 & [] & Hl5 & Hg).
    rewrite log_logged in Hl1, Hl3, Hl5.
    injection Hl1 as <-. injection Hl3 as <-. injection Hl5 as <-.
    unfold streaming_branch in Hs. apply bind_returned in Hs as (t2 & x2 & Hx2 & Hs).
    apply extract_context_extracted in Hx1 as [-> Hu2].
    apply extract_context_extracted in Hx2 as [-> Ht2].
    assert (Hsame : extracted st1 (logged v1 [EvNode "extract_context"]) = extracted st1 v2)
      by now apply extracted_same_directories.
    assert (Hdirs : fs u2 = fs t2).
    { rewrite Hu2, Ht2. now apply discard_corrupt_same. }
    pose proof (moves_analyze_data eq (fun m => eq_refl) (fun a b c => @eq_trans _ a b c) self
                  _ _ _ _ Hd1) as Hfd.
    pose proof (moves_generate_response eq (fun m => eq_refl) self _ _ _ _ Hg) as Hfg.
    pose proof (moves_generate_streaming_response eq (fun m => eq_refl)
                  (fun a b c => @eq_trans _ a b c) self _ _ _ _ Hs) as Hfs2.
    cbn [fs logged] in Hfd, Hfg.
    pose proof (generate_response_context self _ _ _ _ Hg) as Hctx1.
    apply analyze_data_frame in Hd1 as (found & ->).
    apply generate_response_questions in Hg as (_ & Hcs1 & Ha1).
    pose proof (streaming_response_clarification self _ _ _ _ Hs) as (Hcs2 & Hctx2 & _).
    apply generate_streaming_response_questions in Hs as (mid & _ & _ & _ & Ha2).
    cbn [context_sources context set_insights is_analytical] in Hcs1, Ha1, Hctx1.
    assert (Ha12 : is_analytical final1 = is_analytical final2) by congruence.
    assert (Hcs : context_sources final1 = context_sources final2).
    { rewrite Hcs1, Hcs2. now rewrite Hsame. }
    split; [exact Ha12|]. split; [exact Hcs|]. split; [|split].
    + rewrite Hctx1, Hctx2. now rewrite Hsame.
    + rewrite Hq1, Hq2. unfold questions_for. now rewrite Ha12, Hcs.
    + congruence.
  - unfold redirect_branch in Hg. apply bind_returned in Hg as (u1 & [] & Hl1 & Hg).
    rewrite log_logged in Hl1. injection Hl1 as <-.
    injection Hg as <- <-. injection Hs as <- <-. cbn [fs logged]. now repeat split.
Qed.

Lemma modes_agree_witness :
  exists w1' final1 w2' final2,
    execute Graph (sample_services "analytical") quoting_query None None one_comment_world
    = (w1', Returned final1)
    /\ execute Streaming (sample_services "analytical") quoting_query None None
         one_comment_world = (w2', Returned final2)
    /\ context final1 = context final2
    /\ requires_clarification final1 <> requires_clarification final2.
Proof.
  eexists. eexists. eexists. eexists.
  split; [vm_compute; reflexivity|]. split; [vm_compute; reflexivity|].
  destruct (modes_agree (sample_services "analytical") quoting_query None None
              one_comment_world one_comment_world _ _ _ _ eq_refl eq_refl eq_refl)
    as (_ & _ & Hctx & _).
  split; [exact Hctx | vm_compute; discriminate].
Defined.
